(** * RecyclerListView: a shallow embedding of [src/core/RecyclerListView.tsx]

    The component is the coordinator of a windowed list: it owns a few private
    fields (the pending re-layout cursor, the end-reached latch, the viewport
    size, ...) and drives a [VirtualRenderer] with its [LayoutManager] and
    [ViewabilityTracker].  Those three classes, the data/layout/context
    providers and the scroll component live in other files of the repository;
    here they are an interface ([Collaborators]) and the component's methods
    are translated line by line over it.

    Conventions of the embedding:
    - a JavaScript [number] is a [Z] (pixel and index arithmetic; the one place
      where [NaN] changes the control flow, the truthiness of a layout type,
      has a constructor of its own);
    - [null] and [undefined] are [None];
    - a method is a computation in [M]: it reads and writes the component
      ([this]), may throw, and logs the calls it makes to the outside.  A write
      made before a [throw] persists, as it does in JavaScript. *)

From Stdlib Require Import ZArith Ascii String Bool Lia.
From stdpp Require Import base option list strings gmap pretty.

Open Scope Z_scope.

(** ** Plain data *)

(** [Dimension] of dependencies/LayoutProvider. *)
Record Dimension := mkDimension { height : Z; width : Z }.

(** [Point] of layoutmanager/LayoutManager. *)
Record Point := mkPoint { pt_x : Z; pt_y : Z }.

(** [Rect extends Dimension, Point]. *)
Record Rect := mkRect { rect_x : Z; rect_y : Z; rect_height : Z; rect_width : Z }.

(** The value a layout provider returns for an index: [string | number], or
    nothing at all.  [TNaN] is the number that is not truthy and is not [0]. *)
Inductive LayoutType :=
| TUndefined
| TNull
| TString (s : string)
| TNumber (n : Z)
| TNaN.

(** What a context provider stores: the scroll offset (a number) or the
    serialised layouts (a string). *)
Inductive CtxValue :=
| CNum (n : Z)
| CStr (s : string).

(** [RenderStackParams] of VirtualRenderer. *)
Record RenderStackParams := mkParams {
  p_initialOffset : Z;
  p_initialRenderIndex : Z;
  p_isHorizontal : bool;
  p_itemCount : Z;
  p_renderAheadOffset : Z
}.

(** [RenderStackItem]: both fields are optional in the source. *)
Record RenderStackItem := mkItem { key : option string; dataIndex : option Z }.

(** [RenderStack] is an object used as a map from slot key to item; the list
    keeps the order in which [for ... in] enumerates it. *)
Definition RenderStack := list (string * RenderStackItem).

(** The errors a method can end with.  The first three are the
    [RecyclerListViewExceptions] thrown in this file; [TypeError] is what
    JavaScript raises on a property access or a call through [null] or
    [undefined]; [SyntaxError] comes from [JSON.parse]; [OutOfRange] is the
    layout manager's own. *)
Inductive Exn :=
| LayoutException
| UnresolvedDependenciesException
| ItemTypeNullException
| TypeError
| SyntaxError
| OutOfRange.

(** What the virtual renderer calls back into the component: the callbacks
    handed to its constructor ([_renderStackWhenReady] and the arrow function
    that stores [_pendingScrollToOffset]) and the visibility listener. *)
Inductive Callback :=
| RenderStackChanged (stack : RenderStack)
| ScrollOnNextUpdate (offset : Point)
| VisibleItemsChanged (all now notNow : list Z).

#[global] Instance Dimension_eq_dec : EqDecision Dimension.
Proof. solve_decision. Defined.
#[global] Instance Point_eq_dec : EqDecision Point.
Proof. solve_decision. Defined.
#[global] Instance Rect_eq_dec : EqDecision Rect.
Proof. solve_decision. Defined.
#[global] Instance LayoutType_eq_dec : EqDecision LayoutType.
Proof. solve_decision. Defined.
#[global] Instance CtxValue_eq_dec : EqDecision CtxValue.
Proof. solve_decision. Defined.

(** JavaScript's [ToBoolean] on a layout type. *)
Definition truthy (t : LayoutType) : bool :=
  match t with
  | TUndefined | TNull | TNaN => false
  | TString s => negb (String.eqb s EmptyString)
  | TNumber n => negb (n =? 0)
  end.

(** [type !== 0]. *)
Definition not_strictly_zero (t : LayoutType) : bool :=
  match t with
  | TNumber n => negb (n =? 0)
  | _ => true
  end.

(** [a[i]] on an array: [undefined] outside [0 .. length-1]. *)
Definition js_index {A : Type} (a : list A) (i : Z) : option A :=
  if 0 <=? i then a !! Z.to_nat i else None.

(** [Math.min]. *)
Definition Math_min (a b : Z) : Z := Z.min a b.

(** ** The collaborators

    Everything the component reaches through [this._virtualRenderer] is one
    mutable object graph (the renderer, its layout manager, its viewability
    tracker).  [VirtualRenderer] is the state of that graph; a method of any
    object in it is a function of the graph.  [getLayoutManager()] and
    [getViewabilityTracker()] are only ever tested for null and dereferenced,
    so they are the two presence tests.  Methods that run the reconciler or
    the tracker also return the callbacks they fired, in order; the component
    runs them once the method has returned, which is when their effects (a
    [setState], a pending scroll offset, a call of the observer prop) can
    first be seen from outside.

    [this._layout] and [this._params] are handed to the renderer by
    reference: the renderer and the layout manager keep the very objects the
    component keeps.  [setParamsAndDimensions] and [setLayoutManager] pass
    their contents; the two ways the sharing shows between such calls have a
    function of their own.  [layoutWritten] is what a write of the component
    into [this._layout] does to the graph, which reads its viewport from that
    object; [_onSizeChanged] passes its write on where the renderer runs
    without being handed the dimension anew.  [paramsObject] is the content
    of the parameters object as the renderer has left it; [init()] may write
    to it, and [_initTrackers] reads it back once [init()] has run. *)
Class Collaborators := {
  (* dependencies/DataProvider *)
  DataProvider : Type;
  Data : Type;
  DataProvider_eq :: EqDecision DataProvider;
  getSize : DataProvider -> Z;
  getDataForIndex : DataProvider -> Z -> Data;
  getFirstIndexToProcessInternal : DataProvider -> Z;
  (* dependencies/LayoutProvider; setLayoutForType writes into the Dimension
     it is given *)
  LayoutProvider : Type;
  LayoutProvider_eq :: EqDecision LayoutProvider;
  getLayoutTypeForIndex : LayoutProvider -> Z -> LayoutType;
  setLayoutForType : LayoutProvider -> LayoutType -> Dimension -> Z -> Dimension;
  (* dependencies/ContextProvider *)
  ContextProvider : Type;
  getUniqueKey : ContextProvider -> option string;
  ctx_save : ContextProvider -> string -> CtxValue -> ContextProvider;
  ctx_get : ContextProvider -> string -> option CtxValue;
  ctx_remove : ContextProvider -> string -> ContextProvider;
  (* JSON.stringify({layoutArray: l}) and JSON.parse(s).layoutArray *)
  JSON_stringify : list Rect -> string;
  JSON_parse : string -> Exn + option (list Rect);
  (* scrollcomponent/BaseScrollView *)
  ScrollEvent : Type;
  (* VirtualRenderer *)
  VirtualRenderer : Type;
  newVirtualRenderer : bool -> VirtualRenderer;
  attachVisibleItemsListener : VirtualRenderer -> VirtualRenderer;
  removeVisibleItemsListener : VirtualRenderer -> VirtualRenderer;
  hasLayoutManager : VirtualRenderer -> bool;
  hasViewabilityTracker : VirtualRenderer -> bool;
  setParamsAndDimensions :
    VirtualRenderer -> RenderStackParams -> Dimension -> VirtualRenderer;
  (* the two objects shared with the component *)
  layoutWritten : VirtualRenderer -> Dimension -> VirtualRenderer;
  paramsObject : VirtualRenderer -> RenderStackParams;
  (* setLayoutManager(new LayoutManager(provider, dim, isHorizontal, cached)) *)
  setLayoutManager :
    VirtualRenderer -> option LayoutProvider -> Dimension -> bool ->
    option (list Rect) -> VirtualRenderer;
  setLayoutProvider : VirtualRenderer -> option LayoutProvider -> VirtualRenderer;
  vr_init : VirtualRenderer -> VirtualRenderer * list Callback;
  getInitialOffset : VirtualRenderer -> Point;
  startViewabilityTracker : VirtualRenderer -> VirtualRenderer * list Callback;
  refresh : VirtualRenderer -> VirtualRenderer * list Callback;
  refreshWithAnchor : VirtualRenderer -> VirtualRenderer * list Callback;
  updateOffset : VirtualRenderer -> Z -> Z -> VirtualRenderer * list Callback;
  getLayoutDimension : VirtualRenderer -> Dimension;
  (* ViewabilityTracker *)
  getLastOffset : VirtualRenderer -> Z;
  findFirstLogicallyVisibleIndex : VirtualRenderer -> Z;
  (* LayoutManager; setMaxBounds writes into the Dimension it is given *)
  getLayouts : VirtualRenderer -> list Rect;
  getOffsetForIndex : VirtualRenderer -> Z -> Exn + Point;
  overrideLayout : VirtualRenderer -> Z -> Dimension -> VirtualRenderer;
  reLayoutFromIndex : VirtualRenderer -> Z -> Z -> VirtualRenderer;
  setMaxBounds : VirtualRenderer -> Dimension -> Dimension
}.

(** The two facts about the collaborators that sequences of calls rely on:
    neither overriding one item's size nor storing the parameters drops the
    layout manager. *)
Class CollaboratorLaws (C : Collaborators) : Prop := {
  overrideLayout_keeps_manager :
    forall v i d, hasLayoutManager v = true ->
                  hasLayoutManager (overrideLayout v i d) = true;
  setParamsAndDimensions_keeps_manager :
    forall v p d, hasLayoutManager v = true ->
                  hasLayoutManager (setParamsAndDimensions v p d) = true
}.

(** A context provider that gives back what was saved under a key and whose
    unique key does not change when something is saved. *)
Class ContextProviderLaws (C : Collaborators) : Prop := {
  ctx_get_save : forall c k v, ctx_get (ctx_save c k v) k = Some v;
  getUniqueKey_save : forall c k v, getUniqueKey (ctx_save c k v) = getUniqueKey c
}.

(** A context provider whose keys are independent: saving under one key
    leaves what is stored under another. *)
Class ContextProviderKeys (C : Collaborators) : Prop := {
  ctx_get_save_other :
    forall c k k' v, k <> k' -> ctx_get (ctx_save c k' v) k = ctx_get c k
}.

Section Component.

Context {C : Collaborators}.

(** ** The component *)

(** [RecyclerListViewProps].  A callback prop is its presence; [rowRenderer]
    and the web-only props are passed through untouched and left out. *)
Record RecyclerListViewProps := mkProps {
  layoutProvider : option LayoutProvider;
  dataProvider : option DataProvider;
  contextProvider : option ContextProvider;
  renderAheadOffset : Z;
  isHorizontal : bool;
  onScroll : bool;
  onEndReached : bool;
  onEndReachedThreshold : Z;
  onVisibleIndexesChanged : bool;
  initialOffset : Z;
  initialRenderIndex : Z;
  disableRecycling : bool;
  forceNonDeterministicRendering : bool
}.

(** The instance: [props], [state.renderStack] and the private fields, with
    the names they have in the class.  [_scrollComponent] is whether the ref
    is set. *)
Record RecyclerListView := mkRLV {
  props : RecyclerListViewProps;
  renderStack : RenderStack;
  _onEndReachedCalled : bool;
  _virtualRenderer : VirtualRenderer;
  _initComplete : bool;
  _relayoutReqIndex : Z;
  _params : RenderStackParams;
  _layout : Dimension;
  _pendingScrollToOffset : option Point;
  _tempDim : Dimension;
  _initialOffset : Z;
  _cachedLayouts : option (list Rect);
  _scrollComponent : bool
}.

(** The calls the component makes to the outside, in the order it makes them:
    the callback props, the scroll component, the console, the debouncer and
    timers, [setState], and the three layout-manager calls whose arguments
    the properties below speak about. *)
Inductive Event :=
| OnEndReached
| OnScroll (rawEvent : ScrollEvent) (offsetX offsetY : Z)
| OnVisibleIndexesChanged (all now notNow : list Z)
| ScrollTo (x y : Z) (animate : bool)
| DeferredScrollTo (x y : Z)
| Warn
| RefreshRequest
| SetState
| NewLayoutManager (cachedLayouts : option (list Rect))
| OverrideLayout (index : Z) (dim : Dimension)
| ReLayoutFromIndex (index itemCount : Z).

(** What the element returned by [_renderRowUsingMeta] carries. *)
Record ViewRendererProps := mkView {
  v_key : option string;
  v_data : Data;
  v_x : Z;
  v_y : Z;
  v_layoutType : LayoutType;
  v_index : Z;
  v_forceNonDeterministicRendering : bool;
  v_isHorizontal : bool;
  v_height : Z;
  v_width : Z
}.

(** *** Field updates *)

Definition set_props (p : RecyclerListViewProps) (s : RecyclerListView) :=
  mkRLV p (renderStack s) (_onEndReachedCalled s) (_virtualRenderer s)
        (_initComplete s) (_relayoutReqIndex s) (_params s) (_layout s)
        (_pendingScrollToOffset s) (_tempDim s) (_initialOffset s)
        (_cachedLayouts s) (_scrollComponent s).

Definition set_renderStack (r : RenderStack) (s : RecyclerListView) :=
  mkRLV (props s) r (_onEndReachedCalled s) (_virtualRenderer s)
        (_initComplete s) (_relayoutReqIndex s) (_params s) (_layout s)
        (_pendingScrollToOffset s) (_tempDim s) (_initialOffset s)
        (_cachedLayouts s) (_scrollComponent s).

Definition set_onEndReachedCalled (b : bool) (s : RecyclerListView) :=
  mkRLV (props s) (renderStack s) b (_virtualRenderer s)
        (_initComplete s) (_relayoutReqIndex s) (_params s) (_layout s)
        (_pendingScrollToOffset s) (_tempDim s) (_initialOffset s)
        (_cachedLayouts s) (_scrollComponent s).

Definition set_virtualRenderer (v : VirtualRenderer) (s : RecyclerListView) :=
  mkRLV (props s) (renderStack s) (_onEndReachedCalled s) v
        (_initComplete s) (_relayoutReqIndex s) (_params s) (_layout s)
        (_pendingScrollToOffset s) (_tempDim s) (_initialOffset s)
        (_cachedLayouts s) (_scrollComponent s).

Definition set_initComplete (b : bool) (s : RecyclerListView) :=
  mkRLV (props s) (renderStack s) (_onEndReachedCalled s) (_virtualRenderer s)
        b (_relayoutReqIndex s) (_params s) (_layout s)
        (_pendingScrollToOffset s) (_tempDim s) (_initialOffset s)
        (_cachedLayouts s) (_scrollComponent s).

Definition set_relayoutReqIndex (i : Z) (s : RecyclerListView) :=
  mkRLV (props s) (renderStack s) (_onEndReachedCalled s) (_virtualRenderer s)
        (_initComplete s) i (_params s) (_layout s)
        (_pendingScrollToOffset s) (_tempDim s) (_initialOffset s)
        (_cachedLayouts s) (_scrollComponent s).

Definition set_params (p : RenderStackParams) (s : RecyclerListView) :=
  mkRLV (props s) (renderStack s) (_onEndReachedCalled s) (_virtualRenderer s)
        (_initComplete s) (_relayoutReqIndex s) p (_layout s)
        (_pendingScrollToOffset s) (_tempDim s) (_initialOffset s)
        (_cachedLayouts s) (_scrollComponent s).

Definition set_layout (d : Dimension) (s : RecyclerListView) :=
  mkRLV (props s) (renderStack s) (_onEndReachedCalled s) (_virtualRenderer s)
        (_initComplete s) (_relayoutReqIndex s) (_params s) d
        (_pendingScrollToOffset s) (_tempDim s) (_initialOffset s)
        (_cachedLayouts s) (_scrollComponent s).

Definition set_pendingScrollToOffset (o : option Point) (s : RecyclerListView) :=
  mkRLV (props s) (renderStack s) (_onEndReachedCalled s) (_virtualRenderer s)
        (_initComplete s) (_relayoutReqIndex s) (_params s) (_layout s)
        o (_tempDim s) (_initialOffset s)
        (_cachedLayouts s) (_scrollComponent s).

Definition set_tempDim (d : Dimension) (s : RecyclerListView) :=
  mkRLV (props s) (renderStack s) (_onEndReachedCalled s) (_virtualRenderer s)
        (_initComplete s) (_relayoutReqIndex s) (_params s) (_layout s)
        (_pendingScrollToOffset s) d (_initialOffset s)
        (_cachedLayouts s) (_scrollComponent s).

Definition set_initialOffset (o : Z) (s : RecyclerListView) :=
  mkRLV (props s) (renderStack s) (_onEndReachedCalled s) (_virtualRenderer s)
        (_initComplete s) (_relayoutReqIndex s) (_params s) (_layout s)
        (_pendingScrollToOffset s) (_tempDim s) o
        (_cachedLayouts s) (_scrollComponent s).

Definition set_cachedLayouts (l : option (list Rect)) (s : RecyclerListView) :=
  mkRLV (props s) (renderStack s) (_onEndReachedCalled s) (_virtualRenderer s)
        (_initComplete s) (_relayoutReqIndex s) (_params s) (_layout s)
        (_pendingScrollToOffset s) (_tempDim s) (_initialOffset s)
        l (_scrollComponent s).

Definition set_scrollComponent (b : bool) (s : RecyclerListView) :=
  mkRLV (props s) (renderStack s) (_onEndReachedCalled s) (_virtualRenderer s)
        (_initComplete s) (_relayoutReqIndex s) (_params s) (_layout s)
        (_pendingScrollToOffset s) (_tempDim s) (_initialOffset s)
        (_cachedLayouts s) b.

(** [props.contextProvider] is a shared mutable object: a [save] or [remove]
    on it is a write to the object the props point to. *)
Definition set_contextProvider (c : ContextProvider) (s : RecyclerListView) :=
  let p := props s in
  set_props (mkProps (layoutProvider p) (dataProvider p) (Some c)
                     (renderAheadOffset p) (isHorizontal p) (onScroll p)
                     (onEndReached p) (onEndReachedThreshold p)
                     (onVisibleIndexesChanged p) (initialOffset p)
                     (initialRenderIndex p) (disableRecycling p)
                     (forceNonDeterministicRendering p)) s.

(** *** The method monad *)

Record Outcome (A : Type) := mkOutcome {
  final : RecyclerListView;
  trace : list Event;
  result : Exn + A
}.
Arguments mkOutcome {A}.
Arguments final {A}.
Arguments trace {A}.
Arguments result {A}.

Definition M (A : Type) := RecyclerListView -> Outcome A.

Definition ret {A} (a : A) : M A := fun s => mkOutcome s [] (inr a).

Definition bind {A B} (m : M A) (k : A -> M B) : M B := fun s =>
  match m s with
  | mkOutcome s1 t1 (inl e) => mkOutcome s1 t1 (inl e)
  | mkOutcome s1 t1 (inr a) =>
      match k a s1 with
      | mkOutcome s2 t2 r => mkOutcome s2 (t1 ++ t2) r
      end
  end.

Definition throw {A} (e : Exn) : M A := fun s => mkOutcome s [] (inl e).
Definition emit (ev : Event) : M unit := fun s => mkOutcome s [ev] (inr tt).
Definition this : M RecyclerListView := fun s => mkOutcome s [] (inr s).
Definition modify (f : RecyclerListView -> RecyclerListView) : M unit :=
  fun s => mkOutcome (f s) [] (inr tt).

(** Dereferencing something that may be [null]. *)
Definition deref {A} (o : option A) : M A :=
  match o with Some a => ret a | None => throw TypeError end.

(** A property access or call through a reference that has to be present. *)
Definition require (present : bool) : M unit :=
  if present then ret tt else throw TypeError.

End Component.

Arguments mkOutcome {C A}.
Arguments final {C A}.
Arguments trace {C A}.
Arguments result {C A}.

Notation "x <- m ;; k" := (bind m (fun x => k))
  (at level 100, m at next level, k at level 200, right associativity).
Notation "m ;;; k" := (bind m (fun _ => k))
  (at level 100, k at level 200, right associativity).

Section Methods.

Context {C : Collaborators}.

(** ** The methods, in the order of the source where dependencies allow

    [_dataHasChanged] only forwards to the data provider's [rowHasChanged]
    and is handed to the rows untouched; it is not translated. *)

(** The constructor's instance: field initialisers, a fresh renderer with
    recycling on unless [disableRecycling], and an empty render stack. *)
Definition constructor (p : RecyclerListViewProps) : RecyclerListView :=
  mkRLV p [] false (newVirtualRenderer (negb (disableRecycling p)))
        false (-1) (mkParams 0 0 false 0 250) (mkDimension 0 0)
        None (mkDimension 0 0) 0 None false.

(** [_renderStackWhenReady]: [setState(() => ({renderStack: stack}))]. *)
Definition _renderStackWhenReady (stack : RenderStack) : M unit :=
  modify (set_renderStack stack) ;;; emit SetState.

(** [_onVisibleItemsChanged]: the observer prop is called unguarded. *)
Definition _onVisibleItemsChanged (all now notNow : list Z) : M unit :=
  s <- this ;;
  require (onVisibleIndexesChanged (props s)) ;;;
  emit (OnVisibleIndexesChanged all now notNow).

(** Running the callbacks a renderer method fired. *)
Definition handleCallback (cb : Callback) : M unit :=
  match cb with
  | RenderStackChanged stack => _renderStackWhenReady stack
  | ScrollOnNextUpdate offset => modify (set_pendingScrollToOffset (Some offset))
  | VisibleItemsChanged all now notNow => _onVisibleItemsChanged all now notNow
  end.

Fixpoint handleCallbacks (cbs : list Callback) : M unit :=
  match cbs with
  | [] => ret tt
  | cb :: rest => handleCallback cb ;;; handleCallbacks rest
  end.

(** [this._virtualRenderer.m(...)] for a method that only updates the graph. *)
Definition onRenderer (m : VirtualRenderer -> VirtualRenderer) : M unit :=
  modify (fun s => set_virtualRenderer (m (_virtualRenderer s)) s).

(** [this._virtualRenderer.m(...)] for a method that fires callbacks. *)
Definition onRendererCb (m : VirtualRenderer -> VirtualRenderer * list Callback)
  : M unit :=
  s <- this ;;
  let r := m (_virtualRenderer s) in
  modify (set_virtualRenderer (fst r)) ;;;
  handleCallbacks (snd r).

(** [scrollToOffset(x, y, animate = false)]. *)
Definition scrollToOffset (x y : Z) (animate : bool) : M unit :=
  s <- this ;;
  if _scrollComponent s then emit (ScrollTo x y animate) else ret tt.

(** [scrollToIndex(index, animate)]. *)
Definition scrollToIndex (index : Z) (animate : bool) : M unit :=
  s <- this ;;
  if hasLayoutManager (_virtualRenderer s) then
    match getOffsetForIndex (_virtualRenderer s) index with
    | inl e => throw e
    | inr offsets => scrollToOffset (pt_x offsets) (pt_y offsets) animate
    end
  else emit Warn.

(** The [for] loop of [scrollToItem], at index [i] with [remaining]
    iterations to go: the first row that is [===] to [data] is scrolled to
    and the loop is left.  [same] is [===] on the rows' data. *)
Fixpoint scrollToItem_from (same : Data -> Data -> bool) (dp : DataProvider)
    (data : Data) (animate : bool) (i : Z) (remaining : nat) : M unit :=
  match remaining with
  | O => ret tt
  | S n =>
      if same (getDataForIndex dp i) data then scrollToIndex i animate
      else scrollToItem_from same dp data animate (i + 1) n
  end.

(** [scrollToItem(data, animate)]. *)
Definition scrollToItem (same : Data -> Data -> bool) (data : Data)
    (animate : bool) : M unit :=
  s <- this ;;
  dp <- deref (dataProvider (props s)) ;;
  let count := getSize dp in
  scrollToItem_from same dp data animate 0 (Z.to_nat count).

(** [scrollToTop(animate)]. *)
Definition scrollToTop (animate : bool) : M unit := scrollToOffset 0 0 animate.

(** [scrollToEnd(animate)]. *)
Definition scrollToEnd (animate : bool) : M unit :=
  s <- this ;;
  dp <- deref (dataProvider (props s)) ;;
  let lastIndex := getSize dp - 1 in
  scrollToIndex lastIndex animate.

(** [getCurrentScrollOffset()]. *)
Definition getCurrentScrollOffset (s : RecyclerListView) : Z :=
  if hasViewabilityTracker (_virtualRenderer s)
  then getLastOffset (_virtualRenderer s) else 0.

(** [findApproxFirstVisibleIndex()]. *)
Definition findApproxFirstVisibleIndex (s : RecyclerListView) : Z :=
  if hasViewabilityTracker (_virtualRenderer s)
  then findFirstLogicallyVisibleIndex (_virtualRenderer s) else 0.

(** [_assertDependencyPresence(props)]. *)
Definition _assertDependencyPresence (p : RecyclerListViewProps) : M unit :=
  match dataProvider p, layoutProvider p with
  | Some _, Some _ => ret tt
  | _, _ => throw UnresolvedDependenciesException
  end.

(** [_assertType(type)]: [if (!type && type !== 0) throw ...]. *)
Definition _assertType (type : LayoutType) : M unit :=
  if negb (truthy type) && not_strictly_zero type
  then throw ItemTypeNullException
  else ret tt.

(** [windowBound - lastOffset] of [_processOnEndReached]: how far the last
    reported offset is from the end of the content. *)
Definition distanceFromEnd (s : RecyclerListView) : Z :=
  let layout := getLayoutDimension (_virtualRenderer s) in
  let windowBound :=
    if isHorizontal (props s) then width layout - width (_layout s)
    else height layout - height (_layout s) in
  let lastOffset := getCurrentScrollOffset s in
  windowBound - lastOffset.

(** [_processOnEndReached()].  [this._virtualRenderer] is set by the
    constructor and never cleared, so the guard is the callback's presence. *)
Definition _processOnEndReached : M unit :=
  s <- this ;;
  if onEndReached (props s) then
    if distanceFromEnd s <=? onEndReachedThreshold (props s) then
      if negb (_onEndReachedCalled s) then
        modify (set_onEndReachedCalled true) ;;;
        emit OnEndReached
      else ret tt
    else modify (set_onEndReachedCalled false)
  else ret tt.

(** [_queueStateRefresh()]: hands a [setState] thunk to the debouncer. *)
Definition _queueStateRefresh : M unit := emit RefreshRequest.

(** [_refreshViewability()]. *)
Definition _refreshViewability : M unit :=
  onRendererCb refresh ;;;
  _queueStateRefresh.

(** [new LayoutManager(provider, this._layout, isHorizontal, cached)] handed
    to [setLayoutManager]. *)
Definition installLayoutManager (lp : option LayoutProvider) (horizontal : bool)
    (cached : option (list Rect)) : M unit :=
  s <- this ;;
  emit (NewLayoutManager cached) ;;;
  onRenderer (fun v => setLayoutManager v lp (_layout s) horizontal cached).

(** [layoutManager.reLayoutFromIndex(index, itemCount)]. *)
Definition callReLayoutFromIndex (index itemCount : Z) : M unit :=
  emit (ReLayoutFromIndex index itemCount) ;;;
  onRenderer (fun v => reLayoutFromIndex v index itemCount).

(** [_checkAndChangeLayouts(newProps, forceFullRender?)]. *)
Definition _checkAndChangeLayouts (newProps : RecyclerListViewProps)
    (forceFullRender : bool) : M unit :=
  s0 <- this ;;
  modify (set_params
    (mkParams (p_initialOffset (_params s0)) (p_initialRenderIndex (_params s0))
              (isHorizontal newProps) (p_itemCount (_params s0))
              (p_renderAheadOffset (_params s0)))) ;;;
  dp <- deref (dataProvider newProps) ;;
  s1 <- this ;;
  modify (set_params
    (mkParams (p_initialOffset (_params s1)) (p_initialRenderIndex (_params s1))
              (p_isHorizontal (_params s1)) (getSize dp)
              (p_renderAheadOffset (_params s1)))) ;;;
  s <- this ;;
  onRenderer (fun v => setParamsAndDimensions v (_params s) (_layout s)) ;;;
  if forceFullRender
     || negb (bool_decide (layoutProvider (props s) = layoutProvider newProps))
     || negb (Bool.eqb (isHorizontal (props s)) (isHorizontal newProps))
  then
    installLayoutManager (layoutProvider newProps) (isHorizontal newProps) None ;;;
    onRendererCb refreshWithAnchor
  else if negb (bool_decide (dataProvider (props s) = dataProvider newProps))
  then
    s' <- this ;;
    if hasLayoutManager (_virtualRenderer s') then
      callReLayoutFromIndex (getFirstIndexToProcessInternal dp) (getSize dp) ;;;
      onRendererCb refresh
    else ret tt
  else if 0 <=? _relayoutReqIndex s
  then
    s' <- this ;;
    if hasLayoutManager (_virtualRenderer s') then
      callReLayoutFromIndex (_relayoutReqIndex s') (getSize dp) ;;;
      modify (set_relayoutReqIndex (-1)) ;;;
      _refreshViewability
    else ret tt
  else ret tt.

(** [_initTrackers()].  [this._params] is the object the renderer was given a
    few lines before; what [init()] wrote into it is read back. *)
Definition _initTrackers : M unit :=
  s <- this ;;
  let p := props s in
  _assertDependencyPresence p ;;;
  (if onVisibleIndexesChanged p then onRenderer attachVisibleItemsListener
   else ret tt) ;;;
  dp <- deref (dataProvider p) ;;
  modify (set_params
    (mkParams (if initialOffset p =? 0 then _initialOffset s else initialOffset p)
              (initialRenderIndex p) (isHorizontal p) (getSize dp)
              (renderAheadOffset p))) ;;;
  s1 <- this ;;
  onRenderer (fun v => setParamsAndDimensions v (_params s1) (_layout s1)) ;;;
  installLayoutManager (layoutProvider p) (isHorizontal p) (_cachedLayouts s1) ;;;
  onRenderer (fun v => setLayoutProvider v (layoutProvider p)) ;;;
  onRendererCb vr_init ;;;
  modify (fun s => set_params (paramsObject (_virtualRenderer s)) s) ;;;
  s2 <- this ;;
  let offset := getInitialOffset (_virtualRenderer s2) in
  (if (0 <? pt_y offset) || (0 <? pt_x offset) then
     modify (set_pendingScrollToOffset (Some offset)) ;;;
     emit SetState
   else onRendererCb startViewabilityTracker) ;;;
  modify (set_cachedLayouts None).

(** [_onSizeChanged(layout)].  The two assignments to [this._layout] write
    into the object the renderer and the layout manager hold.  The first-size
    branch and the re-creation hand the renderer that dimension again before
    anything reads it, and a call that throws runs nothing of the renderer;
    in the last branch [refresh()] reads it at once, so the write is passed
    on there. *)
Definition _onSizeChanged (layout : Dimension) : M unit :=
  s <- this ;;
  let hasHeightChanged := negb (height (_layout s) =? height layout) in
  let hasWidthChanged := negb (width (_layout s) =? width layout) in
  modify (set_layout (mkDimension (height layout) (width layout))) ;;;
  if (height layout =? 0) || (width layout =? 0) then throw LayoutException
  else if negb (_initComplete s) then
    modify (set_initComplete true) ;;;
    _initTrackers ;;;
    _processOnEndReached
  else if (hasHeightChanged && hasWidthChanged)
          || (hasHeightChanged && isHorizontal (props s))
          || (hasWidthChanged && negb (isHorizontal (props s)))
  then _checkAndChangeLayouts (props s) true
  else
    onRenderer (fun v => layoutWritten v (mkDimension (height layout) (width layout))) ;;;
    _refreshViewability.

(** [componentWillReceiveProps(newProps)]; React replaces [this.props] only
    after it returns, so both tests below read the old props. *)
Definition componentWillReceiveProps (newProps : RecyclerListViewProps) : M unit :=
  _assertDependencyPresence newProps ;;;
  _checkAndChangeLayouts newProps false ;;;
  s <- this ;;
  if negb (onVisibleIndexesChanged (props s))
  then onRenderer removeVisibleItemsListener
  else onRenderer attachVisibleItemsListener.

(** [componentDidUpdate()]. *)
Definition componentDidUpdate : M unit :=
  s <- this ;;
  match _pendingScrollToOffset s with
  | Some offset =>
      modify (set_pendingScrollToOffset None) ;;;
      let offset' := if isHorizontal (props s) then mkPoint (pt_x offset) 0
                     else mkPoint 0 (pt_y offset) in
      emit (DeferredScrollTo (pt_x offset') (pt_y offset'))
  | None => ret tt
  end ;;;
  _processOnEndReached ;;;
  s' <- this ;;
  _checkAndChangeLayouts (props s') false.

(** The key under which the layouts are cached: [uniqueKey + "_layouts"]. *)
Definition layoutsKey (uniqueKey : string) : string := uniqueKey +:+ "_layouts".

(** A string is truthy when it is not empty. *)
Definition truthy_key (k : option string) : option string :=
  match k with
  | Some s => if String.eqb s EmptyString then None else Some s
  | None => None
  end.

(** [componentWillUnmount()]. *)
Definition componentWillUnmount : M unit :=
  s <- this ;;
  match contextProvider (props s) with
  | Some cp =>
      match truthy_key (getUniqueKey cp) with
      | Some uniqueKey =>
          let cp1 := ctx_save cp uniqueKey (CNum (getCurrentScrollOffset s)) in
          modify (set_contextProvider cp1) ;;;
          if forceNonDeterministicRendering (props s)
             && hasLayoutManager (_virtualRenderer s)
          then
            let layoutsToCache := getLayouts (_virtualRenderer s) in
            modify (set_contextProvider
                      (ctx_save cp1 (layoutsKey uniqueKey)
                                (CStr (JSON_stringify layoutsToCache))))
          else ret tt
      | None => ret tt
      end
  | None => ret tt
  end.

(** [componentWillMount()]. *)
Definition componentWillMount : M unit :=
  s <- this ;;
  match contextProvider (props s) with
  | Some cp =>
      match truthy_key (getUniqueKey cp) with
      | Some uniqueKey =>
          match ctx_get cp uniqueKey with
          | Some (CNum offset) =>
              if 0 <? offset then modify (set_initialOffset offset) else ret tt
          | _ => ret tt
          end ;;;
          (if forceNonDeterministicRendering (props s) then
             match ctx_get cp (layoutsKey uniqueKey) with
             | Some (CStr cachedLayouts) =>
                 if String.eqb cachedLayouts EmptyString then ret tt
                 else match JSON_parse cachedLayouts with
                      | inl e => throw e
                      | inr layoutArray => modify (set_cachedLayouts layoutArray)
                      end
             | _ => ret tt
             end
           else ret tt) ;;;
          modify (set_contextProvider (ctx_remove cp uniqueKey))
      | None => ret tt
      end
  | None => ret tt
  end.

(** The cursor update shared by [_onViewContainerSizeChange] and
    [_checkExpectedDimensionDiscrepancy]:
    [if (c === -1) c = index; else c = Math.min(c, index)]. *)
Definition markForRelayout (index : Z) : M unit :=
  s <- this ;;
  if _relayoutReqIndex s =? -1
  then modify (set_relayoutReqIndex index)
  else modify (set_relayoutReqIndex (Math_min (_relayoutReqIndex s) index)).

(** [_onViewContainerSizeChange(dim, index)]. *)
Definition _onViewContainerSizeChange (dim : Dimension) (index : Z) : M unit :=
  s <- this ;;
  require (hasLayoutManager (_virtualRenderer s)) ;;;
  emit (OverrideLayout index dim) ;;;
  onRenderer (fun v => overrideLayout v index dim) ;;;
  markForRelayout index ;;;
  _queueStateRefresh.

(** [_checkExpectedDimensionDiscrepancy(itemRect, type, index)].  [itemRect]
    is an element read off the layouts array, hence possibly [undefined]. *)
Definition _checkExpectedDimensionDiscrepancy (itemRect : option Rect)
    (type : LayoutType) (index : Z) : M unit :=
  s <- this ;;
  require (hasLayoutManager (_virtualRenderer s)) ;;;
  modify (set_tempDim (setMaxBounds (_virtualRenderer s) (_tempDim s))) ;;;
  lp <- deref (layoutProvider (props s)) ;;
  s1 <- this ;;
  modify (set_tempDim (setLayoutForType lp type (_tempDim s1) index)) ;;;
  s2 <- this ;;
  modify (set_tempDim (setMaxBounds (_virtualRenderer s2) (_tempDim s2))) ;;;
  rect <- deref itemRect ;;
  s3 <- this ;;
  if negb (rect_height rect =? height (_tempDim s3))
     || negb (rect_width rect =? width (_tempDim s3))
  then markForRelayout index
  else ret tt.

(** [dataIndex && dataIndex < dataSize]. *)
Definition renderable (dataIndex : option Z) (dataSize : Z) : option Z :=
  match dataIndex with
  | Some i => if negb (i =? 0) && (i <? dataSize) then Some i else None
  | None => None
  end.

(** [_renderRowUsingMeta(itemMeta)]: the element, or [null]. *)
Definition _renderRowUsingMeta (itemMeta : RenderStackItem)
  : M (option ViewRendererProps) :=
  s <- this ;;
  dp <- deref (dataProvider (props s)) ;;
  let dataSize := getSize dp in
  match renderable (dataIndex itemMeta) dataSize with
  | Some i =>
      require (hasLayoutManager (_virtualRenderer s)) ;;;
      let itemRect := js_index (getLayouts (_virtualRenderer s)) i in
      let data := getDataForIndex dp i in
      lp <- deref (layoutProvider (props s)) ;;
      let type := getLayoutTypeForIndex lp i in
      _assertType type ;;;
      (if negb (forceNonDeterministicRendering (props s))
       then _checkExpectedDimensionDiscrepancy itemRect type i
       else ret tt) ;;;
      rect <- deref itemRect ;;
      ret (Some (mkView (key itemMeta) data (rect_x rect) (rect_y rect) type i
                        (forceNonDeterministicRendering (props s))
                        (isHorizontal (props s))
                        (rect_height rect) (rect_width rect)))
  | None => ret None
  end.

(** [_generateRenderStack()]: one entry per slot of [state.renderStack]. *)
Fixpoint renderAll (stack : RenderStack) : M (list (option ViewRendererProps)) :=
  match stack with
  | [] => ret []
  | (_, item) :: rest =>
      row <- _renderRowUsingMeta item ;;
      rows <- renderAll rest ;;
      ret (row :: rows)
  end.

Definition _generateRenderStack : M (list (option ViewRendererProps)) :=
  s <- this ;;
  renderAll (renderStack s).

(** The [ref] callback [render] hands to the scroll component; React calls
    it with the component once it is attached and with [null] when it is
    detached, not while [render] runs. *)
Definition scrollComponentRef (attached : bool) : M unit :=
  modify (set_scrollComponent attached).

(** What [render] hands to the scroll component besides the props and the
    two bound handlers: the size of the content and the rows. *)
Record ScrollComponentProps := mkScroll {
  contentHeight : Z;
  contentWidth : Z;
  children : list (option ViewRendererProps)
}.

(** [render()]. *)
Definition render : M ScrollComponentProps :=
  s <- this ;;
  let contentHeight :=
    if _initComplete s then height (getLayoutDimension (_virtualRenderer s)) else 0 in
  let contentWidth :=
    if _initComplete s then width (getLayoutDimension (_virtualRenderer s)) else 0 in
  children <- _generateRenderStack ;;
  ret (mkScroll contentHeight contentWidth children).

(** [_onScroll(offsetX, offsetY, rawEvent)]. *)
Definition _onScroll (offsetX offsetY : Z) (rawEvent : ScrollEvent) : M unit :=
  onRendererCb (fun v => updateOffset v offsetX offsetY) ;;;
  s <- this ;;
  (if onScroll (props s) then emit (OnScroll rawEvent offsetX offsetY)
   else ret tt) ;;;
  _processOnEndReached.

End Methods.

(** ** A reference implementation of the collaborators

    The renderer, the layout manager, the viewability tracker and the
    providers are not part of the translated file.  This module builds them
    from sections 3, 4 and 6 of the specification, so that the component can
    be run on concrete inputs and so that the two properties that are decided
    inside the collaborators (the range check of [getOffsetForIndex] and the
    visibility delta) have something to be stated against.  On the initial
    index the module also follows the comment of the source on
    [initialRenderIndex] ("preferred over initialOffset if both are
    specified"): the offset [init()] resolves from the index replaces the
    initial offset of the parameters object, which is the one the component
    shares with the renderer. *)
Module Engine.

(** Modelled from the spec: the data source of section 6, [size()],
    [item(index)] and [firstDirtyIndex()]; [dp_id] is the object's identity,
    which is what [!==] compares. *)
Record DataSource := mkData {
  dp_id : nat;
  dp_rows : list string;
  dp_firstDirty : Z
}.

(** Modelled from the spec: the type/size oracle of section 6, as a table
    giving each index its [typeOf] and [sizeOf]; an index outside the table
    has no type. *)
Record Oracle := mkOracle {
  lp_id : nat;
  lp_table : list (LayoutType * Dimension)
}.

(** Modelled from the spec: the caller-owned store of section 9 through which
    the scroll offset and the Layout array survive a teardown, keyed by an
    opaque token. *)
Record Store := mkStore {
  cp_key : option string;
  cp_entries : gmap string CtxValue
}.

#[global] Instance DataSource_eq_dec : EqDecision DataSource.
Proof. solve_decision. Defined.
#[global] Instance Oracle_eq_dec : EqDecision Oracle.
Proof. solve_decision. Defined.

(** Modelled from the spec: [typeOf(index)] of the type/size oracle. *)
Definition typeOf (o : Oracle) (index : Z) : LayoutType :=
  match js_index (lp_table o) index with
  | Some (t, _) => t
  | None => TUndefined
  end.

(** Modelled from the spec: [sizeOf(type, index)] of the type/size oracle,
    written into the dimension it is given; an index outside the table
    leaves the dimension as it is. *)
Definition sizeOf (o : Oracle) (t : LayoutType) (d : Dimension) (index : Z)
  : Dimension :=
  match js_index (lp_table o) index with
  | Some (_, size) => size
  | None => d
  end.

(** *** JSON for a Layout array of integer rectangles

    [JSON.stringify({layoutArray: l})] writes the rectangles as objects of
    four decimal numbers; [parse] reads such a text back. *)

Definition dquote : string := String (Ascii.ascii_of_nat 34) EmptyString.

Definition field (name : string) : string := dquote +:+ name +:+ dquote +:+ ":".

Definition show_rect (r : Rect) : string :=
  "{" +:+ field "x" +:+ pretty (rect_x r) +:+ "," +:+
  field "y" +:+ pretty (rect_y r) +:+ "," +:+
  field "height" +:+ pretty (rect_height r) +:+ "," +:+
  field "width" +:+ pretty (rect_width r) +:+ "}".

Fixpoint show_rects (l : list Rect) : string :=
  match l with
  | [] => ""
  | [r] => show_rect r
  | r :: rest => show_rect r +:+ "," +:+ show_rects rest
  end.

Definition stringify (l : list Rect) : string :=
  "{" +:+ field "layoutArray" +:+ "[" +:+ show_rects l +:+ "]}".

Definition digit (c : Ascii.ascii) : option Z :=
  let n := Z.of_nat (Ascii.nat_of_ascii c) in
  if (48 <=? n) && (n <=? 57) then Some (n - 48) else None.

Fixpoint read_digits (s : string) (acc : option Z) : option (Z * string) :=
  match s with
  | String c rest =>
      match digit c with
      | Some d => read_digits rest (Some (10 * default 0 acc + d))
      | None => (fun n => (n, s)) <$> acc
      end
  | EmptyString => (fun n => (n, s)) <$> acc
  end.

Definition read_int (s : string) : option (Z * string) :=
  match s with
  | String "-"%char rest => (fun r => (- fst r, snd r)) <$> read_digits rest None
  | _ => read_digits s None
  end.

Fixpoint expect (lit s : string) : option string :=
  match lit, s with
  | EmptyString, _ => Some s
  | String a lit', String b s' => if Ascii.eqb a b then expect lit' s' else None
  | _, _ => None
  end.

Definition read_field (name : string) (s : string) : option (Z * string) :=
  expect (field name) s ≫= read_int.

Definition read_rect (s : string) : option (Rect * string) :=
  s ← expect "{" s;
  '(x, s) ← read_field "x" s;
  s ← expect "," s;
  '(y, s) ← read_field "y" s;
  s ← expect "," s;
  '(h, s) ← read_field "height" s;
  s ← expect "," s;
  '(w, s) ← read_field "width" s;
  s ← expect "}" s;
  Some (mkRect x y h w, s).

Fixpoint read_rects (fuel : nat) (s : string) : option (list Rect * string) :=
  match fuel with
  | O => None
  | S fuel =>
      '(r, s) ← read_rect s;
      match expect "," s with
      | Some s' => '(rs, s'') ← read_rects fuel s'; Some (r :: rs, s'')
      | None => Some ([r], s)
      end
  end.

(** [JSON.parse(s).layoutArray] on the texts [stringify] writes and on the
    JSON values without members: the empty object, the empty array, [true]
    and [false] have no [layoutArray], and reading it off [null] is a type
    error.  Any other text is taken for a syntax error. *)
Definition parse (s : string) : Exn + option (list Rect) :=
  if String.eqb s "{}" || String.eqb s "[]" || String.eqb s "true"
     || String.eqb s "false" then inr None
  else if String.eqb s "null" then inl TypeError else
  match expect ("{" +:+ field "layoutArray" +:+ "[") s with
  | Some body =>
      match expect "]}" body with
      | Some EmptyString => inr (Some [])
      | _ =>
          match read_rects (String.length body) body with
          | Some (rs, tail) =>
              if String.eqb tail "]}" then inr (Some rs) else inl SyntaxError
          | None => inl SyntaxError
          end
      end
  | None => inl SyntaxError
  end.

(** *** Layout engine (section 4.2) *)

(** Modelled from the spec: the Layout Engine's state, the Layout array with
    the per-index size overrides, the oracle, the viewport, the axis and the
    item count of the last layout computation or import. *)
Record LayoutEngine := mkLayoutEngine {
  le_layouts : list Rect;
  le_overridden : gmap Z Dimension;
  le_oracle : option Oracle;
  le_window : Dimension;
  le_horizontal : bool;
  le_itemCount : Z
}.

(** Modelled from the spec: [setMaxBounds], a requested size bounded by the
    viewport across the scroll axis. *)
Definition maxBounds (window : Dimension) (horizontal : bool) (d : Dimension)
  : Dimension :=
  if horizontal then mkDimension (Z.min (height window) (height d)) (width d)
  else mkDimension (height d) (Z.min (width window) (width d)).

Definition primary (horizontal : bool) (d : Dimension) : Z :=
  if horizontal then width d else height d.

Definition leading (horizontal : bool) (r : Rect) : Z :=
  if horizontal then rect_x r else rect_y r.

Definition trailing (horizontal : bool) (r : Rect) : Z :=
  if horizontal then rect_x r + rect_width r else rect_y r + rect_height r.

(** Modelled from the spec: the size of one index, the override when there is
    one and the oracle's size for the index's type otherwise. *)
Definition sizeFor (le : LayoutEngine) (index : Z) : Dimension :=
  match le_overridden le !! index with
  | Some d => d
  | None =>
      match le_oracle le with
      | Some o => maxBounds (le_window le) (le_horizontal le)
                            (sizeOf o (typeOf o index) (mkDimension 0 0) index)
      | None => mkDimension 0 0
      end
  end.

(** Modelled from the spec: placement along the scroll axis, each rectangle
    starting where the previous one ends (the shelf algorithm with a single
    column, the uniform flow of section 4.2). *)
Fixpoint place (horizontal : bool) (cursor : Z) (sizes : list Dimension)
  : list Rect :=
  match sizes with
  | [] => []
  | d :: rest =>
      (if horizontal then mkRect cursor 0 (height d) (width d)
       else mkRect 0 cursor (height d) (width d))
      :: place horizontal (cursor + primary horizontal d) rest
  end.

(** Modelled from the spec: [computeLayoutFrom(startIndex, itemCount)];
    rectangles below [startIndex] are kept as they are. *)
Definition computeLayoutFrom (le : LayoutEngine) (startIndex itemCount : Z)
  : LayoutEngine :=
  let start := Nat.min (Z.to_nat startIndex) (length (le_layouts le)) in
  let kept := take start (le_layouts le) in
  let cursor := from_option (trailing (le_horizontal le)) 0 (last kept) in
  let indices := Z.of_nat <$> seq start (Z.to_nat itemCount - start) in
  mkLayoutEngine
    (kept ++ place (le_horizontal le) cursor (sizeFor le <$> indices))
    (le_overridden le) (le_oracle le) (le_window le) (le_horizontal le)
    itemCount.

(** Modelled from the spec: [overrideLayout(index, newSize)] stores the size
    and recomputes nothing. *)
Definition override (le : LayoutEngine) (index : Z) (d : Dimension)
  : LayoutEngine :=
  mkLayoutEngine (le_layouts le) (<[index := d]> (le_overridden le))
                 (le_oracle le) (le_window le) (le_horizontal le)
                 (le_itemCount le).

(** Modelled from the spec: [getOffsetForIndex(index)] returns the
    rectangle's origin and fails with [OutOfRange] if index >= itemCount or
    index < 0.  An index in range whose rectangle is missing from the Layout
    array (an imported array can be shorter than the item count) is a read
    through [undefined]. *)
Definition offsetForIndex (le : LayoutEngine) (index : Z) : Exn + Point :=
  if (index <? 0) || (le_itemCount le <=? index) then inl OutOfRange
  else
    match js_index (le_layouts le) index with
    | Some r => inr (mkPoint (rect_x r) (rect_y r))
    | None => inl TypeError
    end.

(** Modelled from the spec: [getLayoutDimension()], the bounding size over
    all rectangles. *)
Definition layoutDimension (le : LayoutEngine) : Dimension :=
  foldr (fun r d => mkDimension (Z.max (rect_y r + rect_height r) (height d))
                                (Z.max (rect_x r + rect_width r) (width d)))
        (mkDimension 0 0) (le_layouts le).

(** Modelled from the spec: a new engine imports a Layout array verbatim
    when it is given one and computes the layout otherwise; either way it is
    an engine for [itemCount] items. *)
Definition newLayoutEngine (o : option Oracle) (window : Dimension)
    (horizontal : bool) (cached : option (list Rect)) (itemCount : Z)
  : LayoutEngine :=
  match cached with
  | Some layouts => mkLayoutEngine layouts ∅ o window horizontal itemCount
  | None =>
      computeLayoutFrom (mkLayoutEngine [] ∅ o window horizontal itemCount)
                        0 itemCount
  end.

(** *** Viewability tracker (section 4.3) *)

(** Modelled from the spec: the tracker's part of the window state, the
    scroll offset, with the visible set of the previous query and the index
    that was first visible then, paired with how far the offset was past its
    leading edge. *)
Record Tracker := mkTracker {
  t_offset : Z;
  t_running : bool;
  t_visible : list Z;
  t_anchor : option (Z * Z)
}.

Fixpoint takeWhile {A} (f : A -> bool) (l : list A) : list A :=
  match l with
  | a :: rest => if f a then a :: takeWhile f rest else []
  | [] => []
  end.

Fixpoint dropWhile {A} (f : A -> bool) (l : list A) : list A :=
  match l with
  | a :: rest => if f a then dropWhile f rest else l
  | [] => []
  end.

Definition indexed (layouts : list Rect) : list (Z * Rect) :=
  zip (Z.of_nat <$> seq 0 (length layouts)) layouts.

(** Modelled from the spec: the required index set, from the first index
    whose trailing edge reaches [offset - ahead], forward while the leading
    edge is at most [offset + viewport + ahead]; empty for an empty viewport. *)
Definition requiredSet (horizontal : bool) (layouts : list Rect)
    (offset viewport ahead : Z) : list Z :=
  if viewport =? 0 then []
  else
    fst <$>
      takeWhile (fun ir => leading horizontal (snd ir) <=? offset + viewport + ahead)
        (dropWhile (fun ir => trailing horizontal (snd ir) <? offset - ahead)
                   (indexed layouts)).

(** Modelled from the spec: the visible index set, the required indices that
    strictly intersect [offset, offset + viewport]. *)
Definition visibleSet (horizontal : bool) (layouts : list Rect)
    (offset viewport ahead : Z) : list Z :=
  filter (fun i =>
            match js_index layouts i with
            | Some r => (offset <? trailing horizontal r)
                        && (leading horizontal r <? offset + viewport)
            | None => false
            end = true)
         (requiredSet horizontal layouts offset viewport ahead).

(** Modelled from the spec: set equality by index, order-insensitive. *)
Definition sameSet (a b : list Z) : bool :=
  forallb (fun i => bool_decide (i ∈ b)) a && forallb (fun i => bool_decide (i ∈ a)) b.

(** Modelled from the spec: the visibility delta, emitted only when the new
    visible set differs from the previous one: all currently visible, newly
    visible, newly not visible. *)
Definition visibilityDelta (previous current : list Z) : list Callback :=
  if sameSet current previous then []
  else [VisibleItemsChanged current
          (list_difference current previous)
          (list_difference previous current)].

(** *** Render-stack reconciler (section 4.4) *)

(** Modelled from the spec: a slot, bound to an index or free and tagged with
    its last type. *)
Record Slot := mkSlot {
  slotId : nat;
  boundType : LayoutType;
  assignedIndex : option Z
}.

#[global] Instance RenderStackItem_eq_dec : EqDecision RenderStackItem.
Proof. solve_decision. Defined.

Definition covered (slots : list Slot) (index : Z) : bool :=
  existsb (fun sl => bool_decide (assignedIndex sl = Some index)) slots.

(** Modelled from the spec: step 1, slots whose index is no longer required
    are released into the pool, or discarded when recycling is off. *)
Definition release (recycling : bool) (required : list Z) (slots : list Slot)
  : list Slot :=
  omap (fun sl =>
          match assignedIndex sl with
          | Some i =>
              if bool_decide (i ∈ required) then Some sl
              else if recycling then Some (mkSlot (slotId sl) (boundType sl) None)
              else None
          | None => if recycling then Some sl else None
          end) slots.

(** Modelled from the spec: step 2 for one index, binding the first free
    slot of its type if there is one. *)
Fixpoint bindFree (t : LayoutType) (index : Z) (slots : list Slot)
  : option (list Slot) :=
  match slots with
  | [] => None
  | sl :: rest =>
      if bool_decide (assignedIndex sl = None) && bool_decide (boundType sl = t)
      then Some (mkSlot (slotId sl) t (Some index) :: rest)
      else (fun r => sl :: r) <$> bindFree t index rest
  end.

(** Modelled from the spec: step 2, each required index that no kept slot
    covers takes a free slot of its type or, failing that, a new slot. *)
Fixpoint bindAll (recycling : bool) (typeOfIndex : Z -> LayoutType)
    (required : list Z) (slots : list Slot) (next : nat) : list Slot * nat :=
  match required with
  | [] => (slots, next)
  | i :: rest =>
      if covered slots i then bindAll recycling typeOfIndex rest slots next
      else
        match (if recycling then bindFree (typeOfIndex i) i slots else None) with
        | Some slots' => bindAll recycling typeOfIndex rest slots' next
        | None =>
            bindAll recycling typeOfIndex rest
                    (slots ++ [mkSlot next (typeOfIndex i) (Some i)]) (S next)
        end
  end.

(** Modelled from the spec: the render stack, from slot id to the index the
    slot is bound to. *)
Definition stackOf (slots : list Slot) : RenderStack :=
  omap (fun sl =>
          (fun i => (pretty (slotId sl), mkItem (Some (pretty (slotId sl))) (Some i)))
            <$> assignedIndex sl) slots.

(** *** The renderer (section 4.1) *)

(** Modelled from the spec: the coordinator's state behind the component,
    the window state (the tracker's offset, the viewport, the render-ahead
    distance of the parameters), the layout engine, the slots and the single
    observer slot of section 9. *)
Record Renderer := mkRenderer {
  e_recycling : bool;
  e_listener : bool;
  e_params : RenderStackParams;
  e_dimensions : Dimension;
  e_layoutManager : option LayoutEngine;
  e_oracle : option Oracle;
  e_tracker : option Tracker;
  e_slots : list Slot;
  e_nextSlot : nat;
  e_stack : RenderStack
}.

(** Modelled from the spec: a coordinator before [init()], with no layout
    engine, no tracker, no observer and no slot. *)
Definition newRenderer (recycling : bool) : Renderer :=
  mkRenderer recycling false (mkParams 0 0 false 0 0) (mkDimension 0 0)
             None None None [] 0%nat [].

Definition with_listener (b : bool) (e : Renderer) : Renderer :=
  mkRenderer (e_recycling e) b (e_params e) (e_dimensions e)
             (e_layoutManager e) (e_oracle e) (e_tracker e) (e_slots e)
             (e_nextSlot e) (e_stack e).

Definition with_paramsAndDimensions (p : RenderStackParams) (d : Dimension)
    (e : Renderer) : Renderer :=
  mkRenderer (e_recycling e) (e_listener e) p d
             (e_layoutManager e) (e_oracle e) (e_tracker e) (e_slots e)
             (e_nextSlot e) (e_stack e).

Definition with_layoutManager (le : option LayoutEngine) (e : Renderer)
  : Renderer :=
  mkRenderer (e_recycling e) (e_listener e) (e_params e) (e_dimensions e)
             le (e_oracle e) (e_tracker e) (e_slots e)
             (e_nextSlot e) (e_stack e).

Definition with_oracle (o : option Oracle) (e : Renderer) : Renderer :=
  mkRenderer (e_recycling e) (e_listener e) (e_params e) (e_dimensions e)
             (e_layoutManager e) o (e_tracker e) (e_slots e)
             (e_nextSlot e) (e_stack e).

Definition with_tracker (t : option Tracker) (e : Renderer) : Renderer :=
  mkRenderer (e_recycling e) (e_listener e) (e_params e) (e_dimensions e)
             (e_layoutManager e) (e_oracle e) t (e_slots e)
             (e_nextSlot e) (e_stack e).

Definition with_slots (slots : list Slot) (next : nat) (stack : RenderStack)
    (e : Renderer) : Renderer :=
  mkRenderer (e_recycling e) (e_listener e) (e_params e) (e_dimensions e)
             (e_layoutManager e) (e_oracle e) (e_tracker e) slots next stack.

Definition horizontal (e : Renderer) : bool := p_isHorizontal (e_params e).

Definition viewport (e : Renderer) : Z := primary (horizontal e) (e_dimensions e).

Definition layoutsOf (e : Renderer) : list Rect :=
  from_option le_layouts [] (e_layoutManager e).

(** Modelled from the spec: the item count of the layout engine, the one of
    its last layout computation or import; 0 while there is no engine. *)
Definition itemCount (e : Renderer) : Z :=
  from_option le_itemCount 0 (e_layoutManager e).

(** Modelled from the spec: the required and the visible index set of an
    offset, for the renderer's layouts, viewport and render-ahead distance. *)
Definition required (e : Renderer) (offset : Z) : list Z :=
  requiredSet (horizontal e) (layoutsOf e) offset (viewport e)
              (p_renderAheadOffset (e_params e)).

Definition visible (e : Renderer) (offset : Z) : list Z :=
  visibleSet (horizontal e) (layoutsOf e) offset (viewport e)
             (p_renderAheadOffset (e_params e)).

(** Modelled from the spec: one reconciliation pass against a required index
    set; the render stack goes out through the callback when the pass
    produced a new one. *)
Definition reconcile (e : Renderer) (req : list Z) : Renderer * list Callback :=
  let typeOfIndex i := from_option (fun o => typeOf o i) TUndefined (e_oracle e) in
  let released := release (e_recycling e) req (e_slots e) in
  let bound := bindAll (e_recycling e) typeOfIndex req released (e_nextSlot e) in
  let stack := stackOf (fst bound) in
  (with_slots (fst bound) (snd bound) stack e,
   if bool_decide (stack = e_stack e) then [] else [RenderStackChanged stack]).

(** Modelled from the spec: the anchor of [refreshWithAnchor()], the first
    visible index with the distance of the offset past its leading edge. *)
Definition anchorOf (e : Renderer) (offset : Z) (vis : list Z) : option (Z * Z) :=
  i ← head vis;
  r ← js_index (layoutsOf e) i;
  Some (i, offset - leading (horizontal e) r).

(** Modelled from the spec: a window query, recompute the required and the
    visible set for the current window state, feed the reconciler, and tell
    the observer when the visible set differs from the previous query's. *)
Definition track (e : Renderer) : Renderer * list Callback :=
  match e_tracker e with
  | None => (e, [])
  | Some t =>
      let r := reconcile e (required e (t_offset t)) in
      if t_running t then
        let vis := visible e (t_offset t) in
        (with_tracker (Some (mkTracker (t_offset t) true vis
                                       (anchorOf e (t_offset t) vis))) (fst r),
         snd r ++ (if e_listener e then visibilityDelta (t_visible t) vis else []))
      else r
  end.

(** Modelled from the spec: [onScroll(offset)] updates the window state and
    runs a window query. *)
Definition scrolled (e : Renderer) (offsetX offsetY : Z)
  : Renderer * list Callback :=
  match e_tracker e with
  | None => (e, [])
  | Some t =>
      let offset := if horizontal e then offsetX else offsetY in
      track (with_tracker (Some (mkTracker offset true (t_visible t) (t_anchor t))) e)
  end.

(** Modelled from the spec: [init()] resolves the explicit initial index, or
    else the explicit initial offset, to the starting scroll offset through
    the layout and performs the first reconciliation.  The offset an initial
    index resolves to is stored as the initial offset of the parameters, the
    index being preferred to an offset given with it. *)
Definition initialise (e : Renderer) : Renderer * list Callback :=
  let p := e_params e in
  let offset :=
    if 0 <? p_initialRenderIndex p then
      from_option (leading (horizontal e)) 0
                  (js_index (layoutsOf e) (p_initialRenderIndex p))
    else p_initialOffset p in
  let resolved :=
    if 0 <? p_initialRenderIndex p then
      mkParams offset (p_initialRenderIndex p) (p_isHorizontal p)
               (p_itemCount p) (p_renderAheadOffset p)
    else p in
  track (with_tracker (Some (mkTracker offset false [] None))
                      (with_paramsAndDimensions resolved (e_dimensions e) e)).

(** Modelled from the spec: the starting scroll offset [init()] resolved, as
    a point on the scroll axis. *)
Definition initialOffsetOf (e : Renderer) : Point :=
  let offset := from_option t_offset 0 (e_tracker e) in
  if horizontal e then mkPoint offset 0 else mkPoint 0 offset.

(** Modelled from the spec: the first window query that reports
    visibility, run when the tracker is started. *)
Definition started (e : Renderer) : Renderer * list Callback :=
  match e_tracker e with
  | None => (e, [])
  | Some t =>
      track (with_tracker (Some (mkTracker (t_offset t) true (t_visible t)
                                           (t_anchor t))) e)
  end.

(** Modelled from the spec: [refreshWithAnchor()] moves the scroll offset so
    that the index that was first visible keeps its place on screen, asks the
    scroll surface to follow, and refreshes. *)
Definition anchored (e : Renderer) : Renderer * list Callback :=
  match e_tracker e with
  | None => (e, [])
  | Some t =>
      match t_anchor t ≫= (fun a => (fun r => leading (horizontal e) r + snd a)
                                      <$> js_index (layoutsOf e) (fst a)) with
      | Some offset =>
          let r := track (with_tracker
                            (Some (mkTracker offset (t_running t) (t_visible t)
                                             (t_anchor t))) e) in
          (fst r,
           (if offset =? t_offset t then []
            else [ScrollOnNextUpdate
                    (if horizontal e then mkPoint offset 0 else mkPoint 0 offset)])
           ++ snd r)
      | None => track e
      end
  end.

(** Modelled from the spec: [findFirstLogicallyVisibleIndex()], the first
    index whose rectangle ends after the scroll offset. *)
Definition firstVisibleIndex (e : Renderer) : Z :=
  let offset := from_option t_offset 0 (e_tracker e) in
  from_option fst 0
    (head (dropWhile (fun ir => trailing (horizontal e) (snd ir) <=? offset)
                     (indexed (layoutsOf e)))).

Definition onLayoutManager (f : LayoutEngine -> LayoutEngine) (e : Renderer)
  : Renderer :=
  with_layoutManager (f <$> e_layoutManager e) e.

(** Modelled from the spec: the viewport of the window state (section 3) and
    of the layout engine is the component's dimension object, so a size
    written there is the viewport of the next window query. *)
Definition viewportWritten (e : Renderer) (d : Dimension) : Renderer :=
  onLayoutManager
    (fun le => mkLayoutEngine (le_layouts le) (le_overridden le) (le_oracle le)
                              d (le_horizontal le) (le_itemCount le))
    (with_paramsAndDimensions (e_params e) d e).

(** Modelled from the spec: the collaborators of the component
    ([VirtualRenderer], [LayoutManager], [ViewabilityTracker], the three
    providers), implemented by the definitions above. *)
Definition collaborators : Collaborators := {|
  DataProvider := DataSource;
  Data := string;
  DataProvider_eq := DataSource_eq_dec;
  getSize := fun d => Z.of_nat (length (dp_rows d));
  getDataForIndex := fun d i => default EmptyString (js_index (dp_rows d) i);
  getFirstIndexToProcessInternal := dp_firstDirty;
  LayoutProvider := Oracle;
  LayoutProvider_eq := Oracle_eq_dec;
  getLayoutTypeForIndex := typeOf;
  setLayoutForType := sizeOf;
  ContextProvider := Store;
  getUniqueKey := cp_key;
  ctx_save := fun c k v => mkStore (cp_key c) (<[k := v]> (cp_entries c));
  ctx_get := fun c k => cp_entries c !! k;
  ctx_remove := fun c k => mkStore (cp_key c) (delete k (cp_entries c));
  JSON_stringify := stringify;
  JSON_parse := parse;
  ScrollEvent := unit;
  VirtualRenderer := Renderer;
  newVirtualRenderer := newRenderer;
  attachVisibleItemsListener := with_listener true;
  removeVisibleItemsListener := with_listener false;
  hasLayoutManager := fun e => bool_decide (is_Some (e_layoutManager e));
  hasViewabilityTracker := fun e => bool_decide (is_Some (e_tracker e));
  setParamsAndDimensions := fun e p d => with_paramsAndDimensions p d e;
  layoutWritten := viewportWritten;
  paramsObject := e_params;
  setLayoutManager := fun e o d h cached =>
    with_layoutManager
      (Some (newLayoutEngine o d h cached (p_itemCount (e_params e)))) e;
  setLayoutProvider := fun e o => with_oracle o e;
  vr_init := initialise;
  getInitialOffset := initialOffsetOf;
  startViewabilityTracker := started;
  refresh := track;
  refreshWithAnchor := anchored;
  updateOffset := scrolled;
  getLayoutDimension := fun e => from_option layoutDimension (mkDimension 0 0)
                                             (e_layoutManager e);
  getLastOffset := fun e => from_option t_offset 0 (e_tracker e);
  findFirstLogicallyVisibleIndex := firstVisibleIndex;
  getLayouts := layoutsOf;
  getOffsetForIndex := fun e i =>
    from_option (fun le => offsetForIndex le i) (inl TypeError) (e_layoutManager e);
  overrideLayout := fun e i d => onLayoutManager (fun le => override le i d) e;
  reLayoutFromIndex := fun e i n =>
    onLayoutManager (fun le => computeLayoutFrom le i n) e;
  setMaxBounds := fun e d =>
    from_option (fun le => maxBounds (le_window le) (le_horizontal le) d) d
                (e_layoutManager e)
|}.

End Engine.

(** ** The debouncer

    [refreshRequestDebouncer] (lines 49-51) is [debounce] of lodash applied
    to a function that runs the executable it is given, with no wait and no
    options.  lodash is not part of the repository; the module below is the
    timer of the specification with the options of [debounce] left open, so
    that the debouncer of the source is the one with the defaults. *)
Module Debounce.

(** Modelled from the spec: the delay of the coalescing timer of section 5
    ("zero-or-small", section 9's "configurable delay") and the two edges a
    debounced function can run on; lodash documents them as [wait],
    [options.leading] and [options.trailing]. *)
Record Options := mkOptions {
  wait : Z;
  onLeading : bool;
  onTrailing : bool
}.

(** Modelled from the spec: [debounce(func)] with nothing else is
    [debounce(func, 0, {leading: false, trailing: true})] in lodash's
    documentation. *)
Definition defaults : Options := mkOptions 0 false true.

(** Modelled from the spec: the two-phase state of section 9, the pending
    request ([lastArgs], the dirty flag with what is to run), the time of the
    last request and the timer with the time it is due. *)
Record Debounced (A : Type) := mkDebounced {
  options : Options;
  lastArgs : option A;
  lastCallTime : option Z;
  timerDue : option Z
}.
Arguments mkDebounced {A}.
Arguments options {A}.
Arguments lastArgs {A}.
Arguments lastCallTime {A}.
Arguments timerDue {A}.

(** Modelled from the spec: a new debouncer, with nothing pending and no
    timer. *)
Definition debounce {A} (o : Options) : Debounced A := mkDebounced o None None None.

(** Modelled from the spec: what the scheduler of section 9 sees, a
    request made at some time, carrying what is to run, and the moments at
    which the event loop is free to run a timer that is due. *)
Inductive Input (A : Type) :=
| Request (time : Z) (a : A)
| Idle (time : Z).
Arguments Request {A}.
Arguments Idle {A}.

(** Modelled from the spec: a request is outside the debounce window when no
    request came before or the last one is at least [wait] old. *)
Definition shouldInvoke {A} (d : Debounced A) (time : Z) : bool :=
  match lastCallTime d with
  | None => true
  | Some l => (wait (options d) <=? time - l) || (time - l <? 0)
  end.

(** Modelled from the spec: a request.  It becomes the pending one; outside
    the window and with no timer running it starts the timer and, on a
    leading-edge debouncer only, runs at once; otherwise it only moves the
    window ("each new request within the debounce window resets the
    timer").  The list is what runs during the call. *)
Definition request {A} (d : Debounced A) (time : Z) (a : A) : Debounced A * list A :=
  match timerDue d with
  | None =>
      if shouldInvoke d time && onLeading (options d)
      then (mkDebounced (options d) None (Some time)
                        (Some (time + wait (options d))), [a])
      else (mkDebounced (options d) (Some a) (Some time)
                        (Some (time + wait (options d))), [])
  | Some due => (mkDebounced (options d) (Some a) (Some time) (Some due), [])
  end.

(** Modelled from the spec: the timer expires.  If a request arrived less
    than [wait] ago the timer is set again for what remains of its window;
    otherwise the flush: the pending request runs, on a trailing-edge
    debouncer, and the flag is cleared. *)
Definition timerExpired {A} (d : Debounced A) (time : Z) : Debounced A * list A :=
  if shouldInvoke d time then
    (mkDebounced (options d) None (lastCallTime d) None,
     if onTrailing (options d) then from_option (fun a => [a]) [] (lastArgs d)
     else [])
  else
    (mkDebounced (options d) (lastArgs d) (lastCallTime d)
                 ((fun l => l + wait (options d)) <$> lastCallTime d), []).

(** Modelled from the spec: one input; a timer runs when the event loop is
    free at or after the time it is due. *)
Definition step {A} (d : Debounced A) (i : Input A) : Debounced A * list A :=
  match i with
  | Request time a => request d time a
  | Idle time =>
      match timerDue d with
      | Some due => if due <=? time then timerExpired d time else (d, [])
      | None => (d, [])
      end
  end.

(** The debouncer after a sequence of inputs, with everything that ran. *)
Fixpoint run {A} (d : Debounced A) (inputs : list (Input A)) : Debounced A * list A :=
  match inputs with
  | [] => (d, [])
  | i :: rest =>
      let r := step d i in
      let r' := run (fst r) rest in
      (fst r', snd r ++ snd r')
  end.

(** Nothing is pending and no timer is running. *)
Definition idle {A} (d : Debounced A) : Prop :=
  lastArgs d = None /\ timerDue d = None.

End Debounce.

(** [refreshRequestDebouncer]: [debounce] is given the function and nothing
    else, hence the defaults. *)
Definition refreshRequestDebouncer {A} : Debounce.Debounced A :=
  Debounce.debounce Debounce.defaults.

(** ** Vocabulary of the properties *)

Section Traces.

Context {C : Collaborators}.

(** The [reLayoutFromIndex] calls of a trace, with their arguments. *)
Definition relayouts (tr : list Event) : list (Z * Z) :=
  omap (fun ev => match ev with
                  | ReLayoutFromIndex i n => Some (i, n)
                  | _ => None
                  end) tr.

(** The Layout arrays handed to [new LayoutManager] in a trace. *)
Definition newLayoutManagers (tr : list Event) : list (option (list Rect)) :=
  omap (fun ev => match ev with
                  | NewLayoutManager cached => Some cached
                  | _ => None
                  end) tr.

(** The calls of the visibility observer in a trace. *)
Definition visibilityCalls (tr : list Event) : list (list Z * list Z * list Z) :=
  omap (fun ev => match ev with
                  | OnVisibleIndexesChanged all now notNow => Some (all, now, notNow)
                  | _ => None
                  end) tr.

(** How many times [onEndReached] was called in a trace. *)
Definition isEndReached (ev : Event) : bool :=
  match ev with OnEndReached => true | _ => false end.

Definition endReachedCalls (tr : list Event) : nat :=
  length (filter (fun ev => isEndReached ev = true) tr).

(** The cursor after one more dirty index. *)
Definition coalesce (cursor index : Z) : Z :=
  if cursor =? -1 then index else Math_min cursor index.

(** The size [_checkExpectedDimensionDiscrepancy] compares a rectangle with:
    what [setLayoutForType] declares for the type, bounded by
    [setMaxBounds] before and after. *)
Definition declaredSize (s : RecyclerListView) (lp : LayoutProvider)
    (type : LayoutType) (index : Z) : Dimension :=
  let v := _virtualRenderer s in
  setMaxBounds v (setLayoutForType lp type (setMaxBounds v (_tempDim s)) index).

(** A burst of item-resize notifications, in order. *)
Fixpoint resizeAll (notifications : list (Dimension * Z)) : M unit :=
  match notifications with
  | [] => ret tt
  | (dim, index) :: rest =>
      _onViewContainerSizeChange dim index ;;; resizeAll rest
  end.

(** The least of a non-empty sequence of indices. *)
Definition minimum (first : Z) (rest : list Z) : Z := foldl Z.min first rest.

(** A run of [_processOnEndReached] over the states the component is in at
    each call.  Nothing else writes [_onEndReachedCalled], so the latch is
    carried from one call to the next whatever happened in between; the
    result tells, for each call, whether it called [onEndReached]. *)
Fixpoint latchRun (latch : bool) (states : list RecyclerListView) : list bool :=
  match states with
  | [] => []
  | s :: rest =>
      let o := _processOnEndReached (set_onEndReachedCalled latch s) in
      existsb isEndReached (trace o)
      :: latchRun (_onEndReachedCalled (final o)) rest
  end.

(** The offset is within the threshold of the end of the content. *)
Definition inEndRegion (s : RecyclerListView) : bool :=
  distanceFromEnd s <=? onEndReachedThreshold (props s).

(** The observer calls a list of renderer callbacks asks for. *)
Definition visibilityCallbacks (cbs : list Callback)
  : list (list Z * list Z * list Z) :=
  omap (fun cb => match cb with
                  | VisibleItemsChanged all now notNow => Some (all, now, notNow)
                  | _ => None
                  end) cbs.

(** The types [_assertType] rejects: nothing, the empty string, [NaN]. *)
Definition rejectedType (t : LayoutType) : Prop :=
  t = TUndefined \/ t = TNull \/ t = TString EmptyString \/ t = TNaN.

(** What running the renderer's callbacks can emit: [setState] and observer
    calls. *)
Definition callbackEvent (ev : Event) : Prop :=
  match ev with
  | SetState | OnVisibleIndexesChanged _ _ _ => True
  | _ => False
  end.

(** Two instances that differ at most in [state.renderStack] and
    [_pendingScrollToOffset], the two fields the callbacks write. *)
Definition sameButStackAndPending (s s' : RecyclerListView) : Prop :=
  props s' = props s /\
  _onEndReachedCalled s' = _onEndReachedCalled s /\
  _virtualRenderer s' = _virtualRenderer s /\
  _initComplete s' = _initComplete s /\
  _relayoutReqIndex s' = _relayoutReqIndex s /\
  _params s' = _params s /\
  _layout s' = _layout s /\
  _tempDim s' = _tempDim s /\
  _initialOffset s' = _initialOffset s /\
  _cachedLayouts s' = _cachedLayouts s /\
  _scrollComponent s' = _scrollComponent s.

(** The viewport changed across the scroll axis: in height for a horizontal
    list, in width for a vertical one. *)
Definition crossAxisChanged (s : RecyclerListView) (layout : Dimension) : bool :=
  if isHorizontal (props s) then negb (height (_layout s) =? height layout)
  else negb (width (_layout s) =? width layout).


(** A computation that leaves the end-reached latch as it found it. *)
Definition keepsLatch {A} (m : M A) : Prop :=
  forall s, _onEndReachedCalled (final (m s)) = _onEndReachedCalled s.

(** The [scrollTo] calls made on the scroll component in a trace. *)
Definition scrollCalls (tr : list Event) : list (Z * Z * bool) :=
  omap (fun ev => match ev with
                  | ScrollTo x y animate => Some (x, y, animate)
                  | _ => None
                  end) tr.

(** The [scrollTo] calls a trace leaves to a timer. *)
Definition deferredScrolls (tr : list Event) : list (Z * Z) :=
  omap (fun ev => match ev with
                  | DeferredScrollTo x y => Some (x, y)
                  | _ => None
                  end) tr.

(** The calls of the [onScroll] prop in a trace. *)
Definition onScrollCalls (tr : list Event) : list (ScrollEvent * Z * Z) :=
  omap (fun ev => match ev with
                  | OnScroll rawEvent x y => Some (rawEvent, x, y)
                  | _ => None
                  end) tr.

(** How many state refreshes a trace asks the debouncer for. *)
Definition isRefreshRequest (ev : Event) : bool :=
  match ev with RefreshRequest => true | _ => false end.

Definition refreshRequests (tr : list Event) : nat :=
  length (filter (fun ev => isRefreshRequest ev = true) tr).

(** A computation that leaves a reading [f] of the instance (a field, say)
    as it found it, however it ends. *)
Definition preserves {X A} (f : RecyclerListView -> X) (m : M A) : Prop :=
  forall s, f (final (m s)) = f s.

(** The parameters [_checkAndChangeLayouts] stores: the orientation and the
    item count of the new props, the rest as it was. *)
Definition paramsFor (s : RecyclerListView) (newProps : RecyclerListViewProps)
    (dp : DataProvider) : RenderStackParams :=
  mkParams (p_initialOffset (_params s)) (p_initialRenderIndex (_params s))
           (isHorizontal newProps) (getSize dp) (p_renderAheadOffset (_params s)).

(** The instance once [_checkAndChangeLayouts] has stored the parameters and
    handed them to the renderer, before it decides what to re-lay out. *)
Definition prepared (s : RecyclerListView) (newProps : RecyclerListViewProps)
    (dp : DataProvider) : RecyclerListView :=
  set_virtualRenderer
    (setParamsAndDimensions (_virtualRenderer s) (paramsFor s newProps dp) (_layout s))
    (set_params (paramsFor s newProps dp) s).

(** The new props ask for another layout provider or another orientation. *)
Definition layoutChanged (s : RecyclerListView) (newProps : RecyclerListViewProps)
  : bool :=
  negb (bool_decide (layoutProvider (props s) = layoutProvider newProps))
  || negb (Bool.eqb (isHorizontal (props s)) (isHorizontal newProps)).

(** A computation all of whose calls to the outside satisfy [P], however it
    ends. *)
Definition emitsOnly {A} (P : Event -> Prop) (m : M A) : Prop :=
  forall s, Forall P (trace (m s)).

(** A scroll method as its caller sees it: it changes nothing in the
    instance, calls the scroll component at most once, and not at all while
    no scroll component is attached. *)
Definition scrollsAtMostOnce (m : M unit) (s : RecyclerListView) : Prop :=
  final (m s) = s /\
  (length (scrollCalls (trace (m s))) <= 1)%nat /\
  (_scrollComponent s = false -> scrollCalls (trace (m s)) = []).

(** The fields rendering does not write: all but [_tempDim] and
    [_relayoutReqIndex]. *)
Definition unrendered (s : RecyclerListView) :=
  (props s, renderStack s, _onEndReachedCalled s, _virtualRenderer s,
   _initComplete s, _params s, _layout s, _pendingScrollToOffset s,
   _initialOffset s, _cachedLayouts s, _scrollComponent s).

(** Two instances that differ at most in [_tempDim] and
    [_relayoutReqIndex]. *)
Definition sameButScratch (s s' : RecyclerListView) : Prop :=
  s' = set_tempDim (_tempDim s') (set_relayoutReqIndex (_relayoutReqIndex s') s).

(** What an entry of the render stack is rendered as: nothing when its index
    is missing, 0 or not below the data size; otherwise a row with the
    entry's key, the data and the accepted type of its index, at the
    rectangle the layout manager has for that index. *)
Definition rowOf (s : RecyclerListView) (dp : DataProvider) (lp : LayoutProvider)
    (item : RenderStackItem) (row : option ViewRendererProps) : Prop :=
  match renderable (dataIndex item) (getSize dp) with
  | None => row = None
  | Some i =>
      exists rect,
        js_index (getLayouts (_virtualRenderer s)) i = Some rect /\
        ~ rejectedType (getLayoutTypeForIndex lp i) /\
        row = Some (mkView (key item) (getDataForIndex dp i)
                           (rect_x rect) (rect_y rect)
                           (getLayoutTypeForIndex lp i) i
                           (forceNonDeterministicRendering (props s))
                           (isHorizontal (props s))
                           (rect_height rect) (rect_width rect))
  end.

(** The parameters [_initTrackers] computes: the [initialOffset] of the props
    unless it is 0, in which case the offset restored at mount; the rest
    from the props and the data provider. *)
Definition initialParams (s : RecyclerListView) (dp : DataProvider)
  : RenderStackParams :=
  let p := props s in
  mkParams (if initialOffset p =? 0 then _initialOffset s else initialOffset p)
           (initialRenderIndex p) (isHorizontal p) (getSize dp) (renderAheadOffset p).

(** The instance when [_initTrackers] is about to call [init()] on the
    renderer: the listener attached if there is an observer, the parameters
    stored and handed over with the viewport, the layout manager created
    from the cached layouts, the layout provider set. *)
Definition readyToInit (s : RecyclerListView) (dp : DataProvider)
  : RecyclerListView :=
  let p := props s in
  let v0 := if onVisibleIndexesChanged p
            then attachVisibleItemsListener (_virtualRenderer s)
            else _virtualRenderer s in
  let v1 := setParamsAndDimensions v0 (initialParams s dp) (_layout s) in
  let v2 := setLayoutManager v1 (layoutProvider p) (_layout s) (isHorizontal p)
                             (_cachedLayouts s) in
  let v3 := setLayoutProvider v2 (layoutProvider p) in
  set_virtualRenderer v3 (set_params (initialParams s dp) s).

(** The renderer once [init()] has run on it. *)
Definition initialised (s : RecyclerListView) (dp : DataProvider)
  : VirtualRenderer :=
  fst (vr_init (_virtualRenderer (readyToInit s dp))).

(** The instance as [_onSizeChanged] leaves it for the first
    [_initTrackers]: the viewport recorded and [_initComplete] set. *)
Definition sized (layout : Dimension) (s : RecyclerListView) : RecyclerListView :=
  set_initComplete true (set_layout layout s).

(** The pending re-layout cursor is the sentinel -1 or an index from 0 up. *)
Definition cursorInRange (s : RecyclerListView) : Prop := -1 <= _relayoutReqIndex s.

(** A computation that keeps a property of the instance, however it ends. *)
Definition keepsInvariant {A} (P : RecyclerListView -> Prop) (m : M A) : Prop :=
  forall s, P s -> P (final (m s)).

(** Whether a result is a return, and what it returned ([d] if it is an
    error). *)
Definition returns {A} (r : Exn + A) : bool :=
  match r with inr _ => true | inl _ => false end.

Definition returned {A} (d : A) (r : Exn + A) : A :=
  match r with inr a => a | inl _ => d end.

(** The renderer once the layout manager has been told of each size in
    turn. *)
Definition overridden (notifications : list (Dimension * Z)) (v : VirtualRenderer)
  : VirtualRenderer :=
  foldl (fun v n => overrideLayout v n.2 n.1) v notifications.

(** What a trace hands to the debouncer when all of it runs at [time]: one
    request per [_queueStateRefresh], each with its executable, the
    [setState] of an identity update. *)
Definition refreshInputs (time : Z) (tr : list Event) : list (Debounce.Input Event) :=
  omap (fun ev => match ev with
                  | RefreshRequest => Some (Debounce.Request time SetState)
                  | _ => None
                  end) tr.

(** A call that creates a layout manager from scratch, or does not create
    one: no cached layouts are involved. *)
Definition withoutCache (ev : Event) : Prop :=
  match ev with
  | NewLayoutManager cached => cached = None
  | _ => True
  end.

End Traces.

(** ** A concrete list

    A hundred rows of type [0], each 50 by 50, in a 300 by 300 viewport with
    a render-ahead distance of 100, run on the reference collaborators. *)
Module Scenario.

Import Engine.

Definition uniformTable (n : nat) : list (LayoutType * Dimension) :=
  replicate n (TNumber 0, mkDimension 50 50).

Definition hundredRows : DataSource := mkData 1 (replicate 100 "row"%string) 0.

(** The props of the list; [cp] is the context provider, [fnd] is
    [forceNonDeterministicRendering], [table] the oracle's table. *)
Definition listProps (table : list (LayoutType * Dimension))
    (cp : option Store) (fnd : bool)
  : RecyclerListViewProps (C := collaborators) :=
  @mkProps collaborators (Some (mkOracle 1 table)) (Some hundredRows) cp
            100 false true true 0 true 0 0 false fnd.

Definition plainProps := listProps (uniformTable 100) None false.

Definition viewport300 : Dimension := mkDimension 300 300.

(** The list after its first [_onSizeChanged]. *)
Definition mounted (p : RecyclerListViewProps (C := collaborators))
  : RecyclerListView (C := collaborators) :=
  final (_onSizeChanged (C := collaborators) viewport300 (constructor p)).

(** An oracle that knows the type of the first three rows only. *)
Definition shortProps := listProps (uniformTable 3) None false.

(** A context provider with a key and nothing stored. *)
Definition emptyStore : Store := mkStore (Some "list"%string) ∅.

(** The props of the instance created after a teardown: the same list with
    the context provider as the old instance left it. *)
Definition recreatedProps (fnd : bool)
    (old : RecyclerListView (C := collaborators)) :=
  listProps (uniformTable 100) (contextProvider (props old)) fnd.

(** A teardown of the mounted list followed by a re-creation up to the first
    [_onSizeChanged]. *)
Definition recreate (fnd : bool) : Outcome (C := collaborators) unit :=
  let old := mounted (listProps (uniformTable 100) (Some emptyStore) fnd) in
  let torn := final (componentWillUnmount old) in
  let fresh := final (componentWillMount (constructor (recreatedProps fnd torn))) in
  _onSizeChanged viewport300 fresh.

(** The mounted list after row 3 reported a height of 40 and the flush that
    follows re-laid the list out. *)
Definition resized : RecyclerListView (C := collaborators) :=
  final (componentDidUpdate
           (final (_onViewContainerSizeChange (C := collaborators)
                     (mkDimension 40 50) 3 (mounted plainProps)))).

(** The list without its data provider. *)
Definition noDataProps : RecyclerListViewProps (C := collaborators) :=
  @mkProps collaborators (Some (mkOracle 1 (uniformTable 100))) None None
            100 false true true 0 true 0 0 false false.

(** The mounted list scrolled to an offset. *)
Definition scrolledTo (offset : Z) : RecyclerListView (C := collaborators) :=
  final (_onScroll (C := collaborators) 0 offset tt (mounted plainProps)).

(** The props of a list of 50 by 50 rows over a data source [d]: [lpId]
    tells layout providers apart, [ahead] is [renderAheadOffset], [observed]
    is the presence of [onVisibleIndexesChanged], [offset] is
    [initialOffset]. *)
Definition propsOver (d : DataSource) (lpId : nat) (ahead : Z)
    (horizontal observed : bool) (offset : Z)
  : RecyclerListViewProps (C := collaborators) :=
  @mkProps collaborators (Some (mkOracle lpId (uniformTable 100))) (Some d) None
            ahead horizontal true true 0 observed offset 0 false false.

(** The data after twenty rows were appended to the hundred. *)
Definition moreRows : DataSource := mkData 2 (replicate 120 "row"%string) 100.

Definition grownProps := propsOver moreRows 1 100 false true 0.

(** The same list asking for a render-ahead distance of 999. *)
Definition eagerProps := propsOver hundredRows 1 999 false true 0.

(** The same list with another layout provider. *)
Definition otherLayoutProps := propsOver hundredRows 2 100 false true 0.

(** The same list without a visibility observer. *)
Definition unobservedProps := propsOver hundredRows 1 100 false false 0.

(** The same list starting 200 down. *)
Definition offsetProps := propsOver hundredRows 1 100 false true 200.

(** Four rows, two of them with the same data. *)
Definition namedRows : DataSource :=
  mkData 3 ["a"; "b"; "c"; "b"]%string 0.

Definition namedProps := propsOver namedRows 1 100 false true 0.

(** An instance once its scroll component is attached. *)
Definition attached (s : RecyclerListView (C := collaborators))
  : RecyclerListView (C := collaborators) :=
  final (scrollComponentRef (C := collaborators) true s).

(** The mounted list after React replaced its props by the ones without an
    observer. *)
Definition unobserved : RecyclerListView (C := collaborators) :=
  set_props unobservedProps (mounted plainProps).

(** The mounted list with a context provider, scrolled 500 down. *)
Definition scrolledStored : RecyclerListView (C := collaborators) :=
  final (_onScroll (C := collaborators) 0 500 tt
           (mounted (listProps (uniformTable 100) (Some emptyStore) false))).

(** A context provider holding a text under the layouts key that is not
    JSON. *)
Definition corruptStore : Store :=
  mkStore (Some "list"%string) (<["list_layouts"%string := CStr "oops"]> ∅).

(** A context provider whose unique key is the empty string. *)
Definition keylessStore : Store := mkStore (Some ""%string) ∅.

(** Fifty rows. *)
Definition fiftyRows : DataSource := mkData 4 (replicate 50 "row"%string) 0.

(** A list of fifty rows, re-created over the layouts that the list of a
    hundred rows cached at its teardown, after its first viewport. *)
Definition staleCache : RecyclerListView (C := collaborators) :=
  let old := mounted (listProps (uniformTable 100) (Some emptyStore) true) in
  let torn := final (componentWillUnmount old) in
  let p := @mkProps collaborators (Some (mkOracle 1 (uniformTable 100)))
                    (Some fiftyRows) (contextProvider (props torn))
                    100 false true true 0 true 0 0 false true in
  final (_onSizeChanged viewport300 (final (componentWillMount (constructor p)))).


(** The same list asked to start at row 4. *)
Definition indexProps : RecyclerListViewProps (C := collaborators) :=
  @mkProps collaborators (Some (mkOracle 1 (uniformTable 100))) (Some hundredRows)
            None 100 false true true 0 true 0 4 false false.

End Scenario.

(** ** Properties of the component, for any collaborators *)

Section Properties.

Context {C : Collaborators}.

(** *** Sequencing *)

Lemma bind_run {A B} (m : M A) (k : A -> M B) (s : RecyclerListView) :
  bind m k s =
    match result (m s) with
    | inl e => mkOutcome (final (m s)) (trace (m s)) (inl e)
    | inr a => mkOutcome (final (k a (final (m s))))
                         (trace (m s) ++ trace (k a (final (m s))))
                         (result (k a (final (m s))))
    end.
Proof.
  unfold bind. destruct (m s) as [s1 t1 [e|a]]; cbn; [reflexivity|].
  destruct (k a s1); reflexivity.
Qed.

Lemma bind_this {B} (k : RecyclerListView -> M B) (s : RecyclerListView) :
  bind this k s = k s s.
Proof. unfold bind, this. destruct (k s s); reflexivity. Qed.

Lemma bind_modify {B} (f : RecyclerListView -> RecyclerListView)
    (k : unit -> M B) (s : RecyclerListView) :
  bind (modify f) k s = k tt (f s).
Proof. unfold bind, modify. destruct (k tt (f s)); reflexivity. Qed.

Lemma bind_ret {A B} (a : A) (k : A -> M B) (s : RecyclerListView) :
  bind (ret a) k s = k a s.
Proof. unfold bind, ret. destruct (k a s); reflexivity. Qed.

(** *** Running the renderer's callbacks *)

Lemma handleCallback_frame (cb : Callback) (s : RecyclerListView) :
  Forall callbackEvent (trace (handleCallback cb s)) /\
  sameButStackAndPending s (final (handleCallback cb s)).
Proof.
  destruct cb; cbn;
    unfold _renderStackWhenReady, _onVisibleItemsChanged, bind, this, require; cbn.
  - split; [repeat constructor | repeat split].
  - split; [constructor | repeat split].
  - destruct (onVisibleIndexesChanged (props s)); cbn;
      (split; [repeat constructor | repeat split]).
Qed.

Lemma sameButStackAndPending_trans (s1 s2 s3 : RecyclerListView) :
  sameButStackAndPending s1 s2 -> sameButStackAndPending s2 s3 ->
  sameButStackAndPending s1 s3.
Proof.
  unfold sameButStackAndPending. intros H1 H2.
  repeat match goal with H : _ /\ _ |- _ => destruct H end.
  repeat split; congruence.
Qed.

Lemma handleCallbacks_frame (cbs : list Callback) (s : RecyclerListView) :
  Forall callbackEvent (trace (handleCallbacks cbs s)) /\
  sameButStackAndPending s (final (handleCallbacks cbs s)).
Proof.
  revert s. induction cbs as [|cb cbs IH]; intros s.
  - cbn. split; [constructor | repeat split].
  - cbn [handleCallbacks]. rewrite bind_run.
    destruct (handleCallback_frame cb s) as [Ht Hs].
    destruct (result (handleCallback cb s)); cbn.
    + auto.
    + destruct (IH (final (handleCallback cb s))) as [Ht' Hs'].
      split; [apply Forall_app; auto | eapply sameButStackAndPending_trans; eauto].
Qed.

Lemma onRendererCb_run
    (f : VirtualRenderer -> VirtualRenderer * list Callback) (s : RecyclerListView) :
  onRendererCb f s =
    handleCallbacks (snd (f (_virtualRenderer s)))
                    (set_virtualRenderer (fst (f (_virtualRenderer s))) s).
Proof.
  unfold onRendererCb, bind, this, modify. cbn.
  destruct (handleCallbacks _ _) as [fin tr r]; reflexivity.
Qed.

Lemma relayouts_app (a b : list Event) :
  relayouts (a ++ b) = relayouts a ++ relayouts b.
Proof. apply omap_app. Qed.

Lemma relayouts_callbackEvents (tr : list Event) :
  Forall callbackEvent tr -> relayouts tr = [].
Proof.
  induction 1 as [|ev tr Hev _ IH]; [reflexivity|].
  destruct ev; try contradiction; exact IH.
Qed.

Lemma newLayoutManagers_app (a b : list Event) :
  newLayoutManagers (a ++ b) = newLayoutManagers a ++ newLayoutManagers b.
Proof. apply omap_app. Qed.

Lemma newLayoutManagers_callbackEvents (tr : list Event) :
  Forall callbackEvent tr -> newLayoutManagers tr = [].
Proof.
  induction 1 as [|ev tr Hev _ IH]; [reflexivity|].
  destruct ev; try contradiction; exact IH.
Qed.

Lemma visibilityCalls_app (a b : list Event) :
  visibilityCalls (a ++ b) = visibilityCalls a ++ visibilityCalls b.
Proof. apply omap_app. Qed.

(** With the observer prop present, the callbacks run to the end and the
    observer is called once per visibility callback, with its arguments. *)
Lemma handleCallbacks_observed (cbs : list Callback) (s : RecyclerListView) :
  onVisibleIndexesChanged (props s) = true ->
  let o := handleCallbacks cbs s in
  result o = inr tt /\
  visibilityCalls (trace o) = visibilityCallbacks cbs /\
  props (final o) = props s /\
  _virtualRenderer (final o) = _virtualRenderer s.
Proof.
  revert s. induction cbs as [|cb cbs IH]; intros s Hp; cbn zeta.
  - cbn. auto.
  - cbn [handleCallbacks]. rewrite bind_run.
    assert (Hcb : result (handleCallback cb s) = inr tt /\
                  visibilityCalls (trace (handleCallback cb s))
                    = visibilityCallbacks [cb] /\
                  props (final (handleCallback cb s)) = props s /\
                  _virtualRenderer (final (handleCallback cb s)) = _virtualRenderer s).
    { destruct cb; cbn; unfold _renderStackWhenReady, _onVisibleItemsChanged,
        bind, this, require; cbn; rewrite ?Hp; cbn; auto. }
    destruct Hcb as (Hr & Hc & Hp' & Hv). rewrite Hr.
    destruct (IH (final (handleCallback cb s)) ltac:(rewrite Hp'; exact Hp))
      as (Hr2 & Hc2 & Hp2 & Hv2).
    cbn [result trace final]. rewrite visibilityCalls_app, Hc, Hc2.
    split; [exact Hr2|].
    split; [symmetry; apply (omap_app _ [cb] cbs)|]. split; congruence.
Qed.

(** *** The layout exception *)

















(** *** The maximum-bounds check *)

(** C2 (as amended): with a layout manager and a layout provider in place,
    [_checkExpectedDimensionDiscrepancy] returns normally, leaves the
    declared, max-bounded size in [_tempDim], and moves the pending re-layout
    cursor exactly when the rectangle's height or width differs from that
    size, in either direction; the cursor then becomes the index if it was
    -1 and the smaller of the two otherwise. *)
Theorem dimension_discrepancy_marks (s : RecyclerListView) (lp : LayoutProvider)
    (rect : Rect) (type : LayoutType) (index : Z) :
  hasLayoutManager (_virtualRenderer s) = true ->
  layoutProvider (props s) = Some lp ->
  let declared := declaredSize s lp type index in
  let o := _checkExpectedDimensionDiscrepancy (Some rect) type index s in
  result o = inr tt /\
  _tempDim (final o) = declared /\
  _relayoutReqIndex (final o) =
    if (rect_height rect =? height declared) && (rect_width rect =? width declared)
    then _relayoutReqIndex s
    else coalesce (_relayoutReqIndex s) index.
Proof.
  intros Hlm Hlp declared o. subst o declared.
  unfold _checkExpectedDimensionDiscrepancy, declaredSize, markForRelayout, coalesce,
    bind, this, deref, require, modify.
  cbn. rewrite Hlm. cbn. rewrite Hlp. cbn.
  destruct (rect_height rect =? _) ; cbn.
  - destruct (rect_width rect =? _); cbn; [auto|].
    destruct (_relayoutReqIndex s =? -1); cbn; auto.
  - destruct (_relayoutReqIndex s =? -1); cbn; auto.
Qed.

(** *** The pending re-layout cursor *)

(** One notification: the layout manager is told, the cursor coalesces, a
    refresh is queued. *)
Lemma onViewContainerSizeChange_step (s : RecyclerListView) (dim : Dimension)
    (index : Z) :
  hasLayoutManager (_virtualRenderer s) = true ->
  _onViewContainerSizeChange dim index s =
    mkOutcome
      (set_relayoutReqIndex (coalesce (_relayoutReqIndex s) index)
         (set_virtualRenderer (overrideLayout (_virtualRenderer s) index dim) s))
      [OverrideLayout index dim; RefreshRequest] (inr tt).
Proof.
  intros Hlm.
  unfold _onViewContainerSizeChange, bind, this, require, markForRelayout, coalesce.
  cbn. rewrite Hlm. cbn.
  destruct (_relayoutReqIndex s =? -1); reflexivity.
Qed.

Lemma coalesce_nonneg (c i : Z) : 0 <= c -> 0 <= i -> coalesce c i = Z.min c i.
Proof.
  intros Hc Hi. unfold coalesce, Math_min.
  destruct (Z.eqb_spec c (-1)); [lia | reflexivity].
Qed.

Lemma minimum_nonneg (c : Z) (l : list Z) :
  0 <= c -> Forall (fun i => 0 <= i) l -> 0 <= minimum c l.
Proof.
  intros Hc Hl. revert c Hc.
  induction Hl as [|i l Hi _ IH]; intros c Hc; cbn; [exact Hc|].
  apply IH. lia.
Qed.

(** A burst that starts with a cursor already set keeps lowering it. *)
Lemma resizeAll_from (notifications : list (Dimension * Z)) :
  forall (s : RecyclerListView) `{!CollaboratorLaws C},
  hasLayoutManager (_virtualRenderer s) = true ->
  0 <= _relayoutReqIndex s ->
  Forall (fun n => 0 <= n.2) notifications ->
  let o := resizeAll notifications s in
  result o = inr tt /\
  hasLayoutManager (_virtualRenderer (final o)) = true /\
  props (final o) = props s /\
  _relayoutReqIndex (final o) = minimum (_relayoutReqIndex s) (snd <$> notifications).
Proof.
  induction notifications as [|[dim i] rest IH]; intros s Laws Hlm Hc Hall; cbn zeta.
  - cbn. auto.
  - inversion Hall as [|? ? Hi Hrest]; subst. cbn in Hi.
    cbn [resizeAll]. rewrite bind_run.
    rewrite (onViewContainerSizeChange_step s dim i Hlm). cbn [result final trace].
    set (s1 := set_relayoutReqIndex _ _).
    assert (Hlm1 : hasLayoutManager (_virtualRenderer s1) = true)
      by (apply overrideLayout_keeps_manager; exact Hlm).
    assert (Hc1 : _relayoutReqIndex s1 = Z.min (_relayoutReqIndex s) i)
      by (apply coalesce_nonneg; assumption).
    destruct (IH s1 Laws Hlm1 ltac:(rewrite Hc1; lia) Hrest) as (Hr & Hl & Hp & Hm).
    cbn. repeat split; try assumption.
    rewrite Hm, Hc1. reflexivity.
Qed.

(** What a burst leaves of the renderer, the parameters and the viewport, and
    what it emits: the layout manager has been told of each size in turn,
    and each notification has asked for one state refresh. *)
Lemma resizeAll_renderer (notifications : list (Dimension * Z)) :
  forall (s : RecyclerListView) `{!CollaboratorLaws C},
  hasLayoutManager (_virtualRenderer s) = true ->
  let o := resizeAll notifications s in
  _virtualRenderer (final o) = overridden notifications (_virtualRenderer s) /\
  _params (final o) = _params s /\
  _layout (final o) = _layout s /\
  trace o = flat_map (fun n => [OverrideLayout n.2 n.1; RefreshRequest]) notifications.
Proof.
  induction notifications as [|[dim i] rest IH]; intros s Laws Hlm; cbn zeta.
  - cbn. auto.
  - cbn [resizeAll]. rewrite bind_run.
    rewrite (onViewContainerSizeChange_step s dim i Hlm). cbn [result final trace].
    set (s1 := set_relayoutReqIndex _ _).
    assert (Hlm1 : hasLayoutManager (_virtualRenderer s1) = true)
      by (apply overrideLayout_keeps_manager; exact Hlm).
    destruct (IH s1 Laws Hlm1) as (Hv & Hp & Hl & Ht).
    destruct (resizeAll rest s1) as [fin tr [e|[]]]; cbn [result final trace] in *;
      rewrite Hv, Hp, Hl, Ht; repeat split; reflexivity.
Qed.

(** [_refreshViewability] emits no re-layout and keeps the cursor. *)
Lemma refreshViewability_frame (s : RecyclerListView) :
  relayouts (trace (_refreshViewability s)) = [] /\
  _relayoutReqIndex (final (_refreshViewability s)) = _relayoutReqIndex s.
Proof.
  unfold _refreshViewability, _queueStateRefresh. rewrite bind_run, onRendererCb_run.
  match goal with |- context [handleCallbacks ?cbs ?st] =>
    destruct (handleCallbacks_frame cbs st) as [Ht (_ & _ & _ & _ & Hcur & _)];
    destruct (result (handleCallbacks cbs st))
  end; cbn [result final trace emit] in *.
  - split; [apply relayouts_callbackEvents, Ht | exact Hcur].
  - rewrite relayouts_app, (relayouts_callbackEvents _ Ht). split; [reflexivity | exact Hcur].
Qed.

(** However its callbacks end, [_refreshViewability] leaves the renderer as
    [refresh()] returned it. *)
Lemma refreshViewability_renderer (s : RecyclerListView) :
  _virtualRenderer (final (_refreshViewability s)) = fst (refresh (_virtualRenderer s)).
Proof.
  unfold _refreshViewability, _queueStateRefresh. rewrite bind_run, onRendererCb_run.
  match goal with |- context [handleCallbacks ?cbs ?st] =>
    destruct (handleCallbacks_frame cbs st) as [_ (_ & _ & Hv & _)];
    destruct (result (handleCallbacks cbs st))
  end; cbn [result final trace emit] in *; exact Hv.
Qed.

(** The flush: with unchanged providers and orientation and a cursor set,
    [_checkAndChangeLayouts] re-lays out once, from the cursor, and clears
    it. *)
Lemma flush_relayouts `{!CollaboratorLaws C} (s : RecyclerListView)
    (newProps : RecyclerListViewProps) (dp : DataProvider) :
  layoutProvider newProps = layoutProvider (props s) ->
  isHorizontal newProps = isHorizontal (props s) ->
  dataProvider newProps = dataProvider (props s) ->
  dataProvider newProps = Some dp ->
  hasLayoutManager (_virtualRenderer s) = true ->
  0 <= _relayoutReqIndex s ->
  let flush := _checkAndChangeLayouts newProps false s in
  relayouts (trace flush) = [(_relayoutReqIndex s, getSize dp)] /\
  _relayoutReqIndex (final flush) = -1 /\
  _virtualRenderer (final flush)
    = fst (refresh
             (reLayoutFromIndex
                (setParamsAndDimensions (_virtualRenderer s)
                                        (paramsFor s newProps dp) (_layout s))
                (_relayoutReqIndex s) (getSize dp))).
Proof.
  intros Hlp Hh Hdp Hsome Hlm Hc. cbn zeta.
  unfold _checkAndChangeLayouts, callReLayoutFromIndex, onRenderer,
    bind, this, deref, modify, emit.
  cbn. rewrite Hsome. cbn. rewrite Hlp, Hh, <- Hdp, Hsome.
  rewrite !bool_decide_eq_true_2 by reflexivity.
  rewrite Bool.eqb_reflx. cbn.
  destruct (Z.leb_spec 0 (_relayoutReqIndex s)) as [_|]; [|lia]. cbn.
  rewrite setParamsAndDimensions_keeps_manager by exact Hlm. cbn.
  match goal with |- context [_refreshViewability ?st] =>
    destruct (refreshViewability_frame st) as [Ht Hcur];
    pose proof (refreshViewability_renderer st) as Hv;
    destruct (_refreshViewability st) as [s' t' r']
  end.
  cbn [result final trace] in Ht, Hcur, Hv. unfold relayouts in *. cbn.
  rewrite Ht. split; [reflexivity|]. split; [exact Hcur|].
  rewrite Hv. unfold paramsFor. rewrite Hh. reflexivity.
Qed.

(** C3: after a flush (cursor -1), a burst of item-resize notifications for
    valid indices [i1 .. ik] all return normally, have told the layout
    manager of each size in turn and leave the cursor at [min(i1 .. ik)];
    the next flush with unchanged providers and orientation calls
    [reLayoutFromIndex] once, with exactly that index and the size of the
    data, resets the cursor to -1 and leaves the renderer re-laid out from
    that index and refreshed. *)
Theorem resize_burst_then_flush `{!CollaboratorLaws C} (s : RecyclerListView)
    (first : Dimension * Z) (rest : list (Dimension * Z))
    (newProps : RecyclerListViewProps) (dp : DataProvider) :
  hasLayoutManager (_virtualRenderer s) = true ->
  _relayoutReqIndex s = -1 ->
  Forall (fun n => 0 <= n.2) (first :: rest) ->
  layoutProvider newProps = layoutProvider (props s) ->
  isHorizontal newProps = isHorizontal (props s) ->
  dataProvider newProps = dataProvider (props s) ->
  dataProvider newProps = Some dp ->
  let lowest := minimum first.2 (snd <$> rest) in
  let burst := resizeAll (first :: rest) s in
  let flush := _checkAndChangeLayouts newProps false (final burst) in
  let told := overridden (first :: rest) (_virtualRenderer s) in
  result burst = inr tt /\
  _virtualRenderer (final burst) = told /\
  _relayoutReqIndex (final burst) = lowest /\
  relayouts (trace flush) = [(lowest, getSize dp)] /\
  _relayoutReqIndex (final flush) = -1 /\
  _virtualRenderer (final flush)
    = fst (refresh
             (reLayoutFromIndex
                (setParamsAndDimensions told (paramsFor s newProps dp) (_layout s))
                lowest (getSize dp))).
Proof.
  intros Hlm Hc Hall Hlp Hh Hdp Hsome. cbn zeta.
  destruct first as [dim i]. inversion Hall as [|? ? Hi Hrest]; subst. cbn in Hi.
  cbn [snd].
  pose (s1 := set_relayoutReqIndex (coalesce (_relayoutReqIndex s) i)
                (set_virtualRenderer (overrideLayout (_virtualRenderer s) i dim) s)).
  assert (Hc1 : _relayoutReqIndex s1 = i).
  { subst s1. cbn. rewrite Hc. reflexivity. }
  assert (Hlm1 : hasLayoutManager (_virtualRenderer s1) = true)
    by (apply overrideLayout_keeps_manager; exact Hlm).
  destruct (resizeAll_from rest s1 Hlm1 ltac:(rewrite Hc1; exact Hi) Hrest)
    as (Hr & Hl & Hp & Hm).
  assert (Hburst : resizeAll ((dim, i) :: rest) s =
                   mkOutcome (final (resizeAll rest s1))
                             ([OverrideLayout i dim; RefreshRequest]
                                ++ trace (resizeAll rest s1))
                             (inr tt)).
  { cbn [resizeAll]. rewrite bind_run.
    rewrite (onViewContainerSizeChange_step s dim i Hlm). cbn [result final trace].
    fold s1. rewrite Hr. reflexivity. }
  destruct (resizeAll_renderer rest s1 Hlm1) as (Hv & Hpar & Hlay & _).
  rewrite Hburst. clear Hburst.
  rewrite Hc1 in Hm. cbn [result final trace].
  assert (Htold : _virtualRenderer (final (resizeAll rest s1))
                  = overridden ((dim, i) :: rest) (_virtualRenderer s))
    by (rewrite Hv; reflexivity).
  split; [reflexivity|]. split; [exact Htold|]. split; [exact Hm|].
  rewrite <- Hm.
  destruct (flush_relayouts (final (resizeAll rest s1)) newProps dp) as (Hre & Hcur & Hfl);
    try assumption.
  - rewrite Hp. exact Hlp.
  - rewrite Hp. exact Hh.
  - rewrite Hp. exact Hdp.
  - rewrite Hm. apply minimum_nonneg; [exact Hi|].
    clear -Hrest. induction Hrest; cbn; constructor; auto.
  - split; [exact Hre|]. split; [exact Hcur|].
    cbv zeta in Hfl. rewrite Hfl, Htold, Hlay. unfold paramsFor. rewrite Hpar.
    reflexivity.
Qed.

(** *** Saving and restoring the layouts *)

Lemma newLayoutManagers_processOnEndReached (s : RecyclerListView) :
  newLayoutManagers (trace (_processOnEndReached s)) = [].
Proof.
  unfold _processOnEndReached, bind, this, modify, emit. cbn.
  repeat match goal with |- context [if ?b then _ else _] => destruct b; cbn end;
    reflexivity.
Qed.

(** What the unmounting instance leaves in the context provider. *)
Lemma componentWillUnmount_saves `{!ContextProviderLaws C} (old : RecyclerListView)
    (cp : ContextProvider) (uniqueKey : string) :
  contextProvider (props old) = Some cp ->
  truthy_key (getUniqueKey cp) = Some uniqueKey ->
  forceNonDeterministicRendering (props old) = true ->
  hasLayoutManager (_virtualRenderer old) = true ->
  exists cp',
    contextProvider (props (final (componentWillUnmount old))) = Some cp' /\
    getUniqueKey cp' = getUniqueKey cp /\
    ctx_get cp' (layoutsKey uniqueKey)
      = Some (CStr (JSON_stringify (getLayouts (_virtualRenderer old)))).
Proof.
  intros Hcp Hkey Hfnd Hlm.
  unfold componentWillUnmount, bind, this, modify. cbn.
  rewrite Hcp, Hkey. cbn. rewrite Hfnd, Hlm. cbn.
  eexists. split; [reflexivity|]. split.
  - rewrite !getUniqueKey_save. reflexivity.
  - apply ctx_get_save.
Qed.

(** What the mounting instance reads back. *)
Lemma componentWillMount_restores (p : RecyclerListViewProps)
    (cp : ContextProvider) (uniqueKey text : string) (layouts : list Rect) :
  contextProvider p = Some cp ->
  truthy_key (getUniqueKey cp) = Some uniqueKey ->
  forceNonDeterministicRendering p = true ->
  ctx_get cp (layoutsKey uniqueKey) = Some (CStr text) ->
  text <> EmptyString ->
  JSON_parse text = inr (Some layouts) ->
  let fresh := final (componentWillMount (constructor p)) in
  _cachedLayouts fresh = Some layouts /\ _initComplete fresh = false /\
  dataProvider (props fresh) = dataProvider p /\
  layoutProvider (props fresh) = layoutProvider p.
Proof.
  intros Hcp Hkey Hfnd Hget Hne Hparse. cbn zeta.
  unfold componentWillMount, bind, this, modify. cbn.
  rewrite Hcp, Hkey. cbn.
  assert (Htext : String.eqb text EmptyString = false)
    by (apply String.eqb_neq; exact Hne).
  destruct (ctx_get cp uniqueKey) as [[offset|str]|]; cbn;
    try destruct (0 <? offset); cbn;
    rewrite Hfnd, Hget; cbn; rewrite Htext, Hparse; cbn; auto.
Qed.

(** [_initTrackers] creates one layout manager, from the cached layouts. *)
Lemma initTrackers_uses_cache (s : RecyclerListView)
    (dp : DataProvider) (lp : LayoutProvider) :
  dataProvider (props s) = Some dp ->
  layoutProvider (props s) = Some lp ->
  newLayoutManagers (trace (_initTrackers s)) = [_cachedLayouts s].
Proof.
  intros Hdp Hlp.
  unfold _initTrackers, _assertDependencyPresence, installLayoutManager, onRenderer,
    onRendererCb, bind, this, deref, modify, emit.
  cbn. rewrite Hdp, Hlp. cbn.
  unfold newLayoutManagers.
  repeat match goal with
         | |- context [match handleCallbacks ?cbs ?st with _ => _ end] =>
             let Ht := fresh "Ht" in
             destruct (handleCallbacks_frame cbs st) as [Ht _];
             apply newLayoutManagers_callbackEvents in Ht;
             unfold newLayoutManagers in Ht;
             destruct (handleCallbacks cbs st) as [? ? [?|[]]];
             cbn in Ht |- *
         | |- context [if ?b then _ else _] => destruct b; cbn
         end.
  all: rewrite ?omap_app; cbn.
  all: repeat match goal with H : omap _ _ = [] |- _ => rewrite H; clear H end.
  all: reflexivity.
Qed.

(** The first [_onSizeChanged] hands the cached layouts, whatever they are,
    to the one layout manager it creates. *)
Lemma first_onSizeChanged_uses_cache (s : RecyclerListView) (layout : Dimension)
    (dp : DataProvider) (lp : LayoutProvider) :
  _initComplete s = false ->
  dataProvider (props s) = Some dp ->
  layoutProvider (props s) = Some lp ->
  height layout <> 0 -> width layout <> 0 ->
  newLayoutManagers (trace (_onSizeChanged layout s)) = [_cachedLayouts s].
Proof.
  intros Hinit Hdp Hlp Hh Hw.
  unfold _onSizeChanged.
  rewrite bind_this, bind_modify.
  destruct (Z.eqb_spec (height layout) 0); [contradiction|].
  destruct (Z.eqb_spec (width layout) 0); [contradiction|]. cbn [orb].
  rewrite Hinit. cbn [negb].
  rewrite bind_modify, bind_run.
  match goal with |- context [_initTrackers ?st] =>
    pose proof (initTrackers_uses_cache st dp lp Hdp Hlp) as Hinit';
    cbn [_cachedLayouts set_initComplete set_layout] in Hinit';
    destruct (result (_initTrackers st))
  end; cbn [result final trace].
  - exact Hinit'.
  - rewrite newLayoutManagers_app, Hinit', newLayoutManagers_processOnEndReached.
    reflexivity.
Qed.

(** C4 (as amended): when the old instance has a context provider with a
    non-empty unique key, [forceNonDeterministicRendering] set and a layout
    manager, the context provider gives back what was saved, JSON
    round-trips the exported array, and the new instance is created with
    that context provider, [forceNonDeterministicRendering] set and both
    providers, then the Layout array exported at [componentWillUnmount] is
    restored verbatim by [componentWillMount] and is what the first
    [_onSizeChanged] hands to the one [LayoutManager] it creates. *)
Theorem cached_layouts_round_trip `{!ContextProviderLaws C}
    (old : RecyclerListView) (cp : ContextProvider) (uniqueKey : string)
    (newProps : RecyclerListViewProps) (layout : Dimension)
    (dp : DataProvider) (lp : LayoutProvider) :
  contextProvider (props old) = Some cp ->
  truthy_key (getUniqueKey cp) = Some uniqueKey ->
  forceNonDeterministicRendering (props old) = true ->
  hasLayoutManager (_virtualRenderer old) = true ->
  let exported := getLayouts (_virtualRenderer old) in
  JSON_stringify exported <> EmptyString ->
  JSON_parse (JSON_stringify exported) = inr (Some exported) ->
  contextProvider newProps
    = contextProvider (props (final (componentWillUnmount old))) ->
  forceNonDeterministicRendering newProps = true ->
  dataProvider newProps = Some dp ->
  layoutProvider newProps = Some lp ->
  height layout <> 0 -> width layout <> 0 ->
  let fresh := final (componentWillMount (constructor newProps)) in
  _cachedLayouts fresh = Some exported /\
  newLayoutManagers (trace (_onSizeChanged layout fresh)) = [Some exported].
Proof.
  intros Hcp Hkey Hfnd Hlm exported Hne Hjson Hnew Hfnd' Hdp Hlp Hh Hw fresh.
  destruct (componentWillUnmount_saves old cp uniqueKey Hcp Hkey Hfnd Hlm)
    as (cp' & Hcp' & Hkey' & Hget).
  rewrite Hcp' in Hnew. rewrite <- Hkey' in Hkey.
  destruct (componentWillMount_restores newProps cp' uniqueKey _ exported
              Hnew Hkey Hfnd' Hget Hne Hjson) as (Hcached & Hinit & Hdp' & Hlp').
  fold fresh in Hcached, Hinit, Hdp', Hlp'.
  split; [exact Hcached|].
  rewrite <- Hcached.
  apply (first_onSizeChanged_uses_cache fresh layout dp lp); try assumption.
  - rewrite Hdp'. exact Hdp.
  - rewrite Hlp'. exact Hlp.
Qed.

(** *** Rendering a row *)

Lemma assertType_rejects (t : LayoutType) (s : RecyclerListView) :
  rejectedType t -> _assertType t s = mkOutcome s [] (inl ItemTypeNullException).
Proof. intros [-> | [-> | [-> | ->]]]; reflexivity. Qed.

Lemma assertType_accepts (t : LayoutType) (s : RecyclerListView) :
  ~ rejectedType t -> _assertType t s = mkOutcome s [] (inr tt).
Proof.
  intros H. unfold _assertType. destruct t as [| |str|n|]; cbn.
  - exfalso; apply H; left; reflexivity.
  - exfalso; apply H; right; left; reflexivity.
  - destruct str; cbn; [|reflexivity].
    exfalso; apply H; right; right; left; reflexivity.
  - destruct (n =? 0); reflexivity.
  - exfalso; apply H; right; right; right; reflexivity.
Qed.

(** C6 (as amended): [_assertType] throws exactly on [undefined], [null],
    the empty string and [NaN], and on nothing else (the number 0 and every
    non-empty string pass); and for a render-stack entry whose index is not
    0 and is below the data size, with both providers and the layout manager
    in place, a type of that kind from the layout provider makes
    [_renderRowUsingMeta] end with that exception, before it has changed or
    called anything. *)
Theorem assertType_guard (s : RecyclerListView) (item : RenderStackItem)
    (dp : DataProvider) (lp : LayoutProvider) (i : Z) :
  dataProvider (props s) = Some dp ->
  layoutProvider (props s) = Some lp ->
  hasLayoutManager (_virtualRenderer s) = true ->
  dataIndex item = Some i -> i <> 0 -> i < getSize dp ->
  (forall t s', result (_assertType t s') = inl ItemTypeNullException
                <-> rejectedType t)
  /\ (rejectedType (getLayoutTypeForIndex lp i) ->
      _renderRowUsingMeta item s = mkOutcome s [] (inl ItemTypeNullException)).
Proof.
  intros Hdp Hlp Hlm Hi Hnz Hlt. split.
  - intros t s'. split.
    + intros Hr. destruct t as [| |str|n|]; unfold rejectedType; auto.
      * destruct str; auto. discriminate Hr.
      * unfold _assertType in Hr. cbn in Hr. destruct (n =? 0); discriminate Hr.
    + intros Hr. rewrite (assertType_rejects _ _ Hr). reflexivity.
  - intros Hr. unfold _renderRowUsingMeta, bind, this, deref, require. cbn.
    rewrite Hdp. cbn. rewrite Hi. cbn.
    destruct (Z.eqb_spec i 0) as [|_]; [contradiction|]. cbn.
    destruct (Z.ltb_spec i (getSize dp)) as [_|]; [|lia]. cbn.
    rewrite Hlm. cbn. rewrite Hlp. cbn.
    rewrite (assertType_rejects _ _ Hr). reflexivity.
Qed.

(** C9: with a data provider in place, [_renderRowUsingMeta] returns [null]
    (and changes and calls nothing) for an entry whose [dataIndex] is
    [undefined], is 0, or is not below the data size; index 0 is therefore
    never rendered through this path. *)
Theorem renderRow_null (s : RecyclerListView) (item : RenderStackItem)
    (dp : DataProvider) :
  dataProvider (props s) = Some dp ->
  (dataIndex item = None \/ dataIndex item = Some 0 \/
   exists i, dataIndex item = Some i /\ getSize dp <= i) ->
  _renderRowUsingMeta item s = mkOutcome s [] (inr None).
Proof.
  intros Hdp Hidx. unfold _renderRowUsingMeta, bind, this, deref. cbn.
  rewrite Hdp. cbn.
  assert (Hr : renderable (dataIndex item) (getSize dp) = None).
  { destruct Hidx as [-> | [-> | (i & -> & Hi)]]; cbn; try reflexivity.
    destruct (i =? 0); cbn; [reflexivity |].
    destruct (Z.ltb_spec i (getSize dp)); [lia | reflexivity]. }
  rewrite Hr. reflexivity.
Qed.

(** *** The end-reached latch *)

Lemma processOnEndReached_step (s : RecyclerListView) :
  _processOnEndReached s =
    if onEndReached (props s) then
      if inEndRegion s then
        if _onEndReachedCalled s then mkOutcome s [] (inr tt)
        else mkOutcome (set_onEndReachedCalled true s) [OnEndReached] (inr tt)
      else mkOutcome (set_onEndReachedCalled false s) [] (inr tt)
    else mkOutcome s [] (inr tt).
Proof.
  unfold _processOnEndReached, inEndRegion, bind, this. cbn.
  destruct (onEndReached (props s)); [|reflexivity].
  destruct (distanceFromEnd s <=? _); [|reflexivity].
  destruct (_onEndReachedCalled s); reflexivity.
Qed.

Lemma inEndRegion_latch (b : bool) (s : RecyclerListView) :
  inEndRegion (set_onEndReachedCalled b s) = inEndRegion s.
Proof. reflexivity. Qed.

(** A call made with the latch set does not fire, and leaves the latch set
    unless it saw the offset outside the region. *)
Lemma latched_call (s : RecyclerListView) :
  let o := _processOnEndReached (set_onEndReachedCalled true s) in
  existsb isEndReached (trace o) = false /\
  (_onEndReachedCalled (final o) = true \/
   (onEndReached (props s) = true /\ inEndRegion s = false)).
Proof.
  cbn zeta. rewrite processOnEndReached_step, inEndRegion_latch. cbn.
  destruct (onEndReached (props s)); cbn; [|auto].
  destruct (inEndRegion s); cbn; auto.
Qed.

(** A call that fires sets the latch. *)
Lemma firing_call (latch : bool) (s : RecyclerListView) :
  let o := _processOnEndReached (set_onEndReachedCalled latch s) in
  existsb isEndReached (trace o) = true ->
  _onEndReachedCalled (final o) = true /\ latch = false /\
  onEndReached (props s) = true /\ inEndRegion s = true.
Proof.
  cbn zeta. rewrite processOnEndReached_step, inEndRegion_latch. cbn.
  destruct (onEndReached (props s)); cbn; [|discriminate].
  destruct (inEndRegion s); cbn; [|discriminate].
  destruct latch; cbn; [discriminate | auto].
Qed.

(** Once the latch is set, a later call can fire only after a call that saw
    the offset outside the region. *)
Lemma latched_run (states : list RecyclerListView) :
  forall j : nat,
  latchRun true states !! j = Some true ->
  exists (k : nat) (s : RecyclerListView),
    (k < j)%nat /\ states !! k = Some s /\
    onEndReached (props s) = true /\ inEndRegion s = false.
Proof.
  induction states as [|s rest IH]; intros j Hj; [discriminate|].
  cbn [latchRun] in Hj.
  pose proof (latched_call s) as Hcall. cbn zeta in Hcall.
  destruct Hcall as [Hquiet Hlatch].
  destruct j as [|j]; cbn -[_processOnEndReached] in Hj.
  - congruence.
  - destruct Hlatch as [Hkept | [Hp Hout]].
    + rewrite Hkept in Hj. destruct (IH j Hj) as (k & sk & Hk & Hsk & Hpk & Hok).
      exists (S k), sk. repeat split; [lia | exact Hsk | exact Hpk | exact Hok].
    + exists 0%nat, s. repeat split; [lia | exact Hp | exact Hout].
Qed.

(** C10: [onEndReached] is latched.  A call of [_processOnEndReached] with
    the callback present calls it once if the offset is within the threshold
    of the end and the latch is not set, and not at all otherwise, and leaves
    the latch set exactly when the offset is within the threshold.  Over any
    run of calls, two calls that fire are separated by a call that saw the
    offset strictly outside the threshold region. *)
Theorem onEndReached_latched (latch : bool) (states : list RecyclerListView) :
  (forall s : RecyclerListView,
     onEndReached (props s) = true ->
     let o := _processOnEndReached s in
     endReachedCalls (trace o)
       = (if inEndRegion s && negb (_onEndReachedCalled s) then 1%nat else 0%nat)
     /\ _onEndReachedCalled (final o) = inEndRegion s)
  /\
  (forall i j : nat,
     (i < j)%nat ->
     latchRun latch states !! i = Some true ->
     latchRun latch states !! j = Some true ->
     exists (k : nat) (s : RecyclerListView),
       (i < k < j)%nat /\ states !! k = Some s /\
       onEndReached (props s) = true /\ inEndRegion s = false).
Proof.
  split.
  - intros s Hp. cbn zeta. rewrite processOnEndReached_step, Hp.
    unfold endReachedCalls.
    destruct (inEndRegion s); cbn; [|split; reflexivity].
    destruct (_onEndReachedCalled s) eqn:E; cbn; rewrite ?E; split; reflexivity.
  - revert latch. induction states as [|s rest IH]; intros latch i j Hij Hi Hj;
      [discriminate|].
    cbn [latchRun] in Hi, Hj.
    destruct j as [|j]; [lia|]. cbn -[_processOnEndReached] in Hj.
    destruct i as [|i]; cbn -[_processOnEndReached] in Hi.
    + injection Hi as Hi. apply firing_call in Hi as (Hset & _).
      rewrite Hset in Hj.
      destruct (latched_run rest j Hj) as (k & sk & Hk & Hsk & Hpk & Hok).
      exists (S k), sk. repeat split; [lia | lia | exact Hsk | exact Hpk | exact Hok].
    + destruct (IH _ i j ltac:(lia) Hi Hj) as (k & sk & Hk & Hsk & Hpk & Hok).
      exists (S k), sk. repeat split; [lia | lia | exact Hsk | exact Hpk | exact Hok].
Qed.

(** The latch is written by [_processOnEndReached] alone: the other methods
    that do not call it leave it as it was. *)
Lemma kl_ret {A} (a : A) : keepsLatch (ret a).
Proof. intros s; reflexivity. Qed.

Lemma kl_throw {A} (e : Exn) : keepsLatch (@throw _ A e).
Proof. intros s; reflexivity. Qed.

Lemma kl_emit (ev : Event) : keepsLatch (emit ev).
Proof. intros s; reflexivity. Qed.

Lemma kl_this : keepsLatch this.
Proof. intros s; reflexivity. Qed.

Lemma kl_modify (f : RecyclerListView -> RecyclerListView) :
  (forall s, _onEndReachedCalled (f s) = _onEndReachedCalled s) ->
  keepsLatch (modify f).
Proof. intros Hf s; apply Hf. Qed.

Lemma kl_bind {A B} (m : M A) (k : A -> M B) :
  keepsLatch m -> (forall a, keepsLatch (k a)) -> keepsLatch (bind m k).
Proof.
  intros Hm Hk s. rewrite bind_run. destruct (result (m s)) as [e|a]; cbn.
  - apply Hm.
  - rewrite Hk. apply Hm.
Qed.

Lemma kl_handleCallbacks (cbs : list Callback) : keepsLatch (handleCallbacks cbs).
Proof.
  intros s. destruct (handleCallbacks_frame cbs s) as [_ (_ & H & _)]. exact H.
Qed.

Ltac kl :=
  repeat first
    [ apply kl_handleCallbacks
    | apply kl_ret | apply kl_throw | apply kl_emit | apply kl_this
    | apply kl_modify; intros ?; reflexivity
    | apply kl_bind; [| intros ?]
    | match goal with
      | |- keepsLatch (if ?b then _ else _) => destruct b
      | |- keepsLatch (match ?x with _ => _ end) => destruct x
      end ].

Lemma latch_kept_by_resize (dim : Dimension) (index : Z) :
  keepsLatch (_onViewContainerSizeChange dim index).
Proof.
  unfold _onViewContainerSizeChange, require, onRenderer, markForRelayout,
    _queueStateRefresh. kl.
Qed.

Lemma latch_kept_by_layout_change (p : RecyclerListViewProps) (force : bool) :
  keepsLatch (_checkAndChangeLayouts p force).
Proof.
  unfold _checkAndChangeLayouts, deref, installLayoutManager, callReLayoutFromIndex,
    _refreshViewability, onRendererCb, onRenderer, _queueStateRefresh. kl.
Qed.

Lemma latch_kept_by_rendering (item : RenderStackItem) :
  keepsLatch (_renderRowUsingMeta item).
Proof.
  unfold _renderRowUsingMeta, _checkExpectedDimensionDiscrepancy, _assertType,
    markForRelayout, deref, require. kl.
Qed.

Lemma latch_kept_by_scrollToIndex (index : Z) (animate : bool) :
  keepsLatch (scrollToIndex index animate).
Proof. unfold scrollToIndex, scrollToOffset. kl. Qed.

(** *** Scrolling to an index *)

(** Whatever error the layout manager answers [getOffsetForIndex] with,
    [scrollToIndex] hands it to its caller untouched, having changed and
    called nothing. *)
Lemma scrollToIndex_propagates (s : RecyclerListView) (index : Z)
    (animate : bool) (e : Exn) :
  hasLayoutManager (_virtualRenderer s) = true ->
  getOffsetForIndex (_virtualRenderer s) index = inl e ->
  scrollToIndex index animate s = mkOutcome s [] (inl e).
Proof.
  intros Hlm He. unfold scrollToIndex, bind, this. cbn. rewrite Hlm, He. reflexivity.
Qed.

(** X1: before there is a layout manager, [scrollToIndex] only logs the
    warning and returns, whatever the index; it writes no field and does not
    reach the scroll component. *)
Theorem scrollToIndex_before_layout (s : RecyclerListView) (index : Z)
    (animate : bool) :
  hasLayoutManager (_virtualRenderer s) = false ->
  scrollToIndex index animate s = mkOutcome s [Warn] (inr tt).
Proof.
  intros Hlm. unfold scrollToIndex, bind, this. cbn. rewrite Hlm. reflexivity.
Qed.

Lemma visibilityCalls_processOnEndReached (s : RecyclerListView) :
  visibilityCalls (trace (_processOnEndReached s)) = [] /\
  result (_processOnEndReached s) = inr tt /\
  _virtualRenderer (final (_processOnEndReached s)) = _virtualRenderer s.
Proof.
  unfold _processOnEndReached, bind, this. cbn.
  repeat match goal with |- context [if ?b then _ else _] => destruct b; cbn end;
    auto.
Qed.

Lemma latch_kept_by_initTrackers : keepsLatch _initTrackers.
Proof.
  unfold _initTrackers, _assertDependencyPresence, deref, installLayoutManager,
    onRendererCb, onRenderer. kl.
Qed.

Lemma latch_kept_by_new_props (newProps : RecyclerListViewProps) :
  keepsLatch (componentWillReceiveProps newProps).
Proof.
  unfold componentWillReceiveProps, _assertDependencyPresence,
    _checkAndChangeLayouts, deref, installLayoutManager, callReLayoutFromIndex,
    _refreshViewability, onRendererCb, onRenderer, _queueStateRefresh. kl.
Qed.

Lemma latch_kept_by_mounting : keepsLatch componentWillMount.
Proof. unfold componentWillMount. kl. Qed.

Lemma latch_kept_by_unmounting : keepsLatch componentWillUnmount.
Proof. unfold componentWillUnmount. kl. Qed.

(** *** Viewport changes after the first *)

Lemma refreshViewability_quiet (s : RecyclerListView) :
  newLayoutManagers (trace (_refreshViewability s)) = [].
Proof.
  unfold _refreshViewability, _queueStateRefresh. rewrite bind_run, onRendererCb_run.
  match goal with |- context [handleCallbacks ?cbs ?st] =>
    destruct (handleCallbacks_frame cbs st) as [Ht _];
    apply newLayoutManagers_callbackEvents in Ht;
    destruct (result (handleCallbacks cbs st))
  end; cbn [result final trace emit].
  - exact Ht.
  - rewrite newLayoutManagers_app, Ht. reflexivity.
Qed.

(** X2: a first viewport (non-zero dimensions) with the data or the layout
    provider missing is refused with the unresolved-dependencies exception,
    before the renderer is touched or anything is called. *)
Theorem first_size_without_providers (s : RecyclerListView) (layout : Dimension) :
  _initComplete s = false ->
  height layout <> 0 -> width layout <> 0 ->
  dataProvider (props s) = None \/ layoutProvider (props s) = None ->
  let o := _onSizeChanged layout s in
  result o = inl UnresolvedDependenciesException /\
  trace o = [] /\
  _virtualRenderer (final o) = _virtualRenderer s.
Proof.
  intros Hinit Hh Hw Hmissing. cbn zeta.
  unfold _onSizeChanged.
  rewrite bind_this, bind_modify.
  destruct (Z.eqb_spec (height layout) 0); [contradiction|].
  destruct (Z.eqb_spec (width layout) 0); [contradiction|]. cbn [orb].
  rewrite Hinit. cbn [negb].
  rewrite bind_modify. unfold _initTrackers. rewrite bind_run, bind_this.
  cbn [props set_initComplete set_layout].
  assert (Hthrow : forall st, _assertDependencyPresence (props s) st
                              = mkOutcome st [] (inl UnresolvedDependenciesException)).
  { intros st. unfold _assertDependencyPresence.
    destruct Hmissing as [-> | ->]; [reflexivity|].
    destruct (dataProvider (props s)); reflexivity. }
  rewrite bind_run, Hthrow. cbn. auto.
Qed.

(** *** Fields a method leaves alone *)

Lemma pres_ret {X A} (f : RecyclerListView -> X) (a : A) : preserves f (ret a).
Proof. intros s; reflexivity. Qed.

Lemma pres_throw {X A} (f : RecyclerListView -> X) (e : Exn) :
  preserves f (@throw _ A e).
Proof. intros s; reflexivity. Qed.

Lemma pres_emit {X} (f : RecyclerListView -> X) (ev : Event) : preserves f (emit ev).
Proof. intros s; reflexivity. Qed.

Lemma pres_this {X} (f : RecyclerListView -> X) : preserves f this.
Proof. intros s; reflexivity. Qed.

Lemma pres_modify {X} (f : RecyclerListView -> X)
    (g : RecyclerListView -> RecyclerListView) :
  (forall s, f (g s) = f s) -> preserves f (modify g).
Proof. intros Hg s; apply Hg. Qed.

Lemma pres_bind {X A B} (f : RecyclerListView -> X) (m : M A) (k : A -> M B) :
  preserves f m -> (forall a, preserves f (k a)) -> preserves f (bind m k).
Proof.
  intros Hm Hk s. rewrite bind_run. destruct (result (m s)) as [e|a]; cbn.
  - apply Hm.
  - rewrite Hk. apply Hm.
Qed.

Lemma pres_handleCallbacks {X} (f : RecyclerListView -> X) (cbs : list Callback) :
  (forall s s', sameButStackAndPending s s' -> f s' = f s) ->
  preserves f (handleCallbacks cbs).
Proof. intros Hf s. apply Hf, handleCallbacks_frame. Qed.

Ltac pres_frame :=
  let H := fresh in
  intros ? ? H; unfold sameButStackAndPending in H;
  repeat match goal with H : _ /\ _ |- _ => destruct H end;
  cbn; congruence.

Ltac pres :=
  repeat first
    [ apply pres_handleCallbacks; pres_frame
    | apply pres_ret | apply pres_throw | apply pres_emit | apply pres_this
    | apply pres_modify; intros ?; reflexivity
    | apply pres_bind; [| intros ?]
    | match goal with
      | |- preserves _ (if ?b then _ else _) => destruct b
      | |- preserves _ (match ?x with _ => _ end) => destruct x
      end ].

Lemma pres_refreshViewability_params : preserves _params _refreshViewability.
Proof. unfold _refreshViewability, _queueStateRefresh, onRendererCb. pres. Qed.

(** *** What [_checkAndChangeLayouts] does with the new props *)

Lemma onRendererCb_frame
    (f : VirtualRenderer -> VirtualRenderer * list Callback) (s : RecyclerListView) :
  Forall callbackEvent (trace (onRendererCb f s)) /\
  sameButStackAndPending (set_virtualRenderer (fst (f (_virtualRenderer s))) s)
                         (final (onRendererCb f s)).
Proof. rewrite onRendererCb_run. apply handleCallbacks_frame. Qed.

Lemma refreshRequests_app (a b : list Event) :
  refreshRequests (a ++ b) = (refreshRequests a + refreshRequests b)%nat.
Proof. unfold refreshRequests. rewrite filter_app, length_app. reflexivity. Qed.

Lemma refreshRequests_callbackEvents (tr : list Event) :
  Forall callbackEvent tr -> refreshRequests tr = 0%nat.
Proof.
  induction 1 as [|ev tr Hev _ IH]; [reflexivity|].
  destruct ev; try contradiction; exact IH.
Qed.

(** After the parameters are stored, what is left of
    [_checkAndChangeLayouts] is the choice between a new layout manager, a
    re-layout for new data and a flush of the cursor. *)
Lemma checkAndChangeLayouts_run (s : RecyclerListView)
    (newProps : RecyclerListViewProps) (force : bool) (dp : DataProvider) :
  dataProvider newProps = Some dp ->
  _checkAndChangeLayouts newProps force s =
    let s' := prepared s newProps dp in
    (if force || layoutChanged s newProps then
       installLayoutManager (layoutProvider newProps) (isHorizontal newProps) None ;;;
       onRendererCb refreshWithAnchor
     else if negb (bool_decide (dataProvider (props s) = Some dp)) then
       if hasLayoutManager (_virtualRenderer s') then
         callReLayoutFromIndex (getFirstIndexToProcessInternal dp) (getSize dp) ;;;
         onRendererCb refresh
       else ret tt
     else if 0 <=? _relayoutReqIndex s then
       if hasLayoutManager (_virtualRenderer s') then
         callReLayoutFromIndex (_relayoutReqIndex s) (getSize dp) ;;;
         modify (set_relayoutReqIndex (-1)) ;;;
         _refreshViewability
       else ret tt
     else ret tt) s'.
Proof.
  intros Hdp. cbn zeta. unfold _checkAndChangeLayouts, onRenderer.
  rewrite bind_this, bind_modify, Hdp. cbn [deref].
  rewrite bind_ret, bind_this, bind_modify, bind_this, bind_modify.
  cbn [props set_params _relayoutReqIndex _params _layout].
  change (set_virtualRenderer _ (set_params _ (set_params _ s)))
    with (prepared s newProps dp).
  unfold layoutChanged. rewrite orb_assoc.
  destruct (force || _ || _); [reflexivity|].
  destruct (negb (bool_decide _)); [rewrite bind_this; reflexivity|].
  destruct (0 <=? _relayoutReqIndex s); [rewrite bind_this; reflexivity | reflexivity].
Qed.

(** *** Calls a method never makes *)

Lemma eo_ret {A} (P : Event -> Prop) (a : A) : emitsOnly P (ret a).
Proof. intros s; constructor. Qed.

Lemma eo_throw {A} (P : Event -> Prop) (e : Exn) : emitsOnly P (@throw _ A e).
Proof. intros s; constructor. Qed.

Lemma eo_emit (P : Event -> Prop) (ev : Event) : P ev -> emitsOnly P (emit ev).
Proof. intros H s; repeat constructor; exact H. Qed.

Lemma eo_this (P : Event -> Prop) : emitsOnly P this.
Proof. intros s; constructor. Qed.

Lemma eo_modify (P : Event -> Prop) (g : RecyclerListView -> RecyclerListView) :
  emitsOnly P (modify g).
Proof. intros s; constructor. Qed.

Lemma eo_bind {A B} (P : Event -> Prop) (m : M A) (k : A -> M B) :
  emitsOnly P m -> (forall a, emitsOnly P (k a)) -> emitsOnly P (bind m k).
Proof.
  intros Hm Hk s. rewrite bind_run. destruct (result (m s)) as [e|a]; cbn.
  - apply Hm.
  - apply Forall_app; split; [apply Hm | apply Hk].
Qed.

Lemma eo_handleCallbacks (P : Event -> Prop) (cbs : list Callback) :
  (forall ev, callbackEvent ev -> P ev) -> emitsOnly P (handleCallbacks cbs).
Proof.
  intros HP s. destruct (handleCallbacks_frame cbs s) as [Ht _].
  eapply Forall_impl; [exact Ht | exact HP].
Qed.

Ltac eo_event := cbn; first [exact I | reflexivity | discriminate].

Ltac eo_callback :=
  let ev := fresh in
  intros ev; destruct ev; cbn; intros ?; first [contradiction | eo_event].

Ltac eo :=
  repeat first
    [ apply eo_handleCallbacks; eo_callback
    | apply eo_ret | apply eo_throw | apply eo_this | apply eo_modify
    | apply eo_emit; eo_event
    | apply eo_bind; [| intros ?]
    | match goal with
      | |- emitsOnly _ (if ?b then _ else _) => destruct b
      | |- emitsOnly _ (match ?x with _ => _ end) => destruct x
      end ].

Lemma omap_none {A B} (g : A -> option B) (l : list A) :
  Forall (fun a => g a = None) l -> omap g l = [].
Proof. induction 1 as [|a l Ha _ IH]; cbn; [reflexivity | rewrite Ha; exact IH]. Qed.

Lemma filter_none {A} (g : A -> bool) (l : list A) :
  Forall (fun a => g a = false) l -> filter (fun a => g a = true) l = [].
Proof.
  induction 1 as [|a l Ha _ IH]; [reflexivity|].
  rewrite filter_cons, Ha. destruct (decide (false = true)); [discriminate | exact IH].
Qed.

(** X4: [_checkAndChangeLayouts] takes from the new props the orientation and
    the item count only: the stored parameters keep their initial offset,
    initial render index and render-ahead distance, whatever the new props
    say, and the method neither installs the new props nor touches the
    viewport size. *)
Theorem checkAndChangeLayouts_params (s : RecyclerListView)
    (newProps : RecyclerListViewProps) (force : bool) (dp : DataProvider) :
  dataProvider newProps = Some dp ->
  let o := _checkAndChangeLayouts newProps force s in
  _params (final o) = paramsFor s newProps dp /\
  p_renderAheadOffset (_params (final o)) = p_renderAheadOffset (_params s) /\
  props (final o) = props s /\
  _layout (final o) = _layout s.
Proof.
  intros Hdp. cbv zeta. rewrite (checkAndChangeLayouts_run s newProps force dp Hdp).
  cbv zeta.
  match goal with |- context [final (?m (prepared s newProps dp))] =>
    assert (H : preserves (fun st => (_params st, props st, _layout st)) m)
  end.
  { unfold installLayoutManager, callReLayoutFromIndex, _refreshViewability,
      _queueStateRefresh, onRendererCb, onRenderer. pres. }
  specialize (H (prepared s newProps dp)). cbv beta in H.
  apply pair_equal_spec in H as [H Hl]. apply pair_equal_spec in H as [Hp Hprops].
  rewrite Hp, Hprops, Hl. repeat split.
Qed.

Lemma relayouts_none (tr : list Event) :
  Forall (fun ev => match ev with ReLayoutFromIndex _ _ => False | _ => True end) tr ->
  relayouts tr = [].
Proof.
  intros H. apply omap_none. eapply Forall_impl; [exact H|].
  intros ev; destruct ev; cbn; intros; first [reflexivity | contradiction].
Qed.

Lemma newLayoutManagers_none (tr : list Event) :
  Forall (fun ev => match ev with NewLayoutManager _ => False | _ => True end) tr ->
  newLayoutManagers tr = [].
Proof.
  intros H. apply omap_none. eapply Forall_impl; [exact H|].
  intros ev; destruct ev; cbn; intros; first [reflexivity | contradiction].
Qed.

Lemma refreshRequests_none (tr : list Event) :
  Forall (fun ev => isRefreshRequest ev = false) tr -> refreshRequests tr = 0%nat.
Proof. intros H. unfold refreshRequests. rewrite filter_none by exact H. reflexivity. Qed.

Lemma callReLayoutFromIndex_run (index itemCount : Z) (s : RecyclerListView) :
  callReLayoutFromIndex index itemCount s =
    mkOutcome (set_virtualRenderer
                 (reLayoutFromIndex (_virtualRenderer s) index itemCount) s)
              [ReLayoutFromIndex index itemCount] (inr tt).
Proof. reflexivity. Qed.

Lemma installLayoutManager_run (lp : option LayoutProvider) (horizontal : bool)
    (cached : option (list Rect)) (s : RecyclerListView) :
  installLayoutManager lp horizontal cached s =
    mkOutcome (set_virtualRenderer
                 (setLayoutManager (_virtualRenderer s) lp (_layout s) horizontal cached)
                 s)
              [NewLayoutManager cached] (inr tt).
Proof. reflexivity. Qed.

(** X5: when only the data provider changed and a layout manager is in
    place, [_checkAndChangeLayouts] re-lays out once, from the new
    provider's first index to process and for its size; it creates no layout
    manager, queues no state refresh and leaves the pending re-layout cursor
    as it was. *)
Theorem data_change_relayouts_from_first_dirty `{!CollaboratorLaws C}
    (s : RecyclerListView) (newProps : RecyclerListViewProps) (dp : DataProvider) :
  dataProvider newProps = Some dp ->
  dataProvider (props s) <> Some dp ->
  layoutProvider newProps = layoutProvider (props s) ->
  isHorizontal newProps = isHorizontal (props s) ->
  hasLayoutManager (_virtualRenderer s) = true ->
  let o := _checkAndChangeLayouts newProps false s in
  relayouts (trace o) = [(getFirstIndexToProcessInternal dp, getSize dp)] /\
  newLayoutManagers (trace o) = [] /\
  refreshRequests (trace o) = 0%nat /\
  _relayoutReqIndex (final o) = _relayoutReqIndex s.
Proof.
  intros Hdp Hold Hlp Hh Hlm. cbv zeta.
  rewrite (checkAndChangeLayouts_run s newProps false dp Hdp). cbv zeta.
  unfold layoutChanged. rewrite Hlp, Hh, bool_decide_eq_true_2 by reflexivity.
  rewrite Bool.eqb_reflx. cbn [negb orb].
  rewrite bool_decide_eq_false_2 by exact Hold. cbn [negb].
  replace (hasLayoutManager (_virtualRenderer (prepared s newProps dp))) with true
    by (symmetry; apply setParamsAndDimensions_keeps_manager, Hlm).
  rewrite bind_run, callReLayoutFromIndex_run. cbn [result final trace].
  match goal with |- context [onRendererCb refresh ?st] =>
    destruct (onRendererCb_frame refresh st) as [Ht (_ & _ & _ & _ & Hcur & _)]
  end.
  cbn [_relayoutReqIndex set_virtualRenderer prepared set_params] in Hcur.
  rewrite !relayouts_app, !newLayoutManagers_app, !refreshRequests_app,
    (relayouts_callbackEvents _ Ht), (newLayoutManagers_callbackEvents _ Ht),
    (refreshRequests_callbackEvents _ Ht).
  repeat split; try reflexivity. exact Hcur.
Qed.

(** X6: a forced change, another layout provider or another orientation
    takes precedence over everything else in [_checkAndChangeLayouts]: one
    layout manager is created, with no cached layouts, nothing is re-laid
    out even if the data changed or a re-layout is pending, and the pending
    cursor is neither flushed nor reset. *)
Theorem layout_change_recreates (s : RecyclerListView)
    (newProps : RecyclerListViewProps) (force : bool) (dp : DataProvider) :
  dataProvider newProps = Some dp ->
  force = true \/ layoutProvider newProps <> layoutProvider (props s)
  \/ isHorizontal newProps <> isHorizontal (props s) ->
  let o := _checkAndChangeLayouts newProps force s in
  newLayoutManagers (trace o) = [None] /\
  relayouts (trace o) = [] /\
  refreshRequests (trace o) = 0%nat /\
  _relayoutReqIndex (final o) = _relayoutReqIndex s.
Proof.
  intros Hdp Hwhy. cbv zeta.
  rewrite (checkAndChangeLayouts_run s newProps force dp Hdp). cbv zeta.
  assert (Hb : force || layoutChanged s newProps = true).
  { unfold layoutChanged. destruct Hwhy as [-> | [Hlp | Hh]]; [reflexivity | |].
    - rewrite bool_decide_eq_false_2 by congruence. apply orb_true_r.
    - destruct (isHorizontal (props s)), (isHorizontal newProps);
        try (exfalso; apply Hh; reflexivity); cbn; rewrite !orb_true_r; reflexivity. }
  rewrite Hb, bind_run, installLayoutManager_run. cbn [result final trace].
  match goal with |- context [onRendererCb refreshWithAnchor ?st] =>
    destruct (onRendererCb_frame refreshWithAnchor st)
      as [Ht (_ & _ & _ & _ & Hcur & _)]
  end.
  cbn [_relayoutReqIndex set_virtualRenderer prepared set_params] in Hcur.
  rewrite !relayouts_app, !newLayoutManagers_app, !refreshRequests_app,
    (relayouts_callbackEvents _ Ht), (newLayoutManagers_callbackEvents _ Ht),
    (refreshRequests_callbackEvents _ Ht).
  repeat split; try reflexivity. exact Hcur.
Qed.

(** *** After an update *)

Lemma processOnEndReached_frame (s : RecyclerListView) :
  let o := _processOnEndReached s in
  result o = inr tt /\
  final o = set_onEndReachedCalled (_onEndReachedCalled (final o)) s /\
  (trace o = [] \/ trace o = [OnEndReached]).
Proof.
  cbv zeta. rewrite processOnEndReached_step.
  destruct s; cbn.
  repeat match goal with |- context [if ?b then _ else _] => destruct b; cbn end;
    auto.
Qed.

(** With the props it already has, [_checkAndChangeLayouts] can only flush
    the cursor: it re-lays out, asks for a refresh and runs the renderer's
    callbacks, and does nothing at all when no cursor is set. *)
Lemma checkAndChangeLayouts_same_props (s : RecyclerListView) :
  let o := _checkAndChangeLayouts (props s) false s in
  Forall (fun ev => match ev with
                    | ReLayoutFromIndex _ _ | RefreshRequest | SetState
                    | OnVisibleIndexesChanged _ _ _ => True
                    | _ => False
                    end) (trace o) /\
  (_relayoutReqIndex s < 0 -> trace o = []).
Proof.
  cbv zeta. destruct (dataProvider (props s)) as [dp|] eqn:Hdp.
  - rewrite (checkAndChangeLayouts_run s (props s) false dp Hdp). cbv zeta.
    unfold layoutChanged. rewrite bool_decide_eq_true_2 by reflexivity.
    rewrite (bool_decide_eq_true_2 _ Hdp), Bool.eqb_reflx. cbn [negb orb].
    destruct (Z.leb_spec 0 (_relayoutReqIndex s)) as [Hc|Hc].
    + split; [|lia].
      match goal with |- Forall ?P (trace (?m ?st)) =>
        assert (H : emitsOnly P m); [| exact (H st)]
      end.
      unfold callReLayoutFromIndex, _refreshViewability, _queueStateRefresh,
        onRendererCb, onRenderer. eo.
    + split; [constructor | reflexivity].
  - unfold _checkAndChangeLayouts. rewrite bind_this, bind_modify, Hdp. cbn.
    split; [constructor | reflexivity].
Qed.

Lemma bind_outcome {A B} (m : M A) (k : A -> M B) (s s1 : RecyclerListView)
    (t1 : list Event) (a : A) :
  m s = mkOutcome s1 t1 (inr a) ->
  bind m k s = mkOutcome (final (k a s1)) (t1 ++ trace (k a s1)) (result (k a s1)).
Proof. intros H. rewrite bind_run, H. reflexivity. Qed.

Lemma componentDidUpdate_run (s : RecyclerListView) :
  let s1 := match _pendingScrollToOffset s with
            | Some _ => set_pendingScrollToOffset None s
            | None => s
            end in
  let deferred := match _pendingScrollToOffset s with
                  | Some offset =>
                      [if isHorizontal (props s)
                       then DeferredScrollTo (pt_x offset) 0
                       else DeferredScrollTo 0 (pt_y offset)]
                  | None => []
                  end in
  let reached := _processOnEndReached s1 in
  let check := _checkAndChangeLayouts (props (final reached)) false (final reached) in
  props (final reached) = props s /\
  _relayoutReqIndex (final reached) = _relayoutReqIndex s /\
  componentDidUpdate s =
    mkOutcome (final check) (deferred ++ trace reached ++ trace check) (result check).
Proof.
  cbv zeta.
  set (s1 := match _pendingScrollToOffset s with
             | Some _ => set_pendingScrollToOffset None s
             | None => s
             end).
  set (deferred := match _pendingScrollToOffset s with
                   | Some offset =>
                       [if isHorizontal (props s)
                        then DeferredScrollTo (pt_x offset) 0
                        else DeferredScrollTo 0 (pt_y offset)]
                   | None => []
                   end).
  destruct (processOnEndReached_frame s1) as (Hr & Hf & _). cbv zeta in Hr, Hf.
  assert (Hp : props (final (_processOnEndReached s1)) = props s).
  { rewrite Hf. subst s1. destruct (_pendingScrollToOffset s); reflexivity. }
  assert (Hc : _relayoutReqIndex (final (_processOnEndReached s1)) = _relayoutReqIndex s).
  { rewrite Hf. subst s1. destruct (_pendingScrollToOffset s); reflexivity. }
  split; [exact Hp|]. split; [exact Hc|].
  unfold componentDidUpdate. rewrite bind_this.
  rewrite (bind_outcome _ _ s s1 deferred tt).
  - rewrite bind_run, Hr. cbn [result final trace]. rewrite bind_this.
    reflexivity.
  - subst s1 deferred. destruct (_pendingScrollToOffset s) as [offset|];
      [|reflexivity].
    rewrite bind_modify. destruct (isHorizontal (props s)); reflexivity.
Qed.

(** X7: [componentDidUpdate] hands a pending scroll offset to a timer, once
    and with the coordinate across the scroll axis set to 0, and never scrolls
    synchronously; it never creates a layout manager; and when no re-layout
    is pending it re-lays out nothing and asks for no further state
    refresh. *)
Theorem componentDidUpdate_settles (s : RecyclerListView) :
  let o := componentDidUpdate s in
  deferredScrolls (trace o)
    = match _pendingScrollToOffset s with
      | Some offset =>
          [if isHorizontal (props s) then (pt_x offset, 0) else (0, pt_y offset)]
      | None => []
      end /\
  scrollCalls (trace o) = [] /\
  newLayoutManagers (trace o) = [] /\
  (_relayoutReqIndex s < 0 ->
   relayouts (trace o) = [] /\ refreshRequests (trace o) = 0%nat).
Proof.
  cbv zeta. destruct (componentDidUpdate_run s) as (Hp & Hc & ->).
  cbn [trace].
  set (s1 := match _pendingScrollToOffset s with
             | Some _ => set_pendingScrollToOffset None s
             | None => s
             end) in *.
  destruct (processOnEndReached_frame s1) as (_ & _ & Hreached).
  destruct (checkAndChangeLayouts_same_props (final (_processOnEndReached s1)))
    as [Hcheck Hquiet].
  cbv zeta in Hreached, Hcheck, Hquiet. rewrite Hc in Hquiet.
  set (check := trace (_checkAndChangeLayouts _ false _)) in *.
  assert (Hd : deferredScrolls check = [] /\ scrollCalls check = [] /\
               newLayoutManagers check = []).
  { repeat split; apply omap_none; (eapply Forall_impl; [exact Hcheck|]);
      intros ev; destruct ev; cbn; intros; first [reflexivity | contradiction]. }
  destruct Hd as (Hd1 & Hd2 & Hd3).
  unfold deferredScrolls, scrollCalls, newLayoutManagers, relayouts, refreshRequests
    in *.
  rewrite !omap_app, !filter_app, !length_app, Hd1, Hd2, Hd3.
  repeat split.
  - destruct Hreached as [-> | ->], (_pendingScrollToOffset s) as [offset|];
      try destruct (isHorizontal (props s)); reflexivity.
  - destruct Hreached as [-> | ->], (_pendingScrollToOffset s) as [offset|];
      try destruct (isHorizontal (props s)); reflexivity.
  - destruct Hreached as [-> | ->], (_pendingScrollToOffset s) as [offset|];
      try destruct (isHorizontal (props s)); reflexivity.
  - rewrite (Hquiet H).
    destruct Hreached as [-> | ->], (_pendingScrollToOffset s) as [offset|];
      try destruct (isHorizontal (props s)); reflexivity.
  - rewrite (Hquiet H).
    destruct Hreached as [-> | ->], (_pendingScrollToOffset s) as [offset|];
      try destruct (isHorizontal (props s)); reflexivity.
Qed.

(** *** New props *)

Lemma checkAndChangeLayouts_keeps_props (newProps : RecyclerListViewProps)
    (force : bool) :
  preserves props (_checkAndChangeLayouts newProps force).
Proof.
  unfold _checkAndChangeLayouts, deref, installLayoutManager, callReLayoutFromIndex,
    _refreshViewability, _queueStateRefresh, onRendererCb, onRenderer. pres.
Qed.

(** X8: [componentWillReceiveProps] refuses new props that lack the data or
    the layout provider before it has changed or called anything; and when
    it returns, the visibility listener has been attached or removed
    according to the props the component still has, not the new ones, which
    the method does not install. *)
Theorem componentWillReceiveProps_reads_old_props (s : RecyclerListView)
    (newProps : RecyclerListViewProps) :
  let o := componentWillReceiveProps newProps s in
  (dataProvider newProps = None \/ layoutProvider newProps = None ->
   o = mkOutcome s [] (inl UnresolvedDependenciesException)) /\
  (result o = inr tt ->
   props (final o) = props s /\
   _virtualRenderer (final o)
     = (if onVisibleIndexesChanged (props s)
        then attachVisibleItemsListener else removeVisibleItemsListener)
         (_virtualRenderer (final (_checkAndChangeLayouts newProps false s)))).
Proof.
  cbv zeta. unfold componentWillReceiveProps, _assertDependencyPresence. split.
  - intros [H | H]; rewrite H; [reflexivity|].
    destruct (dataProvider newProps); reflexivity.
  - destruct (dataProvider newProps) as [dp|]; [|discriminate].
    destruct (layoutProvider newProps) as [lp|]; [|discriminate].
    rewrite bind_ret, bind_run.
    pose proof (checkAndChangeLayouts_keeps_props newProps false s) as Hp.
    destruct (result (_checkAndChangeLayouts newProps false s)) as [e|[]];
      cbn [result final trace]; [discriminate|].
    rewrite bind_this, Hp. intros _.
    destruct (onVisibleIndexesChanged (props s)); cbn; auto.
Qed.

(** *** The scroll methods *)

Lemma scrollToOffset_once (x y : Z) (animate : bool) (s : RecyclerListView) :
  scrollsAtMostOnce (scrollToOffset x y animate) s.
Proof.
  unfold scrollsAtMostOnce, scrollToOffset. rewrite bind_this.
  destruct (_scrollComponent s); cbn; repeat split; auto; discriminate.
Qed.

Lemma scrollToIndex_once (index : Z) (animate : bool) (s : RecyclerListView) :
  scrollsAtMostOnce (scrollToIndex index animate) s.
Proof.
  unfold scrollToIndex. unfold scrollsAtMostOnce. rewrite bind_this.
  destruct (hasLayoutManager (_virtualRenderer s)).
  - destruct (getOffsetForIndex (_virtualRenderer s) index) as [e|offsets].
    + cbn. repeat split; auto.
    + apply scrollToOffset_once.
  - cbn. repeat split; auto.
Qed.

Lemma scrollToItem_from_none (same : Data -> Data -> bool) (dp : DataProvider)
    (data : Data) (animate : bool) (remaining : nat) :
  forall (i : Z) (s : RecyclerListView),
  (forall j, i <= j < i + Z.of_nat remaining ->
             same (getDataForIndex dp j) data = false) ->
  scrollToItem_from same dp data animate i remaining s = mkOutcome s [] (inr tt).
Proof.
  induction remaining as [|n IH]; intros i s Hnone; [reflexivity|].
  cbn [scrollToItem_from]. rewrite (Hnone i) by lia.
  apply IH. intros j Hj. apply Hnone. lia.
Qed.

Lemma scrollToItem_from_first (same : Data -> Data -> bool) (dp : DataProvider)
    (data : Data) (animate : bool) (remaining : nat) :
  forall (i k : Z) (s : RecyclerListView),
  i <= k < i + Z.of_nat remaining ->
  same (getDataForIndex dp k) data = true ->
  (forall j, i <= j < k -> same (getDataForIndex dp j) data = false) ->
  scrollToItem_from same dp data animate i remaining s = scrollToIndex k animate s.
Proof.
  induction remaining as [|n IH]; intros i k s Hk Hsame Hbefore; [lia|].
  cbn [scrollToItem_from].
  destruct (Z.eq_dec i k) as [->|Hne].
  - rewrite Hsame. reflexivity.
  - rewrite (Hbefore i) by lia. apply IH; [lia | exact Hsame |].
    intros j Hj. apply Hbefore. lia.
Qed.

Lemma scrollToItem_from_once (same : Data -> Data -> bool) (dp : DataProvider)
    (data : Data) (animate : bool) (remaining : nat) :
  forall (i : Z) (s : RecyclerListView),
  scrollsAtMostOnce (scrollToItem_from same dp data animate i remaining) s.
Proof.
  induction remaining as [|n IH]; intros i s; cbn [scrollToItem_from].
  - cbn. repeat split; auto.
  - destruct (same _ _); [apply scrollToIndex_once | apply IH].
Qed.

(** X9: [scrollToItem] scrolls to the first row whose data is the given
    data, exactly as [scrollToIndex] does for that row's index, also when
    later rows hold the same data; and when no row does, it returns having
    changed and called nothing. *)
Theorem scrollToItem_first_match (same : Data -> Data -> bool)
    (s : RecyclerListView) (dp : DataProvider) (data : Data) (animate : bool) :
  dataProvider (props s) = Some dp ->
  (forall k, 0 <= k < getSize dp ->
             same (getDataForIndex dp k) data = true ->
             (forall j, 0 <= j < k -> same (getDataForIndex dp j) data = false) ->
             scrollToItem same data animate s = scrollToIndex k animate s) /\
  ((forall j, 0 <= j < getSize dp -> same (getDataForIndex dp j) data = false) ->
   scrollToItem same data animate s = mkOutcome s [] (inr tt)).
Proof.
  intros Hdp. unfold scrollToItem. rewrite bind_this, Hdp. cbn [deref].
  rewrite bind_ret. cbv zeta. split.
  - intros k Hk Hsame Hbefore. apply scrollToItem_from_first; [lia | exact Hsame |].
    intros j Hj. apply Hbefore. lia.
  - intros Hnone. apply scrollToItem_from_none. intros j Hj. apply Hnone. lia.
Qed.

(** X10: the five scroll methods ([scrollToOffset], [scrollToTop],
    [scrollToIndex], [scrollToEnd], [scrollToItem]) write no field of the
    component, call [scrollTo] on the scroll component at most once, and not
    at all while no scroll component is attached, however they end. *)
Theorem scroll_methods_write_nothing (same : Data -> Data -> bool)
    (x y index : Z) (data : Data) (animate : bool) (s : RecyclerListView) :
  Forall (fun m => scrollsAtMostOnce m s)
         [scrollToOffset x y animate; scrollToTop animate;
          scrollToIndex index animate; scrollToEnd animate;
          scrollToItem same data animate].
Proof.
  repeat apply List.Forall_cons; [| | | | | apply List.Forall_nil].
  - apply scrollToOffset_once.
  - apply scrollToOffset_once.
  - apply scrollToIndex_once.
  - unfold scrollsAtMostOnce, scrollToEnd. rewrite bind_this.
    destruct (dataProvider (props s)) as [dp|]; cbn [deref].
    + rewrite bind_ret. apply scrollToIndex_once.
    + cbn. repeat split; auto.
  - unfold scrollsAtMostOnce, scrollToItem. rewrite bind_this.
    destruct (dataProvider (props s)) as [dp|]; cbn [deref].
    + rewrite bind_ret. apply scrollToItem_from_once.
    + cbn. repeat split; auto.
Qed.

(** *** Scroll events *)

Lemma onScrollCalls_callbackEvents (tr : list Event) :
  Forall callbackEvent tr -> onScrollCalls tr = [].
Proof.
  intros H. apply omap_none. eapply Forall_impl; [exact H|].
  intros ev; destruct ev; cbn; intros; first [reflexivity | contradiction].
Qed.

(** X11: an [_onScroll] that returns has handed both offsets to the
    renderer and has called the [onScroll] prop, when there is one, exactly
    once, with the raw event and the two offsets as it received them, after
    the renderer's callbacks have run and before [onEndReached]. *)
Theorem onScroll_forwards (s : RecyclerListView) (offsetX offsetY : Z)
    (rawEvent : ScrollEvent) :
  let o := _onScroll offsetX offsetY rawEvent s in
  let call := if onScroll (props s) then [OnScroll rawEvent offsetX offsetY]
              else [] in
  result o = inr tt ->
  _virtualRenderer (final o) = fst (updateOffset (_virtualRenderer s) offsetX offsetY) /\
  onScrollCalls (trace o)
    = (if onScroll (props s) then [(rawEvent, offsetX, offsetY)] else []) /\
  exists before after,
    trace o = before ++ call ++ after /\
    Forall callbackEvent before /\
    (after = [] \/ after = [OnEndReached]).
Proof.
  cbv zeta. unfold _onScroll. rewrite bind_run.
  destruct (onRendererCb_frame (fun v => updateOffset v offsetX offsetY) s)
    as [Ht (Hp & _ & Hv & _)].
  cbn [props _virtualRenderer set_virtualRenderer] in Hp, Hv.
  set (o1 := onRendererCb _ s) in *.
  destruct (result o1) as [e|[]]; cbn [result final trace]; [discriminate|].
  rewrite bind_this, Hp. intros _.
  set (call := if onScroll (props s) then [OnScroll rawEvent offsetX offsetY] else []).
  assert (Hcall : forall k : unit -> M unit,
            bind (if onScroll (props s) then emit (OnScroll rawEvent offsetX offsetY)
                  else ret tt) k (final o1)
            = mkOutcome (final (k tt (final o1))) (call ++ trace (k tt (final o1)))
                        (result (k tt (final o1)))).
  { intros k. apply bind_outcome. subst call. destruct (onScroll (props s)); reflexivity. }
  rewrite Hcall. cbn [result final trace].
  destruct (processOnEndReached_frame (final o1)) as (_ & Hf & Hafter).
  cbv zeta in Hf, Hafter.
  split; [rewrite Hf; exact Hv|]. split.
  - unfold onScrollCalls in *. rewrite !omap_app.
    fold (onScrollCalls (trace o1)). rewrite (onScrollCalls_callbackEvents _ Ht).
    subst call. destruct Hafter as [-> | ->], (onScroll (props s)); reflexivity.
  - exists (trace o1), (trace (_processOnEndReached (final o1))).
    split; [reflexivity|]. split; [exact Ht | exact Hafter].
Qed.

Lemma handleCallbacks_unobserved (cbs : list Callback) :
  forall s : RecyclerListView,
  onVisibleIndexesChanged (props s) = false ->
  visibilityCallbacks cbs <> [] ->
  result (handleCallbacks cbs s) = inl TypeError /\
  Forall (fun ev => match ev with SetState => True | _ => False end)
         (trace (handleCallbacks cbs s)).
Proof.
  induction cbs as [|cb cbs IH]; intros s Hp Hcbs; [contradiction|].
  cbn [handleCallbacks]. rewrite bind_run.
  destruct cb as [stack|offset|all now notNow].
  - destruct (IH (set_renderStack stack s) Hp Hcbs) as [Hr Ht].
    cbn. split; [exact Hr | constructor; [exact I | exact Ht]].
  - destruct (IH (set_pendingScrollToOffset (Some offset) s) Hp Hcbs) as [Hr Ht].
    cbn. split; [exact Hr | exact Ht].
  - cbn [handleCallback]. unfold _onVisibleItemsChanged. rewrite bind_this, Hp. cbn.
    split; [reflexivity | constructor].
Qed.

(** X12: the observer prop is called unguarded.  When the renderer reports
    a visibility change while [onVisibleIndexesChanged] is absent from the
    props, [_onScroll] ends with a [TypeError]; no observer, [onScroll] or
    [onEndReached] call is made. *)
Theorem observer_without_prop_fails (s : RecyclerListView) (offsetX offsetY : Z)
    (rawEvent : ScrollEvent) :
  onVisibleIndexesChanged (props s) = false ->
  visibilityCallbacks (snd (updateOffset (_virtualRenderer s) offsetX offsetY)) <> [] ->
  let o := _onScroll offsetX offsetY rawEvent s in
  result o = inl TypeError /\
  visibilityCalls (trace o) = [] /\
  onScrollCalls (trace o) = [] /\
  endReachedCalls (trace o) = 0%nat.
Proof.
  intros Hp Hcbs. cbv zeta. unfold _onScroll. rewrite bind_run, onRendererCb_run.
  match goal with |- context [handleCallbacks ?cbs ?st] =>
    destruct (handleCallbacks_unobserved cbs st Hp Hcbs) as [Hr Ht]
  end.
  rewrite Hr. cbn [result final trace]. split; [reflexivity|].
  repeat split.
  - apply omap_none. eapply Forall_impl; [exact Ht|].
    intros ev; destruct ev; cbn; intros; first [reflexivity | contradiction].
  - apply omap_none. eapply Forall_impl; [exact Ht|].
    intros ev; destruct ev; cbn; intros; first [reflexivity | contradiction].
  - unfold endReachedCalls. rewrite filter_none; [reflexivity|].
    eapply Forall_impl; [exact Ht|].
    intros ev; destruct ev; cbn; intros; first [reflexivity | contradiction].
Qed.

(** *** Rendering *)

Lemma sameButScratch_unrendered (s s' : RecyclerListView) :
  sameButScratch s s' <-> unrendered s' = unrendered s.
Proof.
  unfold sameButScratch, unrendered. destruct s, s'; cbn. split.
  - intros [= -> -> -> -> -> -> -> -> -> -> ->]. reflexivity.
  - intros [= -> -> -> -> -> -> -> -> -> -> ->]. reflexivity.
Qed.

Lemma unrendered_fields (s s' : RecyclerListView) :
  unrendered s' = unrendered s ->
  props s' = props s /\ renderStack s' = renderStack s /\
  _virtualRenderer s' = _virtualRenderer s /\ _initComplete s' = _initComplete s.
Proof. unfold unrendered. intros [=]. auto. Qed.

Lemma assertType_cases (t : LayoutType) (s : RecyclerListView) :
  (rejectedType t /\ _assertType t s = mkOutcome s [] (inl ItemTypeNullException))
  \/ (~ rejectedType t /\ _assertType t s = mkOutcome s [] (inr tt)).
Proof.
  assert (Hdec : rejectedType t \/ ~ rejectedType t).
  { unfold rejectedType. destruct t as [| |str|n|]; auto.
    - destruct str; auto. right. intros [H|[H|[H|H]]]; discriminate.
    - right. intros [H|[H|[H|H]]]; discriminate. }
  destruct Hdec as [H|H]; [left | right]; split; try exact H.
  - apply assertType_rejects, H.
  - apply assertType_accepts, H.
Qed.

(** Rendering one entry calls nothing and writes the two scratch fields at
    most, and not even those under [forceNonDeterministicRendering]. *)
Lemma renderRow_frame (item : RenderStackItem) (s : RecyclerListView) :
  let o := _renderRowUsingMeta item s in
  trace o = [] /\ unrendered (final o) = unrendered s /\
  (forceNonDeterministicRendering (props s) = true -> final o = s).
Proof.
  cbv zeta. split; [|split].
  - assert (H : emitsOnly (fun _ => False) (_renderRowUsingMeta item)).
    { unfold _renderRowUsingMeta, _checkExpectedDimensionDiscrepancy, _assertType,
        markForRelayout, deref, require. eo. }
    specialize (H s). destruct (trace (_renderRowUsingMeta item s)); [reflexivity|].
    inversion H; contradiction.
  - assert (H : preserves unrendered (_renderRowUsingMeta item)).
    { unfold _renderRowUsingMeta, _checkExpectedDimensionDiscrepancy, _assertType,
        markForRelayout, deref, require. pres. }
    apply H.
  - intros Hflag. unfold _renderRowUsingMeta. rewrite bind_this, Hflag. cbn [negb].
    match goal with |- final (?m s) = s =>
      assert (H : preserves (fun st => st) m); [| exact (H s)]
    end.
    unfold _assertType, deref, require. pres.
Qed.

Lemma renderAll_frame (stack : RenderStack) :
  forall s : RecyclerListView,
  let o := renderAll stack s in
  trace o = [] /\ unrendered (final o) = unrendered s /\
  (forceNonDeterministicRendering (props s) = true -> final o = s).
Proof.
  induction stack as [|[k item] rest IH]; intros s; cbv zeta.
  - cbn. auto.
  - cbn [renderAll]. rewrite bind_run.
    destruct (renderRow_frame item s) as (Ht & Hu & Hf). cbv zeta in Ht, Hu, Hf.
    destruct (result (_renderRowUsingMeta item s)) as [e|row]; cbn [result final trace].
    + auto.
    + rewrite bind_run.
      destruct (IH (final (_renderRowUsingMeta item s))) as (Ht' & Hu' & Hf').
      cbv zeta in Ht', Hu', Hf'. rewrite Ht, Ht'.
      assert (Hflag : forceNonDeterministicRendering
                        (props (final (_renderRowUsingMeta item s)))
                      = forceNonDeterministicRendering (props s)).
      { destruct (unrendered_fields _ _ Hu) as (-> & _). reflexivity. }
      destruct (result (renderAll rest _)) as [e|rows]; cbn [result final trace ret];
        (split; [reflexivity|]); (split; [congruence|]);
        intros H; rewrite Hf', Hf; auto; rewrite Hflag; exact H.
Qed.

(** X13: [render], and with it [_generateRenderStack] and
    [_renderRowUsingMeta], makes none of the calls the trace records: no
    callback prop, no call of the scroll component, of the console, of the
    debouncer or of [setState], and no layout manager is created, told of a
    size or made to re-lay out.  What it calls are the readers of the data
    provider, the layout provider and the layout manager ([getSize],
    [getDataForIndex], [getLayoutTypeForIndex], [setLayoutForType],
    [getLayouts], [setMaxBounds]), which write at most into the dimension
    they are given.  It writes no field but the scratch dimension
    [_tempDim] and the pending re-layout cursor, the renderer included, and
    under [forceNonDeterministicRendering] it writes nothing at all. *)
Theorem rendering_writes_only_scratch (s : RecyclerListView) :
  let o := render s in
  trace o = [] /\
  sameButScratch s (final o) /\
  (forceNonDeterministicRendering (props s) = true -> final o = s).
Proof.
  cbv zeta. unfold render, _generateRenderStack.
  rewrite bind_this, bind_run, bind_this.
  destruct (renderAll_frame (renderStack s) s) as (Ht & Hu & Hf).
  cbv zeta in Ht, Hu, Hf. rewrite sameButScratch_unrendered.
  destruct (result (renderAll (renderStack s) s)) as [e|rows];
    cbn [result final trace ret]; rewrite ?app_nil_r; auto.
Qed.

Lemma bind_throw {A B} (e : Exn) (k : A -> M B) (s : RecyclerListView) :
  bind (throw e) k s = mkOutcome s [] (inl e).
Proof. reflexivity. Qed.

Lemma js_index_None {A} (a : list A) (i : Z) :
  js_index a i = None <-> i < 0 \/ Z.of_nat (length a) <= i.
Proof.
  unfold js_index. destruct (Z.leb_spec 0 i) as [Hi|Hi].
  - rewrite lookup_ge_None. lia.
  - split; [intros _; lia | reflexivity].
Qed.

(** The maximum-bounds check on an entry with a rectangle returns; on an
    entry without one it stops at the rectangle's height, with the declared
    size in [_tempDim] and the cursor untouched. *)
Lemma checkExpectedDimensionDiscrepancy_result (s : RecyclerListView)
    (lp : LayoutProvider) (itemRect : option Rect) (type : LayoutType) (index : Z) :
  hasLayoutManager (_virtualRenderer s) = true ->
  layoutProvider (props s) = Some lp ->
  let o := _checkExpectedDimensionDiscrepancy itemRect type index s in
  result o = match itemRect with Some _ => inr tt | None => inl TypeError end /\
  (itemRect = None -> _relayoutReqIndex (final o) = _relayoutReqIndex s).
Proof.
  intros Hlm Hlp. cbv zeta.
  unfold _checkExpectedDimensionDiscrepancy, markForRelayout,
    bind, this, deref, require, modify.
  cbn. rewrite Hlm. cbn. rewrite Hlp. cbn.
  destruct itemRect as [rect|]; cbn; [|auto].
  split; [|discriminate].
  destruct (_ || _); cbn; [|reflexivity].
  destruct (_relayoutReqIndex s =? -1); reflexivity.
Qed.

(** How rendering an entry with a renderable index ends. *)
Lemma renderRow_result (s : RecyclerListView) (dp : DataProvider)
    (lp : LayoutProvider) (item : RenderStackItem) (i : Z) :
  dataProvider (props s) = Some dp ->
  layoutProvider (props s) = Some lp ->
  renderable (dataIndex item) (getSize dp) = Some i ->
  let o := _renderRowUsingMeta item s in
  let type := getLayoutTypeForIndex lp i in
  let itemRect := js_index (getLayouts (_virtualRenderer s)) i in
  (hasLayoutManager (_virtualRenderer s) = false -> o = mkOutcome s [] (inl TypeError)) /\
  (hasLayoutManager (_virtualRenderer s) = true ->
   (rejectedType type -> o = mkOutcome s [] (inl ItemTypeNullException)) /\
   (~ rejectedType type ->
    result o = match itemRect with
               | Some rect =>
                   inr (Some (mkView (key item) (getDataForIndex dp i)
                                     (rect_x rect) (rect_y rect) type i
                                     (forceNonDeterministicRendering (props s))
                                     (isHorizontal (props s))
                                     (rect_height rect) (rect_width rect)))
               | None => inl TypeError
               end /\
    (itemRect = None -> _relayoutReqIndex (final o) = _relayoutReqIndex s))).
Proof.
  intros Hdp Hlp Hi. cbv zeta. unfold _renderRowUsingMeta.
  rewrite bind_this, Hdp. cbn [deref]. rewrite bind_ret. cbv zeta. rewrite Hi.
  split.
  - intros ->. reflexivity.
  - intros Hlm. rewrite Hlm. cbn [require]. rewrite bind_ret, Hlp. cbn [deref].
    rewrite bind_ret. split.
    + intros Hrej. rewrite bind_run, (assertType_rejects _ _ Hrej). reflexivity.
    + intros Hok. rewrite bind_run, (assertType_accepts _ _ Hok).
      cbn [result final trace]. rewrite bind_run.
      destruct (forceNonDeterministicRendering (props s)); cbn [negb].
      * cbn [ret result final trace].
        destruct (js_index _ i) as [rect|]; cbn; auto.
      * destruct (checkExpectedDimensionDiscrepancy_result s lp
                    (js_index (getLayouts (_virtualRenderer s)) i)
                    (getLayoutTypeForIndex lp i) i Hlm Hlp) as [Hr Hc].
        cbv zeta in Hr, Hc. rewrite Hr.
        destruct (js_index _ i) as [rect|]; cbn; auto.
Qed.

Lemma renderable_cases (item : RenderStackItem) (size : Z) :
  match renderable (dataIndex item) size with
  | Some i => dataIndex item = Some i /\ i <> 0 /\ i < size
  | None => dataIndex item = None \/ dataIndex item = Some 0
            \/ exists i, dataIndex item = Some i /\ size <= i
  end.
Proof.
  unfold renderable. destruct (dataIndex item) as [i|]; [|auto].
  destruct (Z.eqb_spec i 0) as [->|Hnz]; cbn [negb andb]; [auto|].
  destruct (Z.ltb_spec i size); [auto|]. right. right. exists i. auto.
Qed.

Lemma renderRow_row (s : RecyclerListView) (dp : DataProvider)
    (lp : LayoutProvider) (item : RenderStackItem)
    (row : option ViewRendererProps) :
  dataProvider (props s) = Some dp ->
  layoutProvider (props s) = Some lp ->
  result (_renderRowUsingMeta item s) = inr row ->
  rowOf s dp lp item row.
Proof.
  intros Hdp Hlp Hr. unfold rowOf.
  destruct (renderable (dataIndex item) (getSize dp)) as [i|] eqn:Hi.
  - destruct (renderRow_result s dp lp item i Hdp Hlp Hi) as [Hno Hyes].
    cbv zeta in Hno, Hyes.
    destruct (hasLayoutManager (_virtualRenderer s)).
    + destruct (Hyes eq_refl) as [Hrej Hok].
      destruct (assertType_cases (getLayoutTypeForIndex lp i) s) as [[H _]|[H _]].
      * rewrite (Hrej H) in Hr. discriminate.
      * destruct (Hok H) as [Hres _]. rewrite Hres in Hr.
        destruct (js_index _ i) as [rect|]; [|discriminate].
        exists rect. injection Hr as <-. auto.
    + rewrite (Hno eq_refl) in Hr. discriminate.
  - unfold _renderRowUsingMeta in Hr. rewrite bind_this, Hdp in Hr.
    cbn [deref] in Hr. rewrite bind_ret in Hr. cbv zeta in Hr. rewrite Hi in Hr.
    injection Hr as <-. reflexivity.
Qed.

Lemma rowOf_unrendered (s s' : RecyclerListView) (dp : DataProvider)
    (lp : LayoutProvider) (item : RenderStackItem)
    (row : option ViewRendererProps) :
  unrendered s' = unrendered s -> rowOf s' dp lp item row -> rowOf s dp lp item row.
Proof.
  intros Hu. destruct (unrendered_fields _ _ Hu) as (Hp & _ & Hv & _).
  unfold rowOf. rewrite Hp, Hv. auto.
Qed.

Lemma renderAll_rows (dp : DataProvider) (lp : LayoutProvider) (stack : RenderStack) :
  forall (s : RecyclerListView) (rows : list (option ViewRendererProps)),
  dataProvider (props s) = Some dp ->
  layoutProvider (props s) = Some lp ->
  result (renderAll stack s) = inr rows ->
  Forall2 (fun slot row => rowOf s dp lp slot.2 row) stack rows.
Proof.
  induction stack as [|[k item] rest IH]; intros s rows Hdp Hlp Hr.
  - cbn in Hr. injection Hr as <-. constructor.
  - cbn [renderAll] in Hr. rewrite bind_run in Hr.
    destruct (renderRow_frame item s) as (_ & Hu & _). cbv zeta in Hu.
    destruct (unrendered_fields _ _ Hu) as (Hp & _).
    pose proof (renderRow_row s dp lp item) as Hrow.
    destruct (result (_renderRowUsingMeta item s)) as [e|row]; [discriminate|].
    cbn [result final trace] in Hr. rewrite bind_run in Hr.
    set (s1 := final (_renderRowUsingMeta item s)) in *.
    pose proof (IH s1) as IH1.
    destruct (result (renderAll rest s1)) as [e|rows']; [discriminate|].
    cbn in Hr. injection Hr as <-.
    constructor.
    + apply Hrow; auto.
    + eapply Forall2_impl; [apply IH1; try reflexivity; rewrite Hp; assumption|].
      intros slot r. apply rowOf_unrendered. exact Hu.
Qed.

(** X14: a [render] that returns hands the scroll component one child per
    entry of the render stack, in the stack's order: nothing for an entry
    whose index is missing, 0 or not below the data size, and otherwise a row
    with the entry's key and the data and type of its index, placed at the
    rectangle the layout manager has for that index; the content size is the
    layout's, and 0 by 0 before the component is initialised. *)
Theorem render_rows (s : RecyclerListView) (dp : DataProvider)
    (lp : LayoutProvider) (scroll : ScrollComponentProps) :
  dataProvider (props s) = Some dp ->
  layoutProvider (props s) = Some lp ->
  result (render s) = inr scroll ->
  Forall2 (fun slot row => rowOf s dp lp slot.2 row) (renderStack s) (children scroll) /\
  contentHeight scroll
    = (if _initComplete s then height (getLayoutDimension (_virtualRenderer s)) else 0) /\
  contentWidth scroll
    = (if _initComplete s then width (getLayoutDimension (_virtualRenderer s)) else 0).
Proof.
  intros Hdp Hlp. unfold render, _generateRenderStack.
  rewrite bind_this, bind_run, bind_this.
  pose proof (renderAll_rows dp lp (renderStack s) s) as Hrows.
  destruct (result (renderAll (renderStack s) s)) as [e|rows]; [discriminate|].
  cbn. intros [= <-]. cbn. split; [apply Hrows; auto | split; reflexivity].
Qed.

(** X15: an entry whose index is renderable and has an accepted type, but
    for which there is no layout manager, or no rectangle in its layouts
    (a negative index, or one past the last rectangle), makes
    [_renderRowUsingMeta] end with a [TypeError]; the pending re-layout
    cursor is left as it was. *)
Theorem render_missing_rectangle (s : RecyclerListView) (dp : DataProvider)
    (lp : LayoutProvider) (item : RenderStackItem) (i : Z) :
  dataProvider (props s) = Some dp ->
  layoutProvider (props s) = Some lp ->
  dataIndex item = Some i -> i <> 0 -> i < getSize dp ->
  ~ rejectedType (getLayoutTypeForIndex lp i) ->
  hasLayoutManager (_virtualRenderer s) = false
  \/ i < 0 \/ Z.of_nat (length (getLayouts (_virtualRenderer s))) <= i ->
  let o := _renderRowUsingMeta item s in
  result o = inl TypeError /\
  _relayoutReqIndex (final o) = _relayoutReqIndex s.
Proof.
  intros Hdp Hlp Hi Hnz Hlt Hok Hmissing. cbv zeta.
  assert (Hr : renderable (dataIndex item) (getSize dp) = Some i).
  { rewrite Hi. cbn. destruct (Z.eqb_spec i 0); [contradiction|].
    destruct (Z.ltb_spec i (getSize dp)); [reflexivity | lia]. }
  destruct (renderRow_result s dp lp item i Hdp Hlp Hr) as [Hno Hyes].
  cbv zeta in Hno, Hyes.
  destruct (hasLayoutManager (_virtualRenderer s)) eqn:Hlm.
  - destruct Hmissing as [H|H]; [discriminate|].
    apply js_index_None in H.
    destruct (Hyes eq_refl) as [_ Hacc]. destruct (Hacc Hok) as [Hres Hcur].
    rewrite H in Hres. auto.
  - rewrite (Hno eq_refl). auto.
Qed.

(** *** The first viewport *)

Lemma bind_silent {A B} (m : M A) (k : A -> M B) (s s1 : RecyclerListView) (a : A) :
  m s = mkOutcome s1 [] (inr a) -> bind m k s = k a s1.
Proof. intros H. rewrite bind_run, H. cbn. destruct (k a s1); reflexivity. Qed.

(** [_initTrackers] up to the call of [init()], and what is left of it. *)
Lemma initTrackers_run (s : RecyclerListView) (dp : DataProvider)
    (lp : LayoutProvider) :
  dataProvider (props s) = Some dp ->
  layoutProvider (props s) = Some lp ->
  let o := (onRendererCb vr_init ;;;
            modify (fun s => set_params (paramsObject (_virtualRenderer s)) s) ;;;
            s2 <- this ;;
            let offset := getInitialOffset (_virtualRenderer s2) in
            (if (0 <? pt_y offset) || (0 <? pt_x offset) then
               modify (set_pendingScrollToOffset (Some offset)) ;;;
               emit SetState
             else onRendererCb startViewabilityTracker) ;;;
            modify (set_cachedLayouts None)) (readyToInit s dp) in
  _initTrackers s =
    mkOutcome (final o) (NewLayoutManager (_cachedLayouts s) :: trace o) (result o).
Proof.
  intros Hdp Hlp. cbv zeta. unfold _initTrackers, _assertDependencyPresence.
  rewrite bind_this. cbv zeta. rewrite Hdp, Hlp, bind_ret.
  set (s0 := if onVisibleIndexesChanged (props s)
             then set_virtualRenderer
                    (attachVisibleItemsListener (_virtualRenderer s)) s
             else s).
  rewrite (bind_silent _ _ s s0 tt)
    by (subst s0; destruct (onVisibleIndexesChanged (props s)); reflexivity).
  cbn [deref]. rewrite bind_ret, bind_modify, bind_this.
  unfold onRenderer. rewrite bind_modify.
  rewrite bind_run, installLayoutManager_run. cbn [result final trace].
  rewrite bind_modify.
  match goal with |- context [bind (onRendererCb vr_init) _ ?st] =>
    replace st with (readyToInit s dp)
      by (subst s0; unfold readyToInit; cbv zeta; rewrite Hlp;
          destruct (onVisibleIndexesChanged (props s)); reflexivity)
  end.
  subst s0. destruct (onVisibleIndexesChanged (props s)); reflexivity.
Qed.

Lemma onSizeChanged_first_run (s : RecyclerListView) (layout : Dimension) :
  _initComplete s = false ->
  height layout <> 0 -> width layout <> 0 ->
  _onSizeChanged layout s = (_initTrackers ;;; _processOnEndReached) (sized layout s).
Proof.
  intros Hinit Hh Hw. unfold _onSizeChanged. rewrite bind_this, bind_modify.
  destruct (Z.eqb_spec (height layout) 0); [contradiction|].
  destruct (Z.eqb_spec (width layout) 0); [contradiction|]. cbn [orb].
  rewrite Hinit. cbn [negb]. rewrite bind_modify.
  destruct layout. reflexivity.
Qed.

(** What is left of [_initTrackers] once [init()] is reached: the
    renderer's callbacks, the parameters read back, then a pending scroll or
    the start of the viewability tracker, then the cached layouts are
    dropped. *)
Lemma initTrackers_tail (st : RecyclerListView) :
  let tail := (onRendererCb vr_init ;;;
               modify (fun s => set_params (paramsObject (_virtualRenderer s)) s) ;;;
               s2 <- this ;;
               let offset := getInitialOffset (_virtualRenderer s2) in
               (if (0 <? pt_y offset) || (0 <? pt_x offset) then
                  modify (set_pendingScrollToOffset (Some offset)) ;;;
                  emit SetState
                else onRendererCb startViewabilityTracker) ;;;
               modify (set_cachedLayouts None)) st in
  let o1 := onRendererCb vr_init st in
  let offset := getInitialOffset (_virtualRenderer (final o1)) in
  let o2 := (if (0 <? pt_y offset) || (0 <? pt_x offset) then
               modify (set_pendingScrollToOffset (Some offset)) ;;;
               emit SetState
             else onRendererCb startViewabilityTracker)
              (set_params (paramsObject (_virtualRenderer (final o1))) (final o1)) in
  tail = match result o1 with
         | inl e => mkOutcome (final o1) (trace o1) (inl e)
         | inr _ =>
             match result o2 with
             | inl e => mkOutcome (final o2) (trace o1 ++ trace o2) (inl e)
             | inr _ => mkOutcome (set_cachedLayouts None (final o2))
                                  (trace o1 ++ trace o2) (inr tt)
             end
         end.
Proof.
  cbv zeta. rewrite bind_run.
  destruct (result (onRendererCb vr_init st)) as [e|[]]; [reflexivity|].
  rewrite bind_modify, bind_this, bind_run.
  cbn [_virtualRenderer set_params].
  match goal with |- context [result (?m ?x)] => destruct (result (m x)) as [e|[]] end;
    cbn [result final trace modify]; rewrite ?app_nil_r; reflexivity.
Qed.

(** The first [_onSizeChanged], field by field. *)
Lemma first_size_fields (s : RecyclerListView) (layout : Dimension)
    (dp : DataProvider) (lp : LayoutProvider) :
  _initComplete s = false ->
  height layout <> 0 -> width layout <> 0 ->
  dataProvider (props s) = Some dp ->
  layoutProvider (props s) = Some lp ->
  let o := _onSizeChanged layout s in
  let v := initialised (sized layout s) dp in
  _initComplete (final o) = true /\
  _layout (final o) = layout /\
  (_params (final o) = initialParams s dp \/ _params (final o) = paramsObject v) /\
  (_virtualRenderer (final o) = v
   \/ _virtualRenderer (final o) = fst (startViewabilityTracker v)) /\
  (result o = inr tt ->
   _params (final o) = paramsObject v /\ _cachedLayouts (final o) = None).
Proof.
  intros Hinit Hh Hw Hdp Hlp. cbv zeta.
  rewrite (onSizeChanged_first_run s layout Hinit Hh Hw), bind_run.
  rewrite (initTrackers_run (sized layout s) dp lp Hdp Hlp). cbv zeta.
  cbn [result final trace].
  pose proof (initTrackers_tail (readyToInit (sized layout s) dp)) as Htail.
  cbv zeta in Htail. rewrite Htail. clear Htail.
  set (ready := readyToInit (sized layout s) dp).
  destruct (onRendererCb_frame vr_init ready)
    as [_ (_ & _ & Hv & Hc & _ & Hpar & Hlay & _)].
  cbn [_virtualRenderer _initComplete _params _layout set_virtualRenderer] in Hv, Hc, Hpar, Hlay.
  unfold initialised. fold ready.
  set (v := fst (vr_init (_virtualRenderer ready))) in *.
  set (o1 := onRendererCb vr_init ready) in *.
  change (_initComplete ready) with true in Hc.
  change (_layout ready) with layout in Hlay.
  change (_params ready) with (initialParams s dp) in Hpar.
  destruct (result o1) as [e|[]]; cbn [result final trace].
  { split; [exact Hc|]. split; [exact Hlay|]. split; [left; exact Hpar|].
    split; [left; exact Hv | discriminate]. }
  rewrite Hv.
  set (read := set_params (paramsObject v) (final o1)).
  destruct ((0 <? pt_y (getInitialOffset v)) || (0 <? pt_x (getInitialOffset v)));
    cbv iota.
  - rewrite bind_modify. cbn [emit result final trace].
    destruct (processOnEndReached_frame
                (set_cachedLayouts None
                   (set_pendingScrollToOffset (Some (getInitialOffset v)) read)))
      as (_ & Hf & _).
    cbv zeta in Hf. rewrite Hf. cbn.
    split; [exact Hc|]. split; [exact Hlay|]. split; [right; reflexivity|].
    split; [left; exact Hv|].
    intros _. split; reflexivity.
  - destruct (onRendererCb_frame startViewabilityTracker read)
      as [_ (_ & _ & Hv2 & Hc2 & _ & Hpar2 & Hlay2 & _)].
    cbn [_virtualRenderer _initComplete _params _layout set_virtualRenderer
         set_params read] in Hv2, Hc2, Hpar2, Hlay2.
    rewrite Hv in Hv2.
    rewrite Hc in Hc2. rewrite Hlay in Hlay2.
    set (o2 := onRendererCb startViewabilityTracker read) in *.
    destruct (result o2) as [e|[]]; cbn [result final trace].
    + split; [exact Hc2|]. split; [exact Hlay2|]. split; [right; exact Hpar2|].
      split; [right; exact Hv2 | discriminate].
    + destruct (processOnEndReached_frame (set_cachedLayouts None (final o2)))
        as (_ & Hf & _).
      cbv zeta in Hf. rewrite Hf. cbn.
      split; [exact Hc2|]. split; [exact Hlay2|]. split; [right; exact Hpar2|].
      split; [right; exact Hv2|].
      intros _. split; [exact Hpar2 | reflexivity].
Qed.

(** X16: the first [_onSizeChanged] with non-zero dimensions and both
    providers records the viewport and marks the component initialised,
    however the call ends.  The parameters it stores and hands to the
    renderer are those of the props, with the [initialOffset] of the props
    taking precedence over the offset restored at mount unless it is 0: the
    renderer the call leaves is the one [init()] ran on with them, with its
    viewability tracker started or not.  The object is shared with the
    renderer, and once [init()] has run [this._params] is that object as the
    renderer has left it.  When the call returns, the cached layouts have
    been dropped. *)
Theorem first_size_initialises (s : RecyclerListView) (layout : Dimension)
    (dp : DataProvider) (lp : LayoutProvider) :
  _initComplete s = false ->
  height layout <> 0 -> width layout <> 0 ->
  dataProvider (props s) = Some dp ->
  layoutProvider (props s) = Some lp ->
  let o := _onSizeChanged layout s in
  let v := initialised (sized layout s) dp in
  _initComplete (final o) = true /\
  _layout (final o) = layout /\
  (_params (final o) = initialParams s dp \/ _params (final o) = paramsObject v) /\
  (_virtualRenderer (final o) = v
   \/ _virtualRenderer (final o) = fst (startViewabilityTracker v)) /\
  (result o = inr tt ->
   _params (final o) = paramsObject v /\ _cachedLayouts (final o) = None).
Proof. exact (first_size_fields s layout dp lp). Qed.

(** X17: when the first [_onSizeChanged] returns, either the renderer's
    initial offset is positive on an axis, and then that offset is left
    pending for the next update and the viewability tracker has not been
    started; or it is not, and then the viewability tracker has been started
    on the initialised renderer. *)
Theorem initial_offset_pending (s : RecyclerListView) (layout : Dimension)
    (dp : DataProvider) (lp : LayoutProvider) :
  _initComplete s = false ->
  height layout <> 0 -> width layout <> 0 ->
  dataProvider (props s) = Some dp ->
  layoutProvider (props s) = Some lp ->
  let o := _onSizeChanged layout s in
  let v := initialised (sized layout s) dp in
  let offset := getInitialOffset v in
  result o = inr tt ->
  ((0 <? pt_y offset) || (0 <? pt_x offset) = true ->
   _virtualRenderer (final o) = v /\ _pendingScrollToOffset (final o) = Some offset) /\
  ((0 <? pt_y offset) || (0 <? pt_x offset) = false ->
   _virtualRenderer (final o) = fst (startViewabilityTracker v)).
Proof.
  intros Hinit Hh Hw Hdp Hlp. cbv zeta.
  rewrite (onSizeChanged_first_run s layout Hinit Hh Hw), bind_run.
  rewrite (initTrackers_run (sized layout s) dp lp Hdp Hlp). cbv zeta.
  cbn [result final trace].
  pose proof (initTrackers_tail (readyToInit (sized layout s) dp)) as Htail.
  cbv zeta in Htail. rewrite Htail. clear Htail.
  set (ready := readyToInit (sized layout s) dp).
  destruct (onRendererCb_frame vr_init ready) as [_ (_ & _ & Hv & _)].
  cbn [_virtualRenderer set_virtualRenderer] in Hv.
  unfold initialised. fold ready.
  set (v := fst (vr_init (_virtualRenderer ready))) in *.
  set (o1 := onRendererCb vr_init ready) in *.
  destruct (result o1) as [e|[]]; cbn [result final trace]; [discriminate|].
  rewrite Hv.
  destruct ((0 <? pt_y (getInitialOffset v)) || (0 <? pt_x (getInitialOffset v)));
    cbv iota.
  - rewrite bind_modify. cbn [emit result final trace].
    destruct (processOnEndReached_frame
                (set_cachedLayouts None
                   (set_pendingScrollToOffset (Some (getInitialOffset v))
                      (set_params (paramsObject v) (final o1)))))
      as (_ & Hf & _).
    cbv zeta in Hf. intros _. rewrite Hf. cbn. split; [auto | discriminate].
  - destruct (onRendererCb_frame startViewabilityTracker
                (set_params (paramsObject v) (final o1)))
      as [_ (_ & _ & Hv2 & _)].
    cbn [_virtualRenderer set_virtualRenderer set_params] in Hv2. rewrite Hv in Hv2.
    set (o2 := onRendererCb startViewabilityTracker
                 (set_params (paramsObject v) (final o1))) in *.
    destruct (result o2) as [e|[]]; cbn [result final trace]; [discriminate|].
    destruct (processOnEndReached_frame (set_cachedLayouts None (final o2)))
      as (_ & Hf & _).
    cbv zeta in Hf. intros _. rewrite Hf. cbn. split; [discriminate | auto].
Qed.

(** *** Teardown and re-creation *)

Lemma length_append (a b : string) :
  String.length (a +:+ b) = (String.length a + String.length b)%nat.
Proof. induction a as [|c a IH]; simpl; [reflexivity | f_equal; exact IH]. Qed.

Lemma layoutsKey_other (uniqueKey : string) : uniqueKey <> layoutsKey uniqueKey.
Proof.
  unfold layoutsKey. intros H. apply (f_equal String.length) in H.
  rewrite length_append in H. cbn in H. lia.
Qed.

(** What the unmounting instance leaves under its unique key: the scroll
    offset. *)
Lemma componentWillUnmount_saves_offset `{!ContextProviderLaws C}
    `{!ContextProviderKeys C} (old : RecyclerListView)
    (cp : ContextProvider) (uniqueKey : string) :
  contextProvider (props old) = Some cp ->
  truthy_key (getUniqueKey cp) = Some uniqueKey ->
  exists cp',
    contextProvider (props (final (componentWillUnmount old))) = Some cp' /\
    getUniqueKey cp' = getUniqueKey cp /\
    ctx_get cp' uniqueKey = Some (CNum (getCurrentScrollOffset old)).
Proof.
  intros Hcp Hkey.
  unfold componentWillUnmount, bind, this, modify. cbn.
  rewrite Hcp, Hkey. cbn.
  destruct (forceNonDeterministicRendering (props old)
            && hasLayoutManager (_virtualRenderer old)); cbn.
  - eexists. split; [reflexivity|]. split.
    + rewrite !getUniqueKey_save. reflexivity.
    + rewrite ctx_get_save_other by apply layoutsKey_other. apply ctx_get_save.
  - eexists. split; [reflexivity|]. split.
    + apply getUniqueKey_save.
    + apply ctx_get_save.
Qed.

Lemma componentWillMount_keeps :
  preserves (fun st => (_initComplete st, dataProvider (props st),
                        layoutProvider (props st), initialOffset (props st)))
            componentWillMount.
Proof. unfold componentWillMount. pres. Qed.

(** The offset the mounting instance restores: a number above 0 stored
    under the unique key, and nothing else. *)
Lemma componentWillMount_offset (s : RecyclerListView) (cp : ContextProvider)
    (uniqueKey : string) :
  contextProvider (props s) = Some cp ->
  truthy_key (getUniqueKey cp) = Some uniqueKey ->
  _initialOffset (final (componentWillMount s))
    = match ctx_get cp uniqueKey with
      | Some (CNum offset) => if 0 <? offset then offset else _initialOffset s
      | _ => _initialOffset s
      end.
Proof.
  intros Hcp Hkey. unfold componentWillMount. rewrite bind_this, Hcp, Hkey.
  set (s1 := match ctx_get cp uniqueKey with
             | Some (CNum offset) => if 0 <? offset then set_initialOffset offset s else s
             | _ => s
             end).
  rewrite (bind_silent _ _ s s1 tt).
  - match goal with |- _initialOffset (final (?m s1)) = _ =>
      assert (H : preserves _initialOffset m)
    end.
    { pres. }
    rewrite (H s1). subst s1.
    destruct (ctx_get cp uniqueKey) as [[offset|str]|]; try reflexivity.
    destruct (0 <? offset); reflexivity.
  - subst s1. destruct (ctx_get cp uniqueKey) as [[offset|str]|]; try reflexivity.
    destruct (0 <? offset); reflexivity.
Qed.

(** X18: the scroll offset survives a teardown.  With a context provider
    that has a non-empty unique key, keeps what is saved and keeps its keys
    apart, the offset the old instance had at [componentWillUnmount] is
    what [componentWillMount] restores in the new one when it is above 0
    (and nothing otherwise); the first [_onSizeChanged] hands it to the
    renderer as the initial offset of the parameters unless the new props
    carry an [initialOffset] other than 0, which wins; and when that call
    returns, [this._params] is the parameters object as the renderer
    initialised with them has left it. *)
Theorem scroll_offset_round_trip `{!ContextProviderLaws C} `{!ContextProviderKeys C}
    (old : RecyclerListView) (cp : ContextProvider) (uniqueKey : string)
    (newProps : RecyclerListViewProps) (layout : Dimension)
    (dp : DataProvider) (lp : LayoutProvider) :
  contextProvider (props old) = Some cp ->
  truthy_key (getUniqueKey cp) = Some uniqueKey ->
  contextProvider newProps
    = contextProvider (props (final (componentWillUnmount old))) ->
  dataProvider newProps = Some dp ->
  layoutProvider newProps = Some lp ->
  height layout <> 0 -> width layout <> 0 ->
  let offset := getCurrentScrollOffset old in
  let restored := if 0 <? offset then offset else 0 in
  let fresh := final (componentWillMount (constructor newProps)) in
  let o := _onSizeChanged layout fresh in
  _initialOffset fresh = restored /\
  p_initialOffset (initialParams (sized layout fresh) dp)
    = (if initialOffset newProps =? 0 then restored else initialOffset newProps) /\
  (result o = inr tt ->
   _params (final o) = paramsObject (initialised (sized layout fresh) dp)).
Proof.
  intros Hcp Hkey Hnew Hdp Hlp Hh Hw. cbv zeta.
  destruct (componentWillUnmount_saves_offset old cp uniqueKey Hcp Hkey)
    as (cp' & Hcp' & Hkey' & Hget).
  rewrite Hcp' in Hnew. rewrite <- Hkey' in Hkey.
  pose proof (componentWillMount_offset (constructor newProps) cp' uniqueKey
                Hnew Hkey) as Hoff.
  rewrite Hget in Hoff. cbn [_initialOffset constructor] in Hoff.
  pose proof (componentWillMount_keeps (constructor newProps)) as Hkeep.
  cbv beta in Hkeep. cbn [props constructor _initComplete] in Hkeep.
  apply pair_equal_spec in Hkeep as [Hkeep Hio].
  apply pair_equal_spec in Hkeep as [Hkeep Hlp'].
  apply pair_equal_spec in Hkeep as [Hinit Hdp'].
  set (fresh := final (componentWillMount (constructor newProps))) in *.
  split; [exact Hoff|]. split.
  - unfold initialParams.
    cbn [p_initialOffset props _initialOffset sized set_initComplete set_layout].
    rewrite Hio, Hoff. reflexivity.
  - intros Hres.
    destruct (first_size_fields fresh layout dp lp) as (_ & _ & _ & _ & Hpar);
      try assumption; try congruence.
    apply Hpar, Hres.
Qed.

(** X19: [componentWillMount] with a context provider and a non-empty
    unique key makes none of the calls the trace records (it talks to the
    context provider and to [JSON.parse] only); when it returns it has
    removed the entry under the unique key from the context provider; and it
    can fail only under
    [forceNonDeterministicRendering], with the error [JSON.parse] raised on
    the non-empty text stored under the layouts key, in which case nothing
    has been removed and no layouts have been restored. *)
Theorem componentWillMount_outcomes (s : RecyclerListView) (cp : ContextProvider)
    (uniqueKey : string) :
  contextProvider (props s) = Some cp ->
  truthy_key (getUniqueKey cp) = Some uniqueKey ->
  let o := componentWillMount s in
  trace o = [] /\
  (result o = inr tt ->
   contextProvider (props (final o)) = Some (ctx_remove cp uniqueKey)) /\
  (forall e, result o = inl e ->
   contextProvider (props (final o)) = Some cp /\
   _cachedLayouts (final o) = _cachedLayouts s /\
   forceNonDeterministicRendering (props s) = true /\
   exists text, ctx_get cp (layoutsKey uniqueKey) = Some (CStr text) /\
                text <> EmptyString /\ JSON_parse text = inl e).
Proof.
  intros Hcp Hkey. cbv zeta.
  unfold componentWillMount. rewrite bind_this, Hcp, Hkey.
  set (s1 := match ctx_get cp uniqueKey with
             | Some (CNum offset) => if 0 <? offset then set_initialOffset offset s else s
             | _ => s
             end).
  assert (Hs1 : props s1 = props s /\ _cachedLayouts s1 = _cachedLayouts s).
  { subst s1. destruct (ctx_get cp uniqueKey) as [[offset|str]|]; auto.
    destruct (0 <? offset); auto. }
  destruct Hs1 as [Hp1 Hc1].
  rewrite (bind_silent _ _ s s1 tt)
    by (subst s1; destruct (ctx_get cp uniqueKey) as [[offset|str]|]; try reflexivity;
        destruct (0 <? offset); reflexivity).
  rewrite bind_run. clearbody s1.
  match goal with |- context [result (?F s1)] => set (restore := F s1) in * end.
  assert (HF : trace restore = [] /\ props (final restore) = props s /\
               (forall e, result restore = inl e ->
                  _cachedLayouts (final restore) = _cachedLayouts s /\
                  forceNonDeterministicRendering (props s) = true /\
                  exists text, ctx_get cp (layoutsKey uniqueKey) = Some (CStr text) /\
                               text <> EmptyString /\ JSON_parse text = inl e)).
  { subst restore.
    destruct (forceNonDeterministicRendering (props s));
      [|cbn; split; [auto|split; [auto|discriminate]]].
    destruct (ctx_get cp (layoutsKey uniqueKey)) as [[n|text]|];
      try (cbn; split; [auto|split; [auto|discriminate]]).
    destruct (String.eqb_spec text EmptyString) as [->|Hne];
      [cbn; split; [auto|split; [auto|discriminate]]|].
    destruct (JSON_parse text) as [e'|la] eqn:Hparse; cbn.
    - split; [auto|]. split; [auto|]. intros e [= <-].
      split; [auto|]. split; [auto|]. exists text. auto.
    - split; [auto|]. split; [auto|]. discriminate. }
  destruct HF as (Ht & Hp & He).
  destruct (result restore) as [e'|[]]; cbn [result final trace modify].
  - split; [exact Ht|]. split; [discriminate|].
    intros e [= <-]. destruct (He e' eq_refl) as (Hc & Hf & Hx).
    rewrite Hp, Hcp. auto.
  - rewrite Ht. split; [reflexivity|]. split; [reflexivity | discriminate].
Qed.

(** *** Who writes the end-reached latch *)

Lemma latch_kept_by_refreshViewability : keepsLatch _refreshViewability.
Proof. unfold _refreshViewability, _queueStateRefresh, onRendererCb. kl. Qed.

Lemma latch_kept_by_render : keepsLatch render.
Proof.
  intros s. unfold render, _generateRenderStack.
  rewrite bind_this, bind_run, bind_this.
  destruct (renderAll_frame (renderStack s) s) as (_ & Hu & _). cbv zeta in Hu.
  unfold unrendered in Hu.
  destruct (result (renderAll (renderStack s) s)); cbn [result final trace ret];
    congruence.
Qed.

(** X20: the end-reached latch is written by [_processOnEndReached] alone.
    Receiving props, mounting, unmounting, a layout change, the
    initialisation of the trackers, a viewability refresh, an item-resize
    notification, rendering and the scroll methods all leave it as they
    found it, however they end. *)
Theorem latch_written_by_end_check_only (same : Data -> Data -> bool)
    (newProps : RecyclerListViewProps) (force : bool) (dim : Dimension)
    (x y index : Z) (data : Data) (animate : bool) :
  keepsLatch (componentWillReceiveProps newProps) /\
  keepsLatch componentWillMount /\
  keepsLatch componentWillUnmount /\
  keepsLatch (_checkAndChangeLayouts newProps force) /\
  keepsLatch _initTrackers /\
  keepsLatch _refreshViewability /\
  keepsLatch (_onViewContainerSizeChange dim index) /\
  keepsLatch render /\
  keepsLatch (scrollToOffset x y animate) /\
  keepsLatch (scrollToTop animate) /\
  keepsLatch (scrollToIndex index animate) /\
  keepsLatch (scrollToEnd animate) /\
  keepsLatch (scrollToItem same data animate).
Proof.
  repeat split.
  - apply latch_kept_by_new_props.
  - apply latch_kept_by_mounting.
  - apply latch_kept_by_unmounting.
  - apply latch_kept_by_layout_change.
  - apply latch_kept_by_initTrackers.
  - apply latch_kept_by_refreshViewability.
  - apply latch_kept_by_resize.
  - apply latch_kept_by_render.
  - intros s. destruct (scrollToOffset_once x y animate s) as [-> _]. reflexivity.
  - intros s. destruct (scrollToOffset_once 0 0 animate s) as [H _].
    unfold scrollToTop. rewrite H. reflexivity.
  - apply latch_kept_by_scrollToIndex.
  - intros s. unfold scrollToEnd. rewrite bind_this.
    destruct (dataProvider (props s)) as [dp|]; cbn [deref]; [|reflexivity].
    rewrite bind_ret. apply latch_kept_by_scrollToIndex.
  - intros s. unfold scrollToItem. rewrite bind_this.
    destruct (dataProvider (props s)) as [dp|]; cbn [deref]; [|reflexivity].
    rewrite bind_ret.
    destruct (scrollToItem_from_once same dp data animate
                (Z.to_nat (getSize dp)) 0 s) as [-> _].
    reflexivity.
Qed.

(** X21: after an [_onScroll] that returns, with an [onEndReached] prop,
    the latch is set exactly when the new offset is within the threshold of
    the end of the content, and [onEndReached] has been called once if the
    list is there with the latch not set before, and not at all otherwise. *)
Theorem onScroll_latch_tracks_region (s : RecyclerListView) (offsetX offsetY : Z)
    (rawEvent : ScrollEvent) :
  onEndReached (props s) = true ->
  let o := _onScroll offsetX offsetY rawEvent s in
  result o = inr tt ->
  _onEndReachedCalled (final o) = inEndRegion (final o) /\
  endReachedCalls (trace o)
    = (if inEndRegion (final o) && negb (_onEndReachedCalled s) then 1%nat else 0%nat).
Proof.
  intros Hend. cbv zeta. unfold _onScroll. rewrite bind_run.
  destruct (onRendererCb_frame (fun v => updateOffset v offsetX offsetY) s)
    as [Ht (Hp & Hlatch & _)].
  cbn [props _onEndReachedCalled set_virtualRenderer] in Hp, Hlatch.
  set (o1 := onRendererCb _ s) in *.
  destruct (result o1) as [e|[]]; cbn [result final trace]; [discriminate|].
  rewrite bind_this, Hp. intros _.
  set (call := if onScroll (props s) then [OnScroll rawEvent offsetX offsetY] else []).
  rewrite (bind_outcome _ _ (final o1) (final o1) call tt)
    by (subst call; destruct (onScroll (props s)); reflexivity).
  cbn [result final trace].
  rewrite processOnEndReached_step, Hp, Hend, Hlatch.
  assert (Hcb : endReachedCalls (trace o1) = 0%nat).
  { unfold endReachedCalls. rewrite filter_none; [reflexivity|].
    eapply Forall_impl; [exact Ht|].
    intros ev; destruct ev; cbn; intros; first [reflexivity | contradiction]. }
  assert (Hcall : endReachedCalls call = 0%nat)
    by (subst call; destruct (onScroll (props s)); reflexivity).
  unfold endReachedCalls in *. rewrite !filter_app, !length_app, Hcb, Hcall.
  destruct (inEndRegion (final o1)) eqn:Hin; cbn [final trace].
  - destruct (_onEndReachedCalled s) eqn:Hl; cbn [final trace];
      rewrite ?inEndRegion_latch, Hin; cbn; auto.
  - rewrite inEndRegion_latch, Hin. cbn. auto.
Qed.

(** *** The range of the cursor *)

Lemma ki_ret {A} (P : RecyclerListView -> Prop) (a : A) : keepsInvariant P (ret a).
Proof. intros s H; exact H. Qed.

Lemma ki_throw {A} (P : RecyclerListView -> Prop) (e : Exn) :
  keepsInvariant P (@throw _ A e).
Proof. intros s H; exact H. Qed.

Lemma ki_emit (P : RecyclerListView -> Prop) (ev : Event) : keepsInvariant P (emit ev).
Proof. intros s H; exact H. Qed.

Lemma ki_this (P : RecyclerListView -> Prop) : keepsInvariant P this.
Proof. intros s H; exact H. Qed.

Lemma ki_modify (P : RecyclerListView -> Prop)
    (g : RecyclerListView -> RecyclerListView) :
  (forall s, P s -> P (g s)) -> keepsInvariant P (modify g).
Proof. intros Hg s H; apply Hg, H. Qed.

Lemma ki_bind {A B} (P : RecyclerListView -> Prop) (m : M A) (k : A -> M B) :
  keepsInvariant P m -> (forall a, keepsInvariant P (k a)) ->
  keepsInvariant P (bind m k).
Proof.
  intros Hm Hk s H. rewrite bind_run. destruct (result (m s)) as [e|a]; cbn.
  - apply Hm, H.
  - apply Hk, Hm, H.
Qed.

Lemma ki_bind_throw {A B} (P : RecyclerListView -> Prop) (e : Exn) (k : A -> M B) :
  keepsInvariant P (bind (throw e) k).
Proof. intros s H; exact H. Qed.

Lemma ki_handleCallbacks (cbs : list Callback) :
  keepsInvariant cursorInRange (handleCallbacks cbs).
Proof.
  intros s H. destruct (handleCallbacks_frame cbs s) as [_ (_ & _ & _ & _ & Hc & _)].
  unfold cursorInRange in *. rewrite Hc. exact H.
Qed.

Lemma ki_markForRelayout (index : Z) :
  -1 <= index -> keepsInvariant cursorInRange (markForRelayout index).
Proof.
  intros Hi s H. unfold cursorInRange, markForRelayout, Math_min in *.
  rewrite bind_this. destruct (_relayoutReqIndex s =? -1); cbn; lia.
Qed.

Ltac ki_step :=
  first
    [ apply ki_handleCallbacks
    | apply ki_ret | apply ki_throw | apply ki_emit | apply ki_this
    | apply ki_bind_throw
    | apply ki_markForRelayout; lia
    | apply ki_modify; intros ? ?; unfold cursorInRange in *; cbn;
      first [assumption | lia]
    | apply ki_bind; [| intros ?]
    | match goal with
      | |- keepsInvariant _ (if ?b then _ else _) => destruct b
      | |- keepsInvariant _ (match ?x with _ => _ end) => destruct x
      end ].

Ltac ki := repeat ki_step.

Lemma ki_checkAndChangeLayouts (p : RecyclerListViewProps) (force : bool) :
  keepsInvariant cursorInRange (_checkAndChangeLayouts p force).
Proof.
  unfold _checkAndChangeLayouts, deref, installLayoutManager, callReLayoutFromIndex,
    _refreshViewability, _queueStateRefresh, onRendererCb, onRenderer. ki.
Qed.

Lemma ki_processOnEndReached : keepsInvariant cursorInRange _processOnEndReached.
Proof. unfold _processOnEndReached. ki. Qed.

Lemma ki_renderRow (item : RenderStackItem) :
  keepsInvariant cursorInRange (_renderRowUsingMeta item).
Proof.
  intros s. revert s.
  unfold _renderRowUsingMeta. apply ki_bind; [apply ki_this | intros s].
  apply ki_bind; [unfold deref; ki | intros dp]. cbv zeta.
  destruct (renderable (dataIndex item) (getSize dp)) as [i|]; [|apply ki_ret].
  apply ki_bind; [unfold require; ki | intros _].
  apply ki_bind; [unfold deref; ki | intros lp].
  apply ki_bind; [unfold _assertType; ki | intros _].
  unfold _checkExpectedDimensionDiscrepancy, require.
  destruct (js_index (getLayouts (_virtualRenderer s)) i) as [rect|] eqn:Hrect;
    cbn [deref].
  - assert (Hi : 0 <= i).
    { unfold js_index in Hrect. destruct (Z.leb_spec 0 i); [assumption | discriminate]. }
    unfold deref. ki.
  - unfold deref. ki.
Qed.

Lemma ki_renderAll (stack : RenderStack) :
  keepsInvariant cursorInRange (renderAll stack).
Proof.
  induction stack as [|[k item] rest IH]; cbn [renderAll]; [apply ki_ret|].
  apply ki_bind; [apply ki_renderRow | intros row].
  apply ki_bind; [exact IH | intros rows]. apply ki_ret.
Qed.

(** X22: the pending re-layout cursor never leaves its range.  If it is -1
    or an index from 0 up, it still is after a viewport change, new props,
    an update, a render, a scroll event, an item-resize notification for an
    index from 0 up, mounting and unmounting, however they end; so the test
    [=== -1] that marks and the test [>= 0] that flushes never disagree. *)
Theorem cursor_stays_in_range (s : RecyclerListView) :
  cursorInRange s ->
  (forall layout, cursorInRange (final (_onSizeChanged layout s))) /\
  (forall newProps, cursorInRange (final (componentWillReceiveProps newProps s))) /\
  cursorInRange (final (componentDidUpdate s)) /\
  cursorInRange (final (render s)) /\
  (forall offsetX offsetY rawEvent,
     cursorInRange (final (_onScroll offsetX offsetY rawEvent s))) /\
  (forall dim index, 0 <= index ->
     cursorInRange (final (_onViewContainerSizeChange dim index s))) /\
  cursorInRange (final (componentWillMount s)) /\
  cursorInRange (final (componentWillUnmount s)) /\
  (_relayoutReqIndex s =? -1) = negb (0 <=? _relayoutReqIndex s).
Proof.
  intros H.
  assert (Hall :
    (forall layout, keepsInvariant cursorInRange (_onSizeChanged layout)) /\
    (forall newProps, keepsInvariant cursorInRange (componentWillReceiveProps newProps)) /\
    keepsInvariant cursorInRange componentDidUpdate /\
    keepsInvariant cursorInRange render /\
    (forall offsetX offsetY rawEvent,
       keepsInvariant cursorInRange (_onScroll offsetX offsetY rawEvent)) /\
    (forall dim index, 0 <= index ->
       keepsInvariant cursorInRange (_onViewContainerSizeChange dim index)) /\
    keepsInvariant cursorInRange componentWillMount /\
    keepsInvariant cursorInRange componentWillUnmount).
  { repeat split; intros;
      repeat first
        [ apply ki_checkAndChangeLayouts | apply ki_processOnEndReached
        | apply ki_renderAll
        | progress unfold deref, require, _assertDependencyPresence
        | ki_step ]. }
  destruct Hall as (H1 & H2 & H3 & H4 & H5 & H6 & H7 & H8).
  repeat split; intros;
    try (first [ apply H1 | apply H2 | apply H3 | apply H4 | apply H5
               | apply H6 | apply H7 | apply H8 ]; assumption).
  unfold cursorInRange in H.
  destruct (Z.eqb_spec (_relayoutReqIndex s) (-1)), (Z.leb_spec 0 (_relayoutReqIndex s));
    cbn; lia.
Qed.

Lemma returned_spec {A} (d : A) (r : Exn + A) :
  returns r = true -> r = inr (returned d r).
Proof. destruct r; [discriminate | reflexivity]. Qed.

(** *** More on the observer, the context provider and the update cycle *)

(** X23: with an [onVisibleIndexesChanged] prop, [_onScroll] returns and
    has called the observer once for every visibility change the renderer
    reported for the new offset, in the renderer's order and with the three
    lists as the renderer gave them. *)
Theorem onScroll_observer_forwarded (s : RecyclerListView) (offsetX offsetY : Z)
    (rawEvent : ScrollEvent) :
  onVisibleIndexesChanged (props s) = true ->
  let o := _onScroll offsetX offsetY rawEvent s in
  result o = inr tt /\
  visibilityCalls (trace o)
    = visibilityCallbacks (snd (updateOffset (_virtualRenderer s) offsetX offsetY)).
Proof.
  intros Hp. cbv zeta. unfold _onScroll. rewrite bind_run, onRendererCb_run.
  match goal with |- context [handleCallbacks ?cbs ?st] =>
    destruct (handleCallbacks_observed cbs st Hp) as (Hr & Hc & Hp' & _);
    set (o1 := handleCallbacks cbs st) in *
  end.
  cbv zeta in Hr, Hc, Hp'. cbn [props set_virtualRenderer] in Hp'.
  rewrite Hr. cbn [result final trace]. rewrite bind_this, Hp'.
  set (call := if onScroll (props s) then [OnScroll rawEvent offsetX offsetY] else []).
  rewrite (bind_outcome _ _ (final o1) (final o1) call tt)
    by (subst call; destruct (onScroll (props s)); reflexivity).
  cbn [result final trace].
  destruct (visibilityCalls_processOnEndReached (final o1)) as (Hq & Hr' & _).
  split; [exact Hr'|].
  rewrite !visibilityCalls_app, Hc, Hq.
  subst call. destruct (onScroll (props s)); cbn; rewrite app_nil_r; reflexivity.
Qed.

(** X24: [componentWillUnmount] always returns and makes none of the calls
    the trace records (it talks to the context provider, the renderer's
    readers and [JSON.stringify] only); and without a context provider, or with one whose unique key is undefined or
    the empty string, [componentWillMount] and [componentWillUnmount] both
    leave the component exactly as it was: nothing is restored and nothing
    is saved. *)
Theorem context_hooks_without_key (s : RecyclerListView) :
  (result (componentWillUnmount s) = inr tt /\ trace (componentWillUnmount s) = []) /\
  (contextProvider (props s) = None
   \/ (exists cp, contextProvider (props s) = Some cp
                  /\ (getUniqueKey cp = None \/ getUniqueKey cp = Some EmptyString)) ->
   componentWillMount s = mkOutcome s [] (inr tt) /\
   componentWillUnmount s = mkOutcome s [] (inr tt)).
Proof.
  split.
  - unfold componentWillUnmount. rewrite bind_this.
    destruct (contextProvider (props s)) as [cp|]; [|auto].
    destruct (truthy_key (getUniqueKey cp)) as [k|]; [|auto].
    rewrite bind_modify.
    destruct (forceNonDeterministicRendering (props s) && _); cbn; auto.
  - intros Hno. unfold componentWillMount, componentWillUnmount.
    rewrite !bind_this.
    destruct Hno as [-> | (cp & -> & Hkey)]; [auto|].
    assert (Hk : truthy_key (getUniqueKey cp) = None)
      by (destruct Hkey as [-> | ->]; reflexivity).
    rewrite Hk. auto.
Qed.

Lemma refreshViewability_refreshes (s : RecyclerListView) :
  result (_refreshViewability s) = inr tt ->
  refreshRequests (trace (_refreshViewability s)) = 1%nat.
Proof.
  unfold _refreshViewability, _queueStateRefresh. rewrite bind_run.
  destruct (onRendererCb_frame refresh s) as [Ht _].
  destruct (result (onRendererCb refresh s)) as [e|[]]; cbn [result final trace];
    [discriminate|].
  intros _. rewrite refreshRequests_app, (refreshRequests_callbackEvents _ Ht).
  reflexivity.
Qed.

(** The flush, written out: one re-layout from the cursor, the cursor
    reset, then a viewability refresh. *)
Lemma flush_run `{!CollaboratorLaws C} (s : RecyclerListView) (dp : DataProvider) :
  dataProvider (props s) = Some dp ->
  hasLayoutManager (_virtualRenderer s) = true ->
  0 <= _relayoutReqIndex s ->
  let s' := set_relayoutReqIndex (-1)
              (set_virtualRenderer
                 (reLayoutFromIndex (_virtualRenderer (prepared s (props s) dp))
                                    (_relayoutReqIndex s) (getSize dp))
                 (prepared s (props s) dp)) in
  _checkAndChangeLayouts (props s) false s =
    mkOutcome (final (_refreshViewability s'))
              (ReLayoutFromIndex (_relayoutReqIndex s) (getSize dp)
                 :: trace (_refreshViewability s'))
              (result (_refreshViewability s')).
Proof.
  intros Hdp Hlm Hc. cbv zeta.
  rewrite (checkAndChangeLayouts_run s (props s) false dp Hdp). cbv zeta.
  unfold layoutChanged. rewrite bool_decide_eq_true_2 by reflexivity.
  rewrite (bool_decide_eq_true_2 _ Hdp), Bool.eqb_reflx. cbn [negb orb].
  destruct (Z.leb_spec 0 (_relayoutReqIndex s)) as [_|]; [|lia].
  replace (hasLayoutManager (_virtualRenderer (prepared s (props s) dp))) with true
    by (symmetry; apply setParamsAndDimensions_keeps_manager, Hlm).
  rewrite bind_run, callReLayoutFromIndex_run. cbn [result final trace].
  rewrite bind_modify. reflexivity.
Qed.

(** *** Viewport changes after the first, written out *)

(** The fields [_refreshViewability] leaves alone, however it ends. *)
Lemma refreshViewability_fields (s : RecyclerListView) :
  sameButStackAndPending (set_virtualRenderer (fst (refresh (_virtualRenderer s))) s)
                         (final (_refreshViewability s)).
Proof.
  unfold _refreshViewability, _queueStateRefresh. rewrite bind_run.
  destruct (onRendererCb_frame refresh s) as [_ Hf].
  destruct (result (onRendererCb refresh s)) as [e|[]]; cbn [result final trace emit];
    exact Hf.
Qed.

Lemma onSizeChanged_later_run (s : RecyclerListView) (layout : Dimension) :
  _initComplete s = true ->
  height layout <> 0 -> width layout <> 0 ->
  _onSizeChanged layout s =
    if crossAxisChanged s layout
    then _checkAndChangeLayouts (props s) true (set_layout layout s)
    else _refreshViewability
           (set_virtualRenderer (layoutWritten (_virtualRenderer s) layout)
                                (set_layout layout s)).
Proof.
  intros Hinit Hh Hw.
  assert (Hcross :
    crossAxisChanged s layout
    = (negb (height (_layout s) =? height layout)
         && negb (width (_layout s) =? width layout))
      || (negb (height (_layout s) =? height layout) && isHorizontal (props s))
      || (negb (width (_layout s) =? width layout) && negb (isHorizontal (props s)))).
  { unfold crossAxisChanged.
    destruct (isHorizontal (props s)), (height (_layout s) =? height layout),
      (width (_layout s) =? width layout); reflexivity. }
  unfold _onSizeChanged.
  rewrite bind_this, bind_modify.
  destruct (Z.eqb_spec (height layout) 0); [contradiction|].
  destruct (Z.eqb_spec (width layout) 0); [contradiction|]. cbn [orb].
  rewrite Hinit. cbn [negb]. rewrite Hcross.
  destruct layout as [h w]. cbn [height width].
  match goal with |- context [if ?b then _ else _] => destruct b end;
    [reflexivity|].
  unfold onRenderer. rewrite bind_modify. reflexivity.
Qed.

(** X3: after the first, a viewport change with non-zero dimensions records
    the viewport, re-lays out nothing and keeps the pending re-layout
    cursor.  When the size across the scroll axis changed it stores the
    parameters of the props, hands them to the renderer with the new
    viewport, re-creates the layout manager for that viewport (with no
    cached layouts) and refreshes with an anchor, asking for no state
    refresh.  Otherwise it creates no layout manager and only refreshes
    viewability: the renderer runs [refresh()] on the viewport just written,
    the parameters stay as they were and, when the call returns, one state
    refresh has been asked for. *)
Theorem resize_recreates_layout_manager (s : RecyclerListView)
    (layout : Dimension) (dp : DataProvider) :
  _initComplete s = true ->
  height layout <> 0 -> width layout <> 0 ->
  dataProvider (props s) = Some dp ->
  let o := _onSizeChanged layout s in
  newLayoutManagers (trace o) = (if crossAxisChanged s layout then [None] else []) /\
  relayouts (trace o) = [] /\
  _layout (final o) = layout /\
  _relayoutReqIndex (final o) = _relayoutReqIndex s /\
  (crossAxisChanged s layout = true ->
   refreshRequests (trace o) = 0%nat /\
   _params (final o) = paramsFor s (props s) dp /\
   _virtualRenderer (final o)
     = fst (refreshWithAnchor
              (setLayoutManager
                 (setParamsAndDimensions (_virtualRenderer s)
                                         (paramsFor s (props s) dp) layout)
                 (layoutProvider (props s)) layout (isHorizontal (props s)) None))) /\
  (crossAxisChanged s layout = false ->
   _params (final o) = _params s /\
   _virtualRenderer (final o)
     = fst (refresh (layoutWritten (_virtualRenderer s) layout)) /\
   (result o = inr tt -> refreshRequests (trace o) = 1%nat)).
Proof.
  intros Hinit Hh Hw Hdp. cbv zeta.
  rewrite (onSizeChanged_later_run s layout Hinit Hh Hw).
  destruct (crossAxisChanged s layout).
  - rewrite (checkAndChangeLayouts_run (set_layout layout s) (props s) true dp Hdp).
    cbv zeta. cbn [orb].
    rewrite bind_run, installLayoutManager_run. cbn [result final trace].
    match goal with |- context [onRendererCb refreshWithAnchor ?st] =>
      destruct (onRendererCb_frame refreshWithAnchor st)
        as [Ht (_ & _ & Hv & _ & Hcur & Hpar & Hlay & _)]
    end.
    cbn [_relayoutReqIndex _virtualRenderer _params _layout set_virtualRenderer
         prepared set_params set_layout] in Hcur, Hv, Hpar, Hlay.
    rewrite !relayouts_app, !newLayoutManagers_app, !refreshRequests_app,
      (relayouts_callbackEvents _ Ht), (newLayoutManagers_callbackEvents _ Ht),
      (refreshRequests_callbackEvents _ Ht).
    split; [reflexivity|]. split; [reflexivity|]. split; [exact Hlay|].
    split; [exact Hcur|]. split; [| discriminate].
    intros _. split; [reflexivity|]. split; [exact Hpar | exact Hv].
  - set (st := set_virtualRenderer _ _).
    destruct (refreshViewability_fields st)
      as (_ & _ & Hv & _ & Hcur & Hpar & Hlay & _).
    destruct (refreshViewability_frame st) as [Hre _].
    pose proof (refreshViewability_refreshes st) as Hone.
    pose proof (refreshViewability_quiet st) as Hquiet.
    cbn [_relayoutReqIndex _virtualRenderer _params _layout set_virtualRenderer
         set_layout st] in Hcur, Hv, Hpar, Hlay.
    split; [exact Hquiet|]. split; [exact Hre|]. split; [exact Hlay|].
    split; [exact Hcur|]. split; [discriminate|].
    intros _. split; [exact Hpar|]. split; [exact Hv | exact Hone].
Qed.

(** X25: an item-resize notification is settled by the next update.  From
    a state with no re-layout pending, after [_onViewContainerSizeChange]
    for one index a [componentDidUpdate] that returns has re-laid out once,
    from that index, has asked for one more state refresh and has reset the
    cursor; the [componentDidUpdate] after that re-lays out nothing and asks
    for no further refresh. *)
Theorem resize_then_update_settles `{!CollaboratorLaws C} (s : RecyclerListView)
    (dim : Dimension) (index : Z) (dp : DataProvider) :
  hasLayoutManager (_virtualRenderer s) = true ->
  _relayoutReqIndex s = -1 ->
  0 <= index ->
  dataProvider (props s) = Some dp ->
  let resized := final (_onViewContainerSizeChange dim index s) in
  let update := componentDidUpdate resized in
  let again := componentDidUpdate (final update) in
  result update = inr tt ->
  relayouts (trace update) = [(index, getSize dp)] /\
  refreshRequests (trace update) = 1%nat /\
  _relayoutReqIndex (final update) = -1 /\
  relayouts (trace again) = [] /\
  refreshRequests (trace again) = 0%nat.
Proof.
  intros Hlm Hc Hi Hdp. cbv zeta.
  rewrite (onViewContainerSizeChange_step s dim index Hlm). cbn [final].
  unfold coalesce. rewrite Hc, Z.eqb_refl.
  set (s1 := set_relayoutReqIndex index
               (set_virtualRenderer (overrideLayout (_virtualRenderer s) index dim) s)).
  assert (Hquiet : forall st, _relayoutReqIndex st < 0 ->
            relayouts (trace (componentDidUpdate st)) = [] /\
            refreshRequests (trace (componentDidUpdate st)) = 0%nat).
  { intros st Hst. destruct (componentDidUpdate_run st) as (Hp & Hcur & ->).
    cbn [trace].
    match goal with |- context [_processOnEndReached ?x] =>
      destruct (processOnEndReached_frame x) as (_ & _ & Hreached);
      set (reached := _processOnEndReached x) in *
    end.
    destruct (checkAndChangeLayouts_same_props (final reached)) as [_ Hq].
    cbv zeta in Hq. rewrite (Hq ltac:(rewrite Hcur; exact Hst)).
    unfold relayouts, refreshRequests.
    rewrite !omap_app, !filter_app, !length_app.
    destruct Hreached as [-> | ->], (_pendingScrollToOffset st) as [offset|];
      try destruct (isHorizontal (props st)); split; reflexivity. }
  destruct (componentDidUpdate_run s1) as (Hp & Hcur & Hrun).
  match type of Hrun with context [_processOnEndReached ?x] =>
    destruct (processOnEndReached_frame x) as (_ & Hf & Hreached);
    set (reached := _processOnEndReached x) in *
  end.
  cbv zeta in Hf.
  assert (Hlm' : hasLayoutManager (_virtualRenderer (final reached)) = true).
  { rewrite Hf. destruct (_pendingScrollToOffset s1); cbn;
      apply overrideLayout_keeps_manager, Hlm. }
  assert (Hdp' : dataProvider (props (final reached)) = Some dp)
    by (rewrite Hp; exact Hdp).
  assert (Hcur' : _relayoutReqIndex (final reached) = index) by (rewrite Hcur; reflexivity).
  pose proof (flush_run (final reached) dp Hdp' Hlm' ltac:(rewrite Hcur'; exact Hi))
    as Hflush.
  cbv zeta in Hflush. rewrite Hcur' in Hflush.
  rewrite Hrun, Hflush. cbn [result final trace].
  match goal with |- context [_refreshViewability ?x] =>
    destruct (refreshViewability_frame x) as [Hrl Hrc];
    pose proof (refreshViewability_refreshes x) as Hrq;
    set (refreshed := _refreshViewability x) in *
  end.
  cbn [_relayoutReqIndex set_relayoutReqIndex] in Hrc.
  intros Hres.
  destruct (Hquiet (final refreshed) ltac:(rewrite Hrc; lia)) as [Hq1 Hq2].
  split; [|split; [|split; [exact Hrc | split; [exact Hq1 | exact Hq2]]]].
  - rewrite !relayouts_app.
    change (ReLayoutFromIndex index (getSize dp) :: trace refreshed)
      with ([ReLayoutFromIndex index (getSize dp)] ++ trace refreshed).
    rewrite relayouts_app, Hrl.
    destruct Hreached as [-> | ->], (_pendingScrollToOffset s1) as [offset|];
      try destruct (isHorizontal (props s1)); reflexivity.
  - rewrite !refreshRequests_app.
    change (ReLayoutFromIndex index (getSize dp) :: trace refreshed)
      with ([ReLayoutFromIndex index (getSize dp)] ++ trace refreshed).
    rewrite refreshRequests_app, (Hrq Hres).
    destruct Hreached as [-> | ->], (_pendingScrollToOffset s1) as [offset|];
      try destruct (isHorizontal (props s1)); reflexivity.
Qed.

Lemma rendering_frame_fields (s : RecyclerListView) :
  props (final (render s)) = props s /\
  renderStack (final (render s)) = renderStack s /\
  _virtualRenderer (final (render s)) = _virtualRenderer s /\
  _initComplete (final (render s)) = _initComplete s.
Proof.
  unfold render, _generateRenderStack.
  rewrite bind_this, bind_run, bind_this.
  destruct (renderAll_frame (renderStack s) s) as (_ & Hu & _). cbv zeta in Hu.
  apply unrendered_fields in Hu.
  destruct (result (renderAll (renderStack s) s)); cbn [result final trace ret];
    exact Hu.
Qed.

(** X26: the component is initialised once and the cached layouts can only
    be used then.  No method but [_onSizeChanged] writes [_initComplete],
    [_onSizeChanged] never clears it, and once it is set, every layout
    manager created by [_onSizeChanged], [componentWillReceiveProps] or
    [componentDidUpdate] is created without cached layouts. *)
Theorem initialised_once (s : RecyclerListView) (layout : Dimension)
    (newProps : RecyclerListViewProps) (dim : Dimension) (index : Z)
    (offsetX offsetY : Z) (rawEvent : ScrollEvent) :
  (preserves _initComplete (componentWillReceiveProps newProps) /\
   preserves _initComplete componentDidUpdate /\
   preserves _initComplete render /\
   preserves _initComplete (_onScroll offsetX offsetY rawEvent) /\
   preserves _initComplete (_onViewContainerSizeChange dim index) /\
   preserves _initComplete componentWillMount /\
   preserves _initComplete componentWillUnmount) /\
  (_initComplete s = true ->
   _initComplete (final (_onSizeChanged layout s)) = true /\
   Forall withoutCache (trace (_onSizeChanged layout s)) /\
   Forall withoutCache (trace (componentWillReceiveProps newProps s)) /\
   Forall withoutCache (trace (componentDidUpdate s))).
Proof.
  split.
  - repeat split.
    + unfold componentWillReceiveProps, _assertDependencyPresence, _checkAndChangeLayouts,
        deref, installLayoutManager, callReLayoutFromIndex, _refreshViewability,
        _queueStateRefresh, onRendererCb, onRenderer. pres.
    + unfold componentDidUpdate, _processOnEndReached, _checkAndChangeLayouts,
        deref, installLayoutManager, callReLayoutFromIndex, _refreshViewability,
        _queueStateRefresh, onRendererCb, onRenderer. pres.
    + intros st. destruct (rendering_frame_fields st) as (_ & _ & _ & H). exact H.
    + unfold _onScroll, _processOnEndReached, onRendererCb. pres.
    + unfold _onViewContainerSizeChange, require, onRenderer, markForRelayout,
        _queueStateRefresh. pres.
    + unfold componentWillMount. pres.
    + unfold componentWillUnmount. pres.
  - intros Hinit.
    assert (Hcheck : forall p force,
              emitsOnly withoutCache (_checkAndChangeLayouts p force)).
    { intros p force.
      unfold _checkAndChangeLayouts, deref, installLayoutManager, callReLayoutFromIndex,
        _refreshViewability, _queueStateRefresh, onRendererCb, onRenderer. eo. }
    assert (Hrefresh : emitsOnly withoutCache _refreshViewability).
    { unfold _refreshViewability, _queueStateRefresh, onRendererCb. eo. }
    split; [|split; [|split]].
    + unfold _onSizeChanged. rewrite bind_this, bind_modify.
      destruct (_ || _); [exact Hinit|]. rewrite Hinit. cbn [negb].
      match goal with |- _initComplete (final (?m ?st)) = true =>
        assert (H : preserves _initComplete m); [| rewrite (H st); exact Hinit]
      end.
      unfold _checkAndChangeLayouts, deref, installLayoutManager, callReLayoutFromIndex,
        _refreshViewability, _queueStateRefresh, onRendererCb, onRenderer. pres.
    + unfold _onSizeChanged. rewrite bind_this, bind_modify.
      destruct (_ || _); [constructor|]. rewrite Hinit. cbn [negb].
      match goal with |- context [if ?b then _ else _] => destruct b end.
      * apply Hcheck.
      * match goal with |- Forall _ (trace (?m ?st)) =>
          assert (H : emitsOnly withoutCache m); [| exact (H st)]
        end.
        apply eo_bind; [apply eo_modify | intros _; exact Hrefresh].
    + match goal with |- Forall _ (trace (?m s)) =>
        assert (H : emitsOnly withoutCache m); [| exact (H s)]
      end.
      unfold componentWillReceiveProps, _assertDependencyPresence, _checkAndChangeLayouts,
        deref, installLayoutManager, callReLayoutFromIndex, _refreshViewability,
        _queueStateRefresh, onRendererCb, onRenderer. eo.
    + match goal with |- Forall _ (trace (?m s)) =>
        assert (H : emitsOnly withoutCache m); [| exact (H s)]
      end.
      unfold componentDidUpdate, _processOnEndReached, _checkAndChangeLayouts,
        deref, installLayoutManager, callReLayoutFromIndex, _refreshViewability,
        _queueStateRefresh, onRendererCb, onRenderer. eo.
Qed.

(** *** The debounced state refresh *)

Lemma last_default {A} (l : list A) (x d d' : A) :
  List.last (x :: l) d = List.last (x :: l) d'.
Proof.
  revert x. induction l as [|y l IH]; intros x; [reflexivity|].
  change (List.last (y :: l) d = List.last (y :: l) d'). apply IH.
Qed.

(** Further requests while the timer of a trailing-edge debouncer runs: none
    of them runs, the last one is the pending one and the timer is left as
    it is. *)
Lemma debounce_pending {A} (time due : Z) (l : list A) :
  forall a : A,
  Debounce.run (Debounce.mkDebounced Debounce.defaults (Some a) (Some time) (Some due))
               (Debounce.Request time <$> l)
  = (Debounce.mkDebounced Debounce.defaults (Some (List.last l a)) (Some time)
                          (Some due), []).
Proof.
  induction l as [|b l IH]; intros a; [reflexivity|].
  cbn [fmap list_fmap Debounce.run Debounce.step Debounce.request Debounce.timerDue
       Debounce.options fst snd app].
  rewrite IH. cbn [fst snd]. destruct l as [|c l]; [reflexivity|].
  rewrite (last_default l c b a). reflexivity.
Qed.

(** A burst of requests on the debouncer of the source, idle before: nothing
    runs while they arrive; the timer is due at once and the last request is
    the pending one. *)
Lemma debounce_burst {A} (d : Debounce.Debounced A) (time : Z) (first : A)
    (rest : list A) :
  Debounce.options d = Debounce.defaults ->
  Debounce.idle d ->
  Debounce.run d (Debounce.Request time <$> (first :: rest))
  = (Debounce.mkDebounced Debounce.defaults (Some (List.last rest first)) (Some time)
                          (Some time), []).
Proof.
  intros Ho [Hargs Htimer].
  change (Debounce.Request time <$> first :: rest)
    with (Debounce.Request time first :: (Debounce.Request time <$> rest)).
  cbn [Debounce.run Debounce.step]. unfold Debounce.request.
  rewrite Htimer, Ho. cbn [Debounce.onLeading Debounce.defaults Debounce.wait].
  rewrite andb_false_r, Z.add_0_r. cbn [fst snd app].
  rewrite debounce_pending. reflexivity.
Qed.

(** When the event loop is next free, the pending request runs and the
    debouncer is idle again. *)
Lemma debounce_flush {A} (a : A) (time later : Z) :
  time <= later ->
  Debounce.run (Debounce.mkDebounced Debounce.defaults (Some a) (Some time) (Some time))
               [Debounce.Idle later]
  = (Debounce.mkDebounced Debounce.defaults None (Some time) None, [a]).
Proof.
  intros Hle.
  cbn [Debounce.run Debounce.step Debounce.timerDue].
  destruct (Z.leb_spec time later); [|lia].
  unfold Debounce.timerExpired, Debounce.shouldInvoke.
  cbn [Debounce.lastCallTime Debounce.options Debounce.defaults Debounce.wait
       Debounce.onTrailing Debounce.lastArgs from_option fst snd app].
  destruct (Z.leb_spec 0 (later - time)); [|lia]. reflexivity.
Qed.

Lemma refreshInputs_burst (time : Z) (notifications : list (Dimension * Z)) :
  refreshInputs time
    (flat_map (fun n => [OverrideLayout n.2 n.1; RefreshRequest]) notifications)
  = (fun _ => Debounce.Request time SetState) <$> notifications.
Proof.
  induction notifications as [|n rest IH]; [reflexivity|].
  cbn [flat_map app]. unfold refreshInputs in *. cbn [omap list_omap].
  cbn. f_equal. exact IH.
Qed.

(** C8 (as amended): the debouncer of the state refresh runs on the
    trailing edge.  A burst of item-resize notifications hands it one
    request each; none of them runs while the burst lasts, the first
    included; when the event loop is next free exactly one [setState] runs
    and the debouncer is idle again.  With a delay, a request made before
    the timer is due moves the window: the timer runs nothing when it first
    expires, and the request made last runs once its own delay has
    passed. *)
Theorem refresh_burst_coalesced `{!CollaboratorLaws C} (s : RecyclerListView)
    (first : Dimension * Z) (rest : list (Dimension * Z))
    (d : Debounce.Debounced Event) (time later : Z) :
  hasLayoutManager (_virtualRenderer s) = true ->
  Debounce.options d = Debounce.options (refreshRequestDebouncer (A := Event)) ->
  Debounce.idle d ->
  time <= later ->
  let burst := resizeAll (first :: rest) s in
  let requests := refreshInputs time (trace burst) in
  let queued := Debounce.run d requests in
  let flushed := Debounce.run (fst queued) [Debounce.Idle later] in
  length requests = length (first :: rest) /\
  snd queued = [] /\
  snd flushed = [SetState] /\
  Debounce.idle (fst flushed) /\
  (forall (w t1 t2 t t' : Z) (a1 a2 : Event),
     t1 <= t2 < t1 + w -> t1 + w <= t < t2 + w -> t2 + w <= t' ->
     let delayed := Debounce.debounce (Debounce.mkOptions w false true) in
     snd (Debounce.run delayed
            [Debounce.Request t1 a1; Debounce.Request t2 a2; Debounce.Idle t]) = [] /\
     snd (Debounce.run delayed
            [Debounce.Request t1 a1; Debounce.Request t2 a2; Debounce.Idle t;
             Debounce.Idle t']) = [a2]).
Proof.
  intros Hlm Ho Hidle Hle. cbv zeta.
  destruct (resizeAll_renderer (first :: rest) s Hlm) as (_ & _ & _ & Ht).
  cbv zeta in Ht. rewrite Ht, refreshInputs_burst.
  split; [rewrite length_fmap; reflexivity|].
  assert (Hq : Debounce.run d ((fun _ => Debounce.Request time SetState)
                                 <$> (first :: rest))
               = (Debounce.mkDebounced Debounce.defaults (Some SetState) (Some time)
                                       (Some time), [])).
  { replace ((fun _ : Dimension * Z => Debounce.Request time SetState)
               <$> (first :: rest))
      with (Debounce.Request time <$> (SetState :: ((fun _ => SetState) <$> rest))).
    - rewrite (debounce_burst d time SetState _ Ho Hidle). f_equal. f_equal.
      clear. induction rest as [|n rest IH]; [reflexivity|].
      cbn [fmap list_fmap]. destruct rest; [reflexivity | exact IH].
    - cbn [fmap list_fmap]. f_equal. clear.
      induction rest as [|n rest IH]; [reflexivity|]. cbn. f_equal. exact IH. }
  rewrite Hq. cbn [fst snd]. rewrite (debounce_flush SetState time later Hle).
  cbn [fst snd]. split; [reflexivity|]. split; [reflexivity|].
  split; [split; reflexivity|].
  intros w t1 t2 t t' a1 a2 H12 Ht1 Ht2. cbv zeta.
  cbn.
  destruct (Z.leb_spec (t1 + w) t); [|lia].
  unfold Debounce.timerExpired, Debounce.shouldInvoke. cbn.
  destruct (Z.leb_spec w (t - t2)); [lia|].
  destruct (Z.ltb_spec (t - t2) 0); [lia|]. cbn.
  split; [reflexivity|].
  destruct (Z.leb_spec (t2 + w) t'); [|lia].
  unfold Debounce.timerExpired, Debounce.shouldInvoke. cbn.
  destruct (Z.leb_spec w (t' - t2)); [|lia]. reflexivity.
Qed.

End Properties.

(** ** Properties decided inside the collaborators

    The range check of [getOffsetForIndex] and the visibility delta live in
    the layout manager and in the viewability tracker; they are stated on the
    reference implementation of module [Engine]. *)

Section OnTheReferenceEngine.

Import Engine.

#[local] Existing Instance collaborators.

Lemma engine_laws : CollaboratorLaws collaborators.
Proof.
  split; intros v; intros; cbn in *.
  - unfold onLayoutManager. destruct (e_layoutManager v); [reflexivity | discriminate].
  - assumption.
Qed.

Lemma store_laws : ContextProviderLaws collaborators.
Proof.
  split; intros; cbn; [apply lookup_insert_eq | reflexivity].
Qed.

Lemma store_keys : ContextProviderKeys collaborators.
Proof. split; intros c k k' v Hne; cbn. apply lookup_insert_ne. congruence. Qed.

(** The reference layout manager refuses an index outside
    [0, itemCount). *)
Lemma getOffsetForIndex_outside (e : Renderer) (index : Z) :
  hasLayoutManager e = true ->
  index < 0 \/ itemCount e <= index ->
  getOffsetForIndex e index = inl OutOfRange.
Proof.
  intros Hlm Hi. cbn in *. unfold itemCount in Hi.
  destruct (e_layoutManager e) as [le|]; [|discriminate Hlm].
  cbn in *. unfold offsetForIndex.
  destruct (Z.ltb_spec index 0); [reflexivity|].
  destruct (Z.leb_spec (le_itemCount le) index); [reflexivity | lia].
Qed.

(** A window query, [init()] and the start of the tracker leave the layout
    engine alone. *)
Lemma track_layoutManager (e : Renderer) :
  e_layoutManager (fst (track e)) = e_layoutManager e.
Proof.
  unfold track. destruct (e_tracker e) as [t|]; [|reflexivity].
  destruct (t_running t); reflexivity.
Qed.

Lemma initialise_layoutManager (e : Renderer) :
  e_layoutManager (fst (initialise e)) = e_layoutManager e.
Proof. unfold initialise. rewrite track_layoutManager. reflexivity. Qed.

Lemma started_layoutManager (e : Renderer) :
  e_layoutManager (fst (started e)) = e_layoutManager e.
Proof.
  unfold started. destruct (e_tracker e) as [t|]; [|reflexivity].
  rewrite track_layoutManager. reflexivity.
Qed.

Lemma newLayoutEngine_itemCount (o : option Oracle) (window : Dimension)
    (h : bool) (cached : option (list Rect)) (itemCount : Z) :
  le_itemCount (newLayoutEngine o window h cached itemCount) = itemCount.
Proof. destruct cached; reflexivity. Qed.

Lemma hasLayoutManager_Some (e : Renderer) (le : LayoutEngine) :
  e_layoutManager e = Some le -> hasLayoutManager e = true.
Proof. intros H. cbn. rewrite H. reflexivity. Qed.

(** The first viewport leaves a layout engine, for as many items as the
    data provider has, whatever Layout array it imported. *)
Lemma first_size_layoutManager (s : RecyclerListView) (layout : Dimension)
    (dp : DataProvider) (lp : LayoutProvider) :
  _initComplete s = false ->
  height layout <> 0 -> width layout <> 0 ->
  dataProvider (props s) = Some dp ->
  layoutProvider (props s) = Some lp ->
  exists le,
    e_layoutManager (_virtualRenderer (final (_onSizeChanged layout s))) = Some le /\
    le_itemCount le = getSize dp.
Proof.
  intros Hinit Hh Hw Hdp Hlp.
  destruct (first_size_fields s layout dp lp Hinit Hh Hw Hdp Hlp)
    as (_ & _ & _ & Hv & _).
  cbv zeta in Hv.
  assert (Hsame : e_layoutManager (_virtualRenderer (final (_onSizeChanged layout s)))
                  = e_layoutManager (initialised (sized layout s) dp)).
  { destruct Hv as [-> | ->]; [reflexivity|]. apply started_layoutManager. }
  rewrite Hsame. unfold initialised.
  change (vr_init ?v) with (initialise v).
  rewrite initialise_layoutManager.
  unfold readyToInit. cbn. eexists. split; [reflexivity|].
  apply newLayoutEngine_itemCount.
Qed.

(** C5 (as amended): [scrollToIndex] with an index below 0 or not below the
    layout manager's item count.  Once there is a layout manager it ends
    with the layout manager's [OutOfRange] error, handed to the caller, and
    leaves the component as it was: no field is written and nothing is
    called, the scroll component included; [scrollToEnd] on an empty data
    provider asks for index -1 and ends the same way.  While there is no
    layout manager yet it reports no error: it logs the warning and returns,
    the component as it was.  The item count is the size of the data
    provider when the layout manager is the one the first viewport created,
    whatever Layout array it imported. *)
Theorem scrollToIndex_out_of_range (s : RecyclerListView) (index : Z)
    (animate : bool) :
  index < 0 \/ itemCount (_virtualRenderer s) <= index ->
  (hasLayoutManager (_virtualRenderer s) = true ->
   scrollToIndex index animate s = mkOutcome s [] (inl OutOfRange)
   /\ (forall dp, dataProvider (props s) = Some dp -> getSize dp = 0 ->
       scrollToEnd animate s = mkOutcome s [] (inl OutOfRange)))
  /\ (hasLayoutManager (_virtualRenderer s) = false ->
      scrollToIndex index animate s = mkOutcome s [Warn] (inr tt))
  /\ (forall s0 layout dp lp,
      _initComplete s0 = false ->
      height layout <> 0 -> width layout <> 0 ->
      dataProvider (props s0) = Some dp ->
      layoutProvider (props s0) = Some lp ->
      s = final (_onSizeChanged layout s0) ->
      hasLayoutManager (_virtualRenderer s) = true /\
      itemCount (_virtualRenderer s) = getSize dp).
Proof.
  intros Hout.
  split; [|split].
  - intros Hlm. split.
    + apply scrollToIndex_propagates;
        [exact Hlm | apply getOffsetForIndex_outside; assumption].
    + intros dp Hdp Hsize. unfold scrollToEnd.
      rewrite bind_this, Hdp. cbn [deref]. rewrite bind_ret, Hsize.
      apply scrollToIndex_propagates; [exact Hlm|].
      apply getOffsetForIndex_outside; [exact Hlm | left; lia].
  - intros Hlm. unfold scrollToIndex. rewrite bind_this, Hlm. reflexivity.
  - intros s0 layout dp lp Hinit Hh Hw Hdp Hlp ->.
    destruct (first_size_layoutManager s0 layout dp lp) as (le & Hle & Hcount);
      try assumption.
    split.
    + apply (hasLayoutManager_Some _ le), Hle.
    + unfold itemCount. rewrite Hle. exact Hcount.
Qed.






End OnTheReferenceEngine.

(** ** The properties at work on the concrete list *)

Section OnTheConcreteList.

Import Engine Scenario.

#[local] Existing Instance collaborators.


(** C2, counterexample to the claim as stated: row 3 is laid out 40 high
    where its type declares 50; the check, called directly or through the
    rendering of the row, sets the cursor, from -1 to the row's index. *)
Lemma smaller_rectangle_sets_cursor :
  let measured := mkRect 0 150 40 50 in
  let row := mkItem (Some "3"%string) (Some 3) in
  js_index (getLayouts (_virtualRenderer resized)) 3 = Some measured /\
  declaredSize resized (mkOracle 1 (uniformTable 100)) (TNumber 0) 3
    = mkDimension 50 50 /\
  _relayoutReqIndex resized = -1 /\
  _relayoutReqIndex
    (final (_checkExpectedDimensionDiscrepancy (Some measured) (TNumber 0) 3 resized))
    = 3 /\
  _relayoutReqIndex (final (_renderRowUsingMeta row resized)) = 3.
Proof. cbn zeta. repeat split; vm_compute; reflexivity. Qed.

Lemma dimension_discrepancy_marks_witness :
  let s := mounted plainProps in
  let o := _checkExpectedDimensionDiscrepancy
             (Some (mkRect 0 150 50 60)) (TNumber 0) 3 s in
  hasLayoutManager (_virtualRenderer s) = true /\
  result o = inr tt /\
  _tempDim (final o) = mkDimension 50 50 /\
  _relayoutReqIndex (final o) = 3.
Proof.
  cbn zeta. split; [vm_compute; reflexivity|].
  pose proof (dimension_discrepancy_marks (mounted plainProps)
                (mkOracle 1 (uniformTable 100)) (mkRect 0 150 50 60) (TNumber 0) 3
                ltac:(vm_compute; reflexivity) ltac:(vm_compute; reflexivity)) as H.
  cbn zeta in H. destruct H as (Hr & Ht & Hc).
  split; [exact Hr|]. split.
  - rewrite Ht. vm_compute. reflexivity.
  - rewrite Hc. vm_compute. reflexivity.
Defined.

Lemma resize_burst_then_flush_witness :
  let s := mounted plainProps in
  let d := mkDimension 60 50 in
  let burst := resizeAll [(d, 5); (d, 2); (d, 7)] s in
  let flush := _checkAndChangeLayouts (props s) false (final burst) in
  _relayoutReqIndex s = -1 /\
  result burst = inr tt /\
  _relayoutReqIndex (final burst) = 2 /\
  relayouts (trace flush) = [(2, 100)] /\
  _relayoutReqIndex (final flush) = -1 /\
  js_index (getLayouts (_virtualRenderer (final burst))) 3 = Some (mkRect 0 150 50 50) /\
  js_index (getLayouts (_virtualRenderer (final flush))) 3 = Some (mkRect 0 160 50 50).
Proof.
  cbn zeta. split; [vm_compute; reflexivity|].
  pose proof (resize_burst_then_flush (CollaboratorLaws0 := engine_laws)
                (mounted plainProps) (mkDimension 60 50, 5)
                [(mkDimension 60 50, 2); (mkDimension 60 50, 7)]
                (props (mounted plainProps)) hundredRows
                ltac:(vm_compute; reflexivity) ltac:(vm_compute; reflexivity)
                ltac:(repeat constructor; cbn; lia)
                eq_refl eq_refl eq_refl ltac:(vm_compute; reflexivity)) as H.
  cbv zeta in H. destruct H as (Hr & Htold & Hlow & Hre & Hcur & Hflush).
  split; [exact Hr|]. split; [exact Hlow|]. split; [exact Hre|].
  split; [exact Hcur|]. split.
  - rewrite Htold. vm_compute. reflexivity.
  - rewrite Hflush. vm_compute. reflexivity.
Defined.

(** C4, counterexample to the claim as stated: the same list, torn down and
    re-created with a context provider but without
    [forceNonDeterministicRendering]; the old layout manager had a hundred
    rectangles and the new one is handed none. *)
Lemma layouts_not_cached_without_flag :
  let old := mounted (listProps (uniformTable 100) (Some emptyStore) false) in
  length (getLayouts (_virtualRenderer old)) = 100%nat /\
  newLayoutManagers (trace (recreate false)) = [None].
Proof. cbn zeta. split; vm_compute; reflexivity. Qed.

Lemma cached_layouts_round_trip_witness :
  let old := mounted (listProps (uniformTable 100) (Some emptyStore) true) in
  let torn := final (componentWillUnmount old) in
  let fresh := final (componentWillMount (constructor (recreatedProps true torn))) in
  length (getLayouts (_virtualRenderer old)) = 100%nat /\
  _cachedLayouts fresh = Some (getLayouts (_virtualRenderer old)) /\
  newLayoutManagers (trace (_onSizeChanged viewport300 fresh))
    = [Some (getLayouts (_virtualRenderer old))].
Proof.
  cbn zeta. split; [vm_compute; reflexivity|].
  apply (cached_layouts_round_trip (ContextProviderLaws0 := store_laws)
           (mounted (listProps (uniformTable 100) (Some emptyStore) true))
           emptyStore "list"
           (recreatedProps true
              (final (componentWillUnmount
                        (mounted (listProps (uniformTable 100) (Some emptyStore) true)))))
           viewport300 hundredRows (mkOracle 1 (uniformTable 100))).
  all: try (vm_compute; reflexivity).
  all: vm_compute; discriminate.
Defined.

Lemma scrollToIndex_out_of_range_witness :
  let s := staleCache in
  getSize fiftyRows = 50 /\
  length (getLayouts (_virtualRenderer s)) = 100%nat /\
  itemCount (_virtualRenderer s) = 50 /\
  scrollToIndex 70 true s = mkOutcome s [] (inl OutOfRange) /\
  scrollToIndex (-1) true s = mkOutcome s [] (inl OutOfRange).
Proof.
  cbn zeta. split; [vm_compute; reflexivity|].
  split; [vm_compute; reflexivity|]. split; [vm_compute; reflexivity|].
  assert (Hlm : hasLayoutManager (_virtualRenderer staleCache) = true)
    by (vm_compute; reflexivity).
  split.
  - apply (scrollToIndex_out_of_range staleCache 70 true);
      [right; vm_compute; discriminate | exact Hlm].
  - apply (scrollToIndex_out_of_range staleCache (-1) true); [left; lia | exact Hlm].
Defined.

(** C5, counterexample to the claim as stated: on the list of a hundred rows
    before its first viewport, while there is no layout manager yet,
    [scrollToIndex] with index 100 reports no error; it logs a warning and
    returns. *)
Lemma scrollToIndex_unreported_before_layout :
  let s := constructor plainProps in
  let o := scrollToIndex 100 true s in
  getSize hundredRows = 100 /\
  result o = inr tt /\
  trace o = [Warn].
Proof. cbn zeta. split; [vm_compute; reflexivity|]. split; reflexivity. Qed.

(** C6, counterexample to the claim as stated: the empty string is a
    defined type, and [_assertType] throws on it. *)
Lemma empty_string_type_rejected :
  result (_assertType (TString "") (constructor plainProps))
    = inl ItemTypeNullException.
Proof. vm_compute. reflexivity. Qed.

Lemma assertType_guard_witness :
  let s := mounted shortProps in
  let item := mkItem (Some "5"%string) (Some 5) in
  getLayoutTypeForIndex (mkOracle 1 (uniformTable 3)) 5 = TUndefined /\
  _renderRowUsingMeta item s = mkOutcome s [] (inl ItemTypeNullException).
Proof.
  cbn zeta. split; [vm_compute; reflexivity|].
  apply (assertType_guard (mounted shortProps) (mkItem (Some "5"%string) (Some 5))
           hundredRows (mkOracle 1 (uniformTable 3)) 5).
  - vm_compute; reflexivity.
  - vm_compute; reflexivity.
  - vm_compute; reflexivity.
  - reflexivity.
  - discriminate.
  - vm_compute; reflexivity.
  - left. vm_compute; reflexivity.
Defined.



Lemma renderRow_null_witness :
  let s := mounted plainProps in
  let item := mkItem (Some "0"%string) (Some 0) in
  renderStack s !! 0%nat = Some ("0"%string, item) /\
  _renderRowUsingMeta item s = mkOutcome s [] (inr None).
Proof.
  cbn zeta. split; [vm_compute; reflexivity|].
  apply (renderRow_null (mounted plainProps) (mkItem (Some "0"%string) (Some 0))
           hundredRows).
  - vm_compute; reflexivity.
  - right. left. reflexivity.
Defined.

Lemma scrollToIndex_before_layout_witness :
  let s := constructor plainProps in
  scrollToIndex 5 true s = mkOutcome s [Warn] (inr tt).
Proof.
  cbn zeta. apply (scrollToIndex_before_layout (constructor plainProps) 5 true).
  vm_compute; reflexivity.
Defined.

Lemma first_size_without_providers_witness :
  let o := _onSizeChanged viewport300 (constructor noDataProps) in
  result o = inl UnresolvedDependenciesException /\
  trace o = [] /\
  _virtualRenderer (final o) = _virtualRenderer (constructor noDataProps).
Proof.
  cbn zeta. apply (first_size_without_providers (constructor noDataProps) viewport300).
  - reflexivity.
  - vm_compute; discriminate.
  - vm_compute; discriminate.
  - left. reflexivity.
Defined.

Lemma resize_recreates_layout_manager_witness :
  let wider := _onSizeChanged (mkDimension 300 400) (mounted plainProps) in
  let taller := _onSizeChanged (mkDimension 500 300) (mounted plainProps) in
  newLayoutManagers (trace wider) = [None] /\
  refreshRequests (trace wider) = 0%nat /\
  newLayoutManagers (trace taller) = [] /\
  refreshRequests (trace taller) = 1%nat /\
  t_visible <$> e_tracker (_virtualRenderer (final taller))
    = Some [0; 1; 2; 3; 4; 5; 6; 7; 8; 9] /\
  visibilityCalls (trace taller)
    = [([0; 1; 2; 3; 4; 5; 6; 7; 8; 9], [6; 7; 8; 9], [])].
Proof.
  cbn zeta.
  pose proof (resize_recreates_layout_manager (mounted plainProps)
                (mkDimension 300 400) hundredRows
                ltac:(vm_compute; reflexivity) ltac:(vm_compute; discriminate)
                ltac:(vm_compute; discriminate) ltac:(vm_compute; reflexivity)) as Hw.
  pose proof (resize_recreates_layout_manager (mounted plainProps)
                (mkDimension 500 300) hundredRows
                ltac:(vm_compute; reflexivity) ltac:(vm_compute; discriminate)
                ltac:(vm_compute; discriminate) ltac:(vm_compute; reflexivity)) as Ht.
  cbv zeta in Hw, Ht.
  destruct Hw as (Hnew & _ & _ & _ & Hcross & _).
  destruct Ht as (Hnone & _ & _ & _ & _ & Hsame).
  destruct (Hcross ltac:(vm_compute; reflexivity)) as (Hzero & _).
  destruct (Hsame ltac:(vm_compute; reflexivity)) as (_ & Hv & Hone).
  split; [rewrite Hnew; vm_compute; reflexivity|]. split; [exact Hzero|].
  split; [rewrite Hnone; vm_compute; reflexivity|].
  split; [apply Hone; vm_compute; reflexivity|]. split.
  - rewrite Hv. vm_compute. reflexivity.
  - vm_compute. reflexivity.
Defined.

(** The latch on the concrete list, which ends 4700 below the top of the
    last viewport: scrolling into the end region fires once, staying there
    does not fire again, and coming back after leaving fires again. *)
Example latch_on_the_list :
  latchRun false [scrolledTo 100; scrolledTo 4700; scrolledTo 4710;
                  scrolledTo 100; scrolledTo 4700]
    = [false; true; false; false; true].
Proof. vm_compute. reflexivity. Qed.

Lemma checkAndChangeLayouts_params_witness :
  let o := _checkAndChangeLayouts eagerProps false (mounted plainProps) in
  renderAheadOffset eagerProps = 999 /\
  p_renderAheadOffset (_params (final o)) = 100 /\
  renderAheadOffset (props (final o)) = 100.
Proof.
  cbn zeta. split; [reflexivity|].
  pose proof (checkAndChangeLayouts_params (mounted plainProps) eagerProps false
                hundredRows eq_refl) as H.
  cbv zeta in H. destruct H as (_ & Hahead & Hprops & _).
  split.
  - rewrite Hahead. vm_compute. reflexivity.
  - rewrite Hprops. vm_compute. reflexivity.
Defined.

Lemma data_change_relayouts_from_first_dirty_witness :
  let o := _checkAndChangeLayouts grownProps false (mounted plainProps) in
  relayouts (trace o) = [(100, 120)] /\
  newLayoutManagers (trace o) = [] /\
  refreshRequests (trace o) = 0%nat /\
  _relayoutReqIndex (final o) = -1.
Proof.
  cbn zeta.
  pose proof (data_change_relayouts_from_first_dirty (CollaboratorLaws0 := engine_laws)
                (mounted plainProps) grownProps moreRows eq_refl
                ltac:(vm_compute; discriminate) ltac:(vm_compute; reflexivity)
                ltac:(vm_compute; reflexivity) ltac:(vm_compute; reflexivity)) as H.
  cbv zeta in H. destruct H as (Hr & Hn & Hq & Hc).
  split; [exact Hr|]. split; [exact Hn|]. split; [exact Hq|].
  rewrite Hc. vm_compute. reflexivity.
Defined.

Lemma layout_change_recreates_witness :
  let s := final (_onViewContainerSizeChange (mkDimension 40 50) 3 (mounted plainProps)) in
  let o := _checkAndChangeLayouts otherLayoutProps false s in
  _relayoutReqIndex s = 3 /\
  newLayoutManagers (trace o) = [None] /\
  relayouts (trace o) = [] /\
  _relayoutReqIndex (final o) = 3.
Proof.
  cbn zeta. split; [vm_compute; reflexivity|].
  pose proof (layout_change_recreates
                (final (_onViewContainerSizeChange (mkDimension 40 50) 3
                          (mounted plainProps)))
                otherLayoutProps false hundredRows eq_refl
                ltac:(right; left; vm_compute; discriminate)) as H.
  cbv zeta in H. destruct H as (Hn & Hr & _ & Hc).
  split; [exact Hn|]. split; [exact Hr|].
  rewrite Hc. vm_compute. reflexivity.
Defined.

Lemma scrollToItem_first_match_witness :
  let s := attached (mounted namedProps) in
  scrollToItem (C := collaborators) String.eqb "b"%string true s = scrollToIndex 1 true s /\
  scrollCalls (trace (scrollToIndex 1 true s)) = [(0, 50, true)] /\
  scrollToItem (C := collaborators) String.eqb "z"%string true s = mkOutcome s [] (inr tt).
Proof.
  cbn zeta. split; [|split].
  - apply (scrollToItem_first_match (C := collaborators) String.eqb (attached (mounted namedProps))
             namedRows "b"%string true ltac:(vm_compute; reflexivity)).
    + change (getSize (Collaborators := collaborators) namedRows) with 4. lia.
    + vm_compute. reflexivity.
    + intros j Hj. assert (j = 0) as -> by lia. vm_compute. reflexivity.
  - vm_compute. reflexivity.
  - apply (scrollToItem_first_match (C := collaborators) String.eqb (attached (mounted namedProps))
             namedRows "z"%string true ltac:(vm_compute; reflexivity)).
    intros j Hj. change (getSize (Collaborators := collaborators) namedRows) with 4 in Hj.
    assert (j = 0 \/ j = 1 \/ j = 2 \/ j = 3) as [-> | [-> | [-> | ->]]] by lia;
      vm_compute; reflexivity.
Defined.

Lemma onScroll_forwards_witness :
  let o := _onScroll 0 500 tt (mounted plainProps) in
  result o = inr tt /\
  getLastOffset (_virtualRenderer (final o)) = 500 /\
  onScrollCalls (trace o) = [(tt, 0, 500)].
Proof.
  cbn zeta.
  pose proof (onScroll_forwards (mounted plainProps) 0 500 tt
                ltac:(vm_compute; reflexivity)) as H.
  cbv zeta in H. destruct H as (Hv & Hcalls & _).
  split; [vm_compute; reflexivity|]. split.
  - rewrite Hv. vm_compute. reflexivity.
  - rewrite Hcalls. vm_compute. reflexivity.
Defined.

Lemma observer_without_prop_fails_witness :
  let o := _onScroll 0 500 tt unobserved in
  e_listener (_virtualRenderer unobserved) = true /\
  result o = inl TypeError /\
  visibilityCalls (trace o) = [] /\
  onScrollCalls (trace o) = [] /\
  endReachedCalls (trace o) = 0%nat.
Proof.
  cbn zeta. split; [vm_compute; reflexivity|].
  apply (observer_without_prop_fails unobserved 0 500 tt).
  - vm_compute. reflexivity.
  - vm_compute. discriminate.
Defined.

Lemma render_rows_witness :
  let s := mounted plainProps in
  let scroll := returned (mkScroll 0 0 []) (result (render s)) in
  length (renderStack s) = 9%nat /\
  Forall2 (fun slot row => rowOf s hundredRows (mkOracle 1 (uniformTable 100)) slot.2 row)
          (renderStack s) (children scroll) /\
  contentHeight scroll = 5000 /\
  contentWidth scroll = 50.
Proof.
  cbn zeta. split; [vm_compute; reflexivity|].
  pose proof (render_rows (mounted plainProps) hundredRows
                (mkOracle 1 (uniformTable 100))
                (returned (mkScroll 0 0 []) (result (render (mounted plainProps))))
                ltac:(vm_compute; reflexivity) ltac:(vm_compute; reflexivity)
                ltac:(apply returned_spec; vm_compute; reflexivity)) as H.
  destruct H as (Hrows & Hh & Hw).
  split; [exact Hrows|]. split.
  - rewrite Hh. vm_compute. reflexivity.
  - rewrite Hw. vm_compute. reflexivity.
Defined.

Lemma render_missing_rectangle_witness :
  let s := constructor plainProps in
  let o := _renderRowUsingMeta (mkItem (Some "3"%string) (Some 3)) s in
  hasLayoutManager (_virtualRenderer s) = false /\
  result o = inl TypeError /\
  _relayoutReqIndex (final o) = -1.
Proof.
  cbn zeta. split; [vm_compute; reflexivity|].
  apply (render_missing_rectangle (constructor plainProps) hundredRows
           (mkOracle 1 (uniformTable 100)) (mkItem (Some "3"%string) (Some 3)) 3).
  - reflexivity.
  - reflexivity.
  - reflexivity.
  - discriminate.
  - vm_compute. reflexivity.
  - intros [H | [H | [H | H]]]; vm_compute in H; discriminate H.
  - left. vm_compute. reflexivity.
Defined.

Lemma first_size_initialises_witness :
  let s := constructor indexProps in
  let o := _onSizeChanged viewport300 s in
  result o = inr tt /\
  _initComplete (final o) = true /\
  _layout (final o) = viewport300 /\
  p_initialOffset (initialParams s hundredRows) = 0 /\
  p_initialOffset (_params (final o)) = 200 /\
  _cachedLayouts (final o) = None.
Proof.
  cbn zeta. split; [vm_compute; reflexivity|].
  pose proof (first_size_initialises (constructor indexProps) viewport300
                hundredRows (mkOracle 1 (uniformTable 100)) eq_refl
                ltac:(vm_compute; discriminate) ltac:(vm_compute; discriminate)
                eq_refl eq_refl) as H.
  cbv zeta in H. destruct H as (Hinit & Hlayout & _ & _ & Hok).
  destruct (Hok ltac:(vm_compute; reflexivity)) as (Hparams & Hcached).
  split; [exact Hinit|]. split; [exact Hlayout|]. split; [reflexivity|]. split.
  - rewrite Hparams. vm_compute. reflexivity.
  - exact Hcached.
Defined.

Lemma initial_offset_pending_witness :
  let o := _onSizeChanged viewport300 (constructor offsetProps) in
  _pendingScrollToOffset (final o) = Some (mkPoint 0 200) /\
  deferredScrolls (trace (componentDidUpdate (final o))) = [(0, 200)].
Proof.
  cbn zeta.
  pose proof (initial_offset_pending (constructor offsetProps) viewport300
                hundredRows (mkOracle 1 (uniformTable 100)) eq_refl
                ltac:(vm_compute; discriminate) ltac:(vm_compute; discriminate)
                eq_refl eq_refl ltac:(vm_compute; reflexivity)) as H.
  cbv zeta in H. destruct H as [Hpositive _].
  destruct (Hpositive ltac:(vm_compute; reflexivity)) as [_ Hpending].
  split.
  - rewrite Hpending. vm_compute. reflexivity.
  - vm_compute. reflexivity.
Defined.

Lemma scroll_offset_round_trip_witness :
  let torn := final (componentWillUnmount scrolledStored) in
  let fresh := final (componentWillMount (constructor (recreatedProps false torn))) in
  getCurrentScrollOffset scrolledStored = 500 /\
  _initialOffset fresh = 500 /\
  p_initialOffset (initialParams (sized viewport300 fresh) hundredRows) = 500 /\
  p_initialOffset (_params (final (_onSizeChanged viewport300 fresh))) = 500.
Proof.
  cbn zeta. split; [vm_compute; reflexivity|].
  pose proof (scroll_offset_round_trip (ContextProviderLaws0 := store_laws)
                (ContextProviderKeys0 := store_keys)
                scrolledStored emptyStore "list"
                (recreatedProps false (final (componentWillUnmount scrolledStored)))
                viewport300 hundredRows (mkOracle 1 (uniformTable 100))
                ltac:(vm_compute; reflexivity) ltac:(vm_compute; reflexivity)
                eq_refl eq_refl eq_refl
                ltac:(vm_compute; discriminate) ltac:(vm_compute; discriminate)) as H.
  cbv zeta in H. destruct H as (Hoffset & Hhanded & Hparams).
  split; [|split].
  - rewrite Hoffset. vm_compute. reflexivity.
  - rewrite Hhanded. vm_compute. reflexivity.
  - rewrite (Hparams ltac:(vm_compute; reflexivity)). vm_compute. reflexivity.
Defined.

Lemma componentWillMount_outcomes_witness :
  let o := componentWillMount
             (constructor (listProps (uniformTable 100) (Some corruptStore) true)) in
  result o = inl SyntaxError /\
  contextProvider (props (final o)) = Some corruptStore /\
  _cachedLayouts (final o) = None.
Proof.
  cbn zeta. split; [vm_compute; reflexivity|].
  pose proof (componentWillMount_outcomes
                (constructor (listProps (uniformTable 100) (Some corruptStore) true))
                corruptStore "list" eq_refl ltac:(vm_compute; reflexivity)) as H.
  cbv zeta in H. destruct H as (_ & _ & Hfail).
  destruct (Hfail SyntaxError ltac:(vm_compute; reflexivity)) as (Hcp & Hcached & _).
  split; [exact Hcp | exact Hcached].
Defined.

Lemma onScroll_latch_tracks_region_witness :
  let o := _onScroll 0 4700 tt (mounted plainProps) in
  _onEndReachedCalled (mounted plainProps) = false /\
  _onEndReachedCalled (final o) = true /\
  endReachedCalls (trace o) = 1%nat.
Proof.
  cbn zeta. split; [vm_compute; reflexivity|].
  pose proof (onScroll_latch_tracks_region (mounted plainProps) 0 4700 tt
                ltac:(vm_compute; reflexivity) ltac:(vm_compute; reflexivity)) as H.
  cbv zeta in H. destruct H as (Hlatch & Hcalls).
  split.
  - rewrite Hlatch. vm_compute. reflexivity.
  - rewrite Hcalls. vm_compute. reflexivity.
Defined.

Lemma cursor_stays_in_range_witness :
  let s := final (_onViewContainerSizeChange (mkDimension 40 50) 3 (mounted plainProps)) in
  _relayoutReqIndex s = 3 /\
  cursorInRange (final (componentDidUpdate s)) /\
  cursorInRange (final (render s)).
Proof.
  cbn zeta. split; [vm_compute; reflexivity|].
  pose proof (cursor_stays_in_range
                (final (_onViewContainerSizeChange (mkDimension 40 50) 3
                          (mounted plainProps)))
                ltac:(vm_compute; discriminate)) as H.
  destruct H as (_ & _ & Hupdate & Hrender & _).
  split; [exact Hupdate | exact Hrender].
Defined.

Lemma onScroll_observer_forwarded_witness :
  let o := _onScroll 0 500 tt (mounted plainProps) in
  result o = inr tt /\
  visibilityCalls (trace o)
    = [([10; 11; 12; 13; 14; 15], [10; 11; 12; 13; 14; 15], [0; 1; 2; 3; 4; 5])].
Proof.
  cbn zeta.
  pose proof (onScroll_observer_forwarded (mounted plainProps) 0 500 tt
                ltac:(vm_compute; reflexivity)) as H.
  cbv zeta in H. destruct H as (Hr & Hcalls).
  split; [exact Hr|]. rewrite Hcalls. vm_compute. reflexivity.
Defined.

Lemma context_hooks_without_key_witness :
  let s := mounted (listProps (uniformTable 100) (Some keylessStore) true) in
  componentWillMount s = mkOutcome s [] (inr tt) /\
  componentWillUnmount s = mkOutcome s [] (inr tt).
Proof.
  cbn zeta.
  apply (context_hooks_without_key
           (mounted (listProps (uniformTable 100) (Some keylessStore) true))).
  right. exists keylessStore. split; [vm_compute; reflexivity | right; reflexivity].
Defined.

Lemma resize_then_update_settles_witness :
  let resized := final (_onViewContainerSizeChange (mkDimension 40 50) 3
                          (mounted plainProps)) in
  let update := componentDidUpdate resized in
  let again := componentDidUpdate (final update) in
  relayouts (trace update) = [(3, 100)] /\
  refreshRequests (trace update) = 1%nat /\
  _relayoutReqIndex (final update) = -1 /\
  relayouts (trace again) = [] /\
  refreshRequests (trace again) = 0%nat.
Proof.
  cbn zeta.
  exact (resize_then_update_settles (CollaboratorLaws0 := engine_laws)
           (mounted plainProps) (mkDimension 40 50) 3 hundredRows
           ltac:(vm_compute; reflexivity) ltac:(vm_compute; reflexivity)
           ltac:(lia) ltac:(vm_compute; reflexivity)
           ltac:(vm_compute; reflexivity)).
Defined.

Lemma refresh_burst_coalesced_witness :
  let s := mounted plainProps in
  let d := mkDimension 60 50 in
  let burst := resizeAll [(d, 5); (d, 2); (d, 7)] s in
  let requests := refreshInputs 0 (trace burst) in
  let queued := Debounce.run refreshRequestDebouncer requests in
  length requests = 3%nat /\
  snd queued = [] /\
  snd (Debounce.run (fst queued) [Debounce.Idle 0]) = [SetState].
Proof.
  cbn zeta.
  pose proof (refresh_burst_coalesced (CollaboratorLaws0 := engine_laws)
                (mounted plainProps) (mkDimension 60 50, 5)
                [(mkDimension 60 50, 2); (mkDimension 60 50, 7)]
                refreshRequestDebouncer 0 0
                ltac:(vm_compute; reflexivity) eq_refl (conj eq_refl eq_refl)
                ltac:(lia)) as H.
  cbv zeta in H. destruct H as (Hlen & Hnone & Hone & _).
  split; [exact Hlen|]. split; [exact Hnone | exact Hone].
Defined.

(** C8, counterexample to the claim as stated: the first request of a burst
    does not run when it is made.  One [_queueStateRefresh] on the mounted
    list hands the debouncer of the source one request; nothing runs at that
    time, where a leading-edge debouncer would have run it; it runs when the
    event loop is next free. *)
Lemma first_refresh_request_deferred :
  let o := _queueStateRefresh (mounted plainProps) in
  let requests := refreshInputs 0 (trace o) in
  let leadingEdge := Debounce.debounce (Debounce.mkOptions 0 true true) in
  requests = [Debounce.Request 0 SetState] /\
  snd (Debounce.run refreshRequestDebouncer requests) = [] /\
  snd (Debounce.run leadingEdge requests) = [SetState] /\
  snd (Debounce.run refreshRequestDebouncer (requests ++ [Debounce.Idle 0]))
    = [SetState].
Proof. cbn zeta. repeat split; reflexivity. Qed.

End OnTheConcreteList.
